(** * automation_script.py: the resilient GitHub API call and the main run

    A shallow embedding of [.github/scripts/automation_script.py].

    - [PyStr]    the three [str] operations the script relies on
                 ([lower], [in], [splitlines()[0]]);
    - [Http]     responses, what [requests.request] can do, exceptions;
    - [Exec]     a small state-and-exception monad for the effects of the
                 script (HTTP requests, [time.time], [time.sleep]) and
                 [github_api_call] written in it;
    - [Main]     the [try]/[except] skeleton of the [__main__] block.

    Diagnostics ([print]) are not modelled, but for the one that reports
    a swallowed logging error in [__main__]. *)

From Stdlib Require Import ZArith List String Ascii Bool Lia.
From Stdlib Require DecimalString.
Import ListNotations.

Local Open Scope Z_scope.

(* ------------------------------------------------------------------ *)
(** ** Python strings *)

Module PyStr.

(** A [str] is modelled as a string of code points below 256. *)

(** [c.lower()] on a code point below 256: the letters A-Z and the
    Latin-1 capitals (192..222 except the multiplication sign 215)
    move up by 32, everything else is unchanged. *)
Definition lower_char (c : ascii) : ascii :=
  let n := nat_of_ascii c in
  if ((65 <=? n) && (n <=? 90))%nat
     || ((192 <=? n) && (n <=? 222) && negb (n =? 215))%nat
  then ascii_of_nat (n + 32)
  else c.

(** [s.lower()] *)
Fixpoint lower (s : string) : string :=
  match s with
  | EmptyString => EmptyString
  | String c s' => String (lower_char c) (lower s')
  end.

(** [s.startswith(p)] *)
Fixpoint startswith (p s : string) : bool :=
  match p, s with
  | EmptyString, _ => true
  | String _ _, EmptyString => false
  | String a p', String b s' => if Ascii.eqb a b then startswith p' s' else false
  end.

(** [needle in s] *)
Fixpoint contains (needle s : string) : bool :=
  if startswith needle s then true
  else match s with
       | EmptyString => false
       | String _ s' => contains needle s'
       end.

(** The line boundaries [str.splitlines] knows below code point 256:
    LF, VT, FF, CR, FS, GS, RS and NEL. *)
Definition is_linebreak (c : ascii) : bool :=
  let n := nat_of_ascii c in
  ((10 <=? n) && (n <=? 13) || (28 <=? n) && (n <=? 30) || (n =? 133))%nat.

Fixpoint upto_linebreak (s : string) : string :=
  match s with
  | EmptyString => EmptyString
  | String c s' => if is_linebreak c then EmptyString
                   else String c (upto_linebreak s')
  end.

(** [s.splitlines()[0]]: [None] stands for the [IndexError] raised when
    [s.splitlines()] is the empty list, which is the case exactly for the
    empty string. *)
Definition first_line (s : string) : option string :=
  match s with
  | EmptyString => None
  | _ => Some (upto_linebreak s)
  end.

End PyStr.

(* ------------------------------------------------------------------ *)
(** ** HTTP responses and exceptions *)

Module Http.

(** The [X-RateLimit-Reset] header as [int(...)] sees it: missing, an
    integer literal, or a value on which [int] raises [ValueError]. *)
Inductive reset_header : Type :=
| HeaderAbsent
| HeaderInt (epoch : Z)
| HeaderNotInt.

Record Response : Type := mkResponse {
  status_code : Z;
  text : string;
  x_ratelimit_reset : reset_header
}.

(** What one call of [requests.request] does: it gives a response, raises
    [requests.exceptions.ConnectionError] (or a subclass of it), or raises
    some other exception, which no handler of the script catches. *)
Inductive outcome : Type :=
| Responded (r : Response)
| ConnectionFailed
| OtherFailure.

Inductive exn : Type :=
| HTTPError (r : Response)
| ConnectionError
| OtherRequestError
| ValueError
| Exception (msg : string)
| OverflowError
| OSError.

(** [response.raise_for_status()] of the [requests] library raises
    [HTTPError] for the statuses 400..599 and for no other. *)
Definition is_http_error (r : Response) : bool :=
  (400 <=? status_code r) && (status_code r <? 600).

End Http.

(* ------------------------------------------------------------------ *)
(** ** Effects *)

Module Exec.
Import Http.

Inductive event : Type :=
| EvRequest
| EvSleep (seconds : Z).

(** A value of [time.time()], a float, seen through the two expressions
    the script applies to it: [int(t)] and [int(t + 60)].  The sum is
    made in floating point, so the second is not always the first plus
    60. *)
Record reading : Type := mkReading {
  as_int : Z;
  plus_60_as_int : Z
}.

(** The environment of one call of [github_api_call]: the outcome of its
    k-th HTTP request, the k-th value of [time.time()], and how much more
    than [SAFE_SLEEP] seconds the platform lets [time.sleep] wait. *)
Record Env : Type := mkEnv {
  server : nat -> outcome;
  clock : nat -> reading;
  sleep_headroom : N
}.

Record World : Type := mkWorld {
  requests_made : nat;
  clock_reads : nat;
  trace : list event
}.

Definition world0 : World := mkWorld 0 0 [].

Inductive res (A : Type) : Type :=
| Val (a : A)
| Exc (e : exn).
Arguments Val {A} a.
Arguments Exc {A} e.

Definition M (A : Type) : Type := Env -> World -> res A * World.

Definition ret {A} (a : A) : M A := fun _ w => (Val a, w).

Definition bind {A B} (m : M A) (k : A -> M B) : M B :=
  fun env w =>
    match m env w with
    | (Val a, w') => k a env w'
    | (Exc e, w') => (Exc e, w')
    end.

Definition raise {A} (e : exn) : M A := fun _ w => (Exc e, w).

(** [try: m  except ... as e: handler e]; a handler that does not match
    the exception re-raises it. *)
Definition try_except {A} (m : M A) (handler : exn -> M A) : M A :=
  fun env w =>
    match m env w with
    | (Val a, w') => (Val a, w')
    | (Exc e, w') => handler e env w'
    end.

Declare Scope exec_scope.
Delimit Scope exec_scope with exec.
Notation "x <- m ;; k" := (bind m (fun x => k))
  (at level 100, m at next level, right associativity) : exec_scope.
Notation "m ;;; k" := (bind m (fun _ => k))
  (at level 100, right associativity) : exec_scope.
Local Open Scope exec_scope.

Definition log_event (e : event) (w : World) : World :=
  mkWorld (requests_made w) (clock_reads w) (trace w ++ [e]).

(** [requests.request(method, full_url, headers=HEADERS, **kwargs)] *)
Definition requests_request : M Response :=
  fun env w =>
    let w' := mkWorld (S (requests_made w)) (clock_reads w)
                      (trace w ++ [EvRequest]) in
    match server env (requests_made w) with
    | Responded r => (Val r, w')
    | ConnectionFailed => (Exc ConnectionError, w')
    | OtherFailure => (Exc OtherRequestError, w')
    end.

(** [response.raise_for_status()] *)
Definition raise_for_status (r : Response) : M unit :=
  if is_http_error r then raise (HTTPError r) else ret tt.

(** [time.time()] *)
Definition time_time : M reading :=
  fun env w =>
    (Val (clock env (clock_reads w)),
     mkWorld (requests_made w) (S (clock_reads w)) (trace w)).

(** The largest whole number of seconds whose count of nanoseconds fits
    the 64-bit timestamp of CPython; the smallest one is its opposite. *)
Definition MAX_TIMESTAMP : Z := 9223372036.

(** Every platform lets [time.sleep] wait this long; how much longer is
    up to the platform and its clock (on Linux the deadline must stay
    below the largest time of the kernel, so the limit moves with the
    uptime). *)
Definition SAFE_SLEEP : Z := 1000000.

(** The exception with which [time.sleep(seconds)] refuses an integer
    duration on a platform that accepts up to [limit] seconds:
    [OverflowError] for one too large to convert, [ValueError] for a
    negative one, [OSError] for one the platform does not accept; [None]
    when it sleeps. *)
Definition refusal_at (limit : Z) (seconds : Z) : option exn :=
  if (seconds >? MAX_TIMESTAMP) || (seconds <? - MAX_TIMESTAMP)
  then Some OverflowError
  else if seconds <? 0 then Some ValueError
  else if seconds >? limit then Some OSError
  else None.

Definition sleep_limit (env : Env) : Z := SAFE_SLEEP + Z.of_N (sleep_headroom env).

Definition refusal (env : Env) (seconds : Z) : option exn :=
  refusal_at (sleep_limit env) seconds.

(** [time.sleep(seconds)] *)
Definition time_sleep (seconds : Z) : M unit :=
  fun env w =>
    match refusal env seconds with
    | Some e => (Exc e, w)
    | None => (Val tt, log_event (EvSleep seconds) w)
    end.

(** [int(e.response.headers.get('X-RateLimit-Reset', default))] *)
Definition int_reset_header (h : reset_header) (default : Z) : M Z :=
  match h with
  | HeaderAbsent => ret default
  | HeaderInt epoch => ret epoch
  | HeaderNotInt => raise ValueError
  end.

(** ** [github_api_call] *)

Definition max_retries : nat := 5.

(** [e.response.status_code == 403 and
     'rate limit exceeded' in e.response.text.lower()] *)
Definition rate_limit_hit (r : Response) : bool :=
  (status_code r =? 403)
  && PyStr.contains "rate limit exceeded" (PyStr.lower (text r)).

(** [e.response.status_code in [404, 409]] *)
Definition in_404_409 (r : Response) : bool :=
  (status_code r =? 404) || (status_code r =? 409).

(** The [except requests.exceptions.HTTPError as e] clause.  [None] lets
    the [for] loop go on; the clause never returns a response. *)
Definition on_http_error (attempt : nat) (r : Response) : M (option Response) :=
  if rate_limit_hit r then
    default <- time_time ;;
    reset_time <- int_reset_header (x_ratelimit_reset r) (plus_60_as_int default) ;;
    now <- time_time ;;
    let sleep_duration := Z.max (reset_time - as_int now + 1) 10 in
    time_sleep sleep_duration ;;;
    ret None
  else if in_404_409 r || (attempt =? max_retries - 1)%nat then
    raise (HTTPError r)
  else
    let sleep_duration := 2 ^ Z.of_nat attempt in
    time_sleep sleep_duration ;;;
    ret None.

(** The [except requests.exceptions.ConnectionError as e] clause. *)
Definition on_connection_error (attempt : nat) : M (option Response) :=
  if (attempt =? max_retries - 1)%nat then raise ConnectionError
  else
    let sleep_duration := 2 ^ Z.of_nat attempt in
    time_sleep sleep_duration ;;;
    ret None.

(** The body of the [for] loop: [Some response] is [return response]. *)
Definition attempt_body (attempt : nat) : M (option Response) :=
  try_except
    (response <- requests_request ;;
     raise_for_status response ;;;
     ret (Some response))
    (fun e =>
       match e with
       | HTTPError r => on_http_error attempt r
       | ConnectionError => on_connection_error attempt
       | _ => raise e
       end).

(** [for attempt in attempts: body], left at the first [return] or
    exception; [None] when the loop runs to its end. *)
Fixpoint for_each (body : nat -> M (option Response)) (attempts : list nat)
  : M (option Response) :=
  match attempts with
  | [] => ret None
  | attempt :: rest =>
      fun env w =>
        match body attempt env w with
        | (Val None, w') => for_each body rest env w'
        | other => other
        end
  end.

Definition github_api_call : M Response :=
  returned <- for_each attempt_body (seq 0 max_retries) ;;
  match returned with
  | Some response => ret response
  | None => raise (Exception "Failed to make API call after multiple retries.")
  end.

(** A call on its own: result and world after it. *)
Definition run (env : Env) : res Response * World := github_api_call env world0.

End Exec.

(* ------------------------------------------------------------------ *)
(** ** The [__main__] block *)

Module Main.
Import Http.

(** The four module-level values read with [os.getenv]. *)
Record Config : Type := mkConfig {
  GITHUB_TOKEN : option string;
  REPO_OWNER : option string;
  REPO_NAME : option string;
  LOG_FILE_PATH : option string
}.

(** [not v] for a value that is [None] or a [str]. *)
Definition py_not (v : option string) : bool :=
  match v with
  | None => true
  | Some EmptyString => true
  | Some _ => false
  end.

(** The calls of the [try] block that can raise, in program order.
    [get_branch_ref] is the direct [github_api_call("GET", ...)] of step 3
    and [log_success] the [log_event] of step 6. *)
Inductive step : Type :=
| create_repository_if_not_exists
| get_main_branch_sha
| create_branch
| get_branch_ref
| update_file_and_commit
| create_pull_request
| merge_pull_request
| log_success
| delete_branch.

Inductive action : Type :=
| Call (s : step)
| Sleep (seconds : Z).

Definition try_block : list action :=
  [ Call create_repository_if_not_exists;
    Call get_main_branch_sha;
    Call create_branch;
    Call get_branch_ref;
    Call update_file_and_commit;
    Call create_pull_request;
    Sleep 5;
    Call merge_pull_request;
    Call log_success;
    Sleep 10;
    Call delete_branch ].

(** An exception of class [Exception] leaving a call: an [HTTPError] with
    its response, or any other one with its [str(e)]. *)
Inductive raised : Type :=
| RaisedHTTPError (r : Response)
| RaisedException (str_e : string).

(** What the functions called by the block do in one run: whether a step
    raises, and whether the [log_event] of a failure message raises. *)
Record Env : Type := mkEnv {
  step_raises : step -> option raised;
  failure_log_raises : string -> option raised
}.

Inductive event : Type :=
| EvCall (s : step)
| EvSleep (seconds : Z)
| EvLogFailure (message : string)
| EvPrintLogError.

Inductive termination : Type :=
| EndOfScript
| SystemExit (code : Z)
| UncaughtValueError
| UncaughtIndexError.

(** The exit status of the interpreter: an uncaught exception gives 1. *)
Definition exit_status (t : termination) : Z :=
  match t with
  | EndOfScript => 0
  | SystemExit code => code
  | UncaughtValueError => 1
  | UncaughtIndexError => 1
  end.

(** [str(n)] for an [int]. *)
Definition str_of_int (n : Z) : string :=
  DecimalString.NilZero.string_of_int (Z.to_int n).

(** Runs the statements of the [try] block up to the first exception. *)
Fixpoint run_block (env : Env) (block : list action) (done : list event)
  : list event * option raised :=
  match block with
  | [] => (done, None)
  | Sleep seconds :: rest => run_block env rest (done ++ [EvSleep seconds])
  | Call s :: rest =>
      match step_raises env s with
      | Some e => (done ++ [EvCall s], Some e)
      | None => run_block env rest (done ++ [EvCall s])
      end
  end.

(** The [error_message] of the two [except] clauses; [None] is the
    [IndexError] of [.splitlines()[0]] on an empty text. *)
Definition error_message (e : raised) : option string :=
  match e with
  | RaisedHTTPError r =>
      match PyStr.first_line (text r) with
      | Some line =>
          Some ("Fatal GitHub API Error: " ++ str_of_int (status_code r)
                ++ " - " ++ line)%string
      | None => None
      end
  | RaisedException str_e =>
      match PyStr.first_line str_e with
      | Some line => Some ("An unexpected error occurred: " ++ line)%string
      | None => None
      end
  end.

(** Either [except] clause: build the message, try to log it, swallow an
    exception of that logging, [exit(1)]. *)
Definition except_clause (env : Env) (e : raised) (done : list event)
  : list event * termination :=
  match error_message e with
  | None => (done, UncaughtIndexError)
  | Some msg =>
      let message := ("Failed to complete automation: " ++ msg)%string in
      match failure_log_raises env message with
      | None => (done ++ [EvLogFailure message], SystemExit 1)
      | Some _ =>
          (done ++ [EvLogFailure message; EvPrintLogError], SystemExit 1)
      end
  end.

Definition main (cfg : Config) (env : Env) : list event * termination :=
  if py_not (GITHUB_TOKEN cfg) then ([], UncaughtValueError)
  else if py_not (REPO_OWNER cfg) || py_not (REPO_NAME cfg)
          || py_not (LOG_FILE_PATH cfg)
  then ([], UncaughtValueError)
  else
    match run_block env try_block [] with
    | (done, None) => (done, EndOfScript)
    | (done, Some e) => except_clause env e done
    end.

(** Number of failure-log appends attempted in a run. *)
Fixpoint failure_logs (evs : list event) : nat :=
  match evs with
  | [] => 0
  | EvLogFailure _ :: rest => S (failure_logs rest)
  | _ :: rest => failure_logs rest
  end.

End Main.

(* ------------------------------------------------------------------ *)
(** ** Vocabulary of the statements *)

Module Obs.
Import Http Exec.

(** The loop of [github_api_call env] arrives at the start of attempt
    number [k] (counted from 0) in world [w]: the attempts before it all
    ended in a sleep. *)
Definition reaches (env : Env) (k : nat) (w : World) : Prop :=
  for_each attempt_body (seq 0 k) env world0 = (Val None, w).

(** The world after one more request and the given sleeps. *)
Definition after_request (w : World) (reads : nat) (then_ : list event) : World :=
  mkWorld (S (requests_made w)) (reads + clock_reads w)
          (trace w ++ EvRequest :: then_).

Fixpoint n_requests (tr : list event) : nat :=
  match tr with
  | [] => 0
  | EvRequest :: rest => S (n_requests rest)
  | EvSleep _ :: rest => n_requests rest
  end.

(** The [reset_time] of the rate-limit branch: the header, or the default
    made from the first clock reading. *)
Definition reset_time_of (r : Response) (default : Z) : Z :=
  match x_ratelimit_reset r with
  | HeaderInt epoch => epoch
  | _ => default
  end.

(** The sleep that follows the k-th request of a trace, if there is one. *)
Fixpoint sleep_after (k : nat) (tr : list event) : option Z :=
  match tr with
  | [] => None
  | EvSleep _ :: rest => sleep_after k rest
  | EvRequest :: rest =>
      match k with
      | O => match rest with EvSleep d :: _ => Some d | _ => None end
      | S k' => sleep_after k' rest
      end
  end.

(** [n] failed attempts with exponential backoff: request, sleep 1,
    request, sleep 2, ... *)
Definition backoff_trace (n : nat) : list event :=
  flat_map (fun k => [EvRequest; EvSleep (2 ^ Z.of_nat k)]) (seq 0 n).

(** The server that behaves as [srv] with its attempt number [i] taken
    out. *)
Definition drop_attempt (i : nat) (srv : nat -> outcome) : nat -> outcome :=
  fun k => if (k <? i)%nat then srv k else srv (S k).

(** The environment [env] with the attempt number [i] taken out of what
    its server does. *)
Definition without_attempt (i : nat) (env : Env) : Env :=
  mkEnv (drop_attempt i (server env)) (clock env) (sleep_headroom env).

(** [time.sleep] accepts a duration that is not negative when it is
    neither too large to convert nor more than the platform allows. *)
Definition accepted (env : Env) (seconds : Z) : Prop :=
  seconds <= MAX_TIMESTAMP /\ seconds <= sleep_limit env.

(** The [sleep_duration] of the rate-limit branch for the response [r]
    handled in world [w]: the reset time comes from the header or from
    the first clock value, the current time from the second one. *)
Definition rate_limit_sleep (env : Env) (w : World) (r : Response) : Z :=
  Z.max (reset_time_of r (plus_60_as_int (clock env (clock_reads w)))
         - as_int (clock env (S (clock_reads w))) + 1) 10.

(** Sample responses and environments. *)
Definition ok_200 : Response := mkResponse 200 "{}" HeaderAbsent.
Definition rate_limited_403 : Response :=
  mkResponse 403 "API Rate Limit Exceeded for user ID 1." HeaderAbsent.
Definition rate_limited_reset (epoch : Z) : Response :=
  mkResponse 403 "API rate limit exceeded" (HeaderInt epoch).
Definition rate_limited_bad_header : Response :=
  mkResponse 403 "API rate limit exceeded" HeaderNotInt.
Definition server_error_500 : Response :=
  mkResponse 500 "Internal Server Error" HeaderAbsent.
Definition not_found_404 : Response := mkResponse 404 "Not Found" HeaderAbsent.
Definition see_other_303 : Response := mkResponse 303 "" HeaderAbsent.

(** A clock that stands at [now], a whole number of seconds. *)
Definition standing (now : Z) : nat -> reading :=
  fun _ => mkReading now (now + 60).

(** The server that gives the listed outcomes, then 200s, with a clock
    that stands at [now], on a platform without headroom for sleeps. *)
Definition scripted (outs : list outcome) (now : Z) : Env :=
  mkEnv (fun k => nth k outs (Responded ok_200)) (standing now) 0.

Definition always (o : outcome) (now : Z) : Env :=
  mkEnv (fun _ => o) (standing now) 0.

(** A complete configuration, and the run in which [merge_pull_request]
    raises the given exception while the other steps succeed; [log_fails]
    tells whether the [log_event] of the failure raises as well. *)
Definition sample_config : Main.Config :=
  Main.mkConfig (Some "ghp_token"%string) (Some "octocat"%string)
                (Some "pull-shark"%string) (Some "automation_log.md"%string).

Definition merge_fails (e : Main.raised) (log_fails : bool) : Main.Env :=
  Main.mkEnv
    (fun s => match s with
              | Main.merge_pull_request => Some e
              | _ => None
              end)
    (fun _ => if log_fails
              then Some (Main.RaisedException "log write failed")
              else None).

Definition all_steps_succeed : Main.Env :=
  Main.mkEnv (fun _ => None) (fun _ => None).

(** The four settings are present and not empty. *)
Definition configured (cfg : Main.Config) : Prop :=
  Main.py_not (Main.GITHUB_TOKEN cfg) = false
  /\ Main.py_not (Main.REPO_OWNER cfg) = false
  /\ Main.py_not (Main.REPO_NAME cfg) = false
  /\ Main.py_not (Main.LOG_FILE_PATH cfg) = false.

End Obs.

(* ------------------------------------------------------------------ *)
(** ** The functions that drive the API *)

Module Script.
Import Http.

(** A decoded JSON value, as [response.json()] gives it and as [json=data]
    takes it.  A [dict] is its list of items, looked up by the first item
    with the key; numbers are integers. *)
#[local] Unset Elimination Schemes.
Inductive json : Type :=
| JNull
| JBool (b : bool)
| JInt (n : Z)
| JStr (s : string)
| JList (items : list json)
| JDict (items : list (string * json)).
#[local] Set Elimination Schemes.

(** [bool(v)] *)
Definition truthy (v : json) : bool :=
  match v with
  | JNull => false
  | JBool b => b
  | JInt n => negb (n =? 0)
  | JStr s => negb (String.eqb s "")
  | JList items => match items with [] => false | _ => true end
  | JDict items => match items with [] => false | _ => true end
  end.

Fixpoint dict_get (items : list (string * json)) (key : string) : option json :=
  match items with
  | [] => None
  | (k, v) :: rest => if String.eqb k key then Some v else dict_get rest key
  end.

(** One call of [github_api_call(method, url, json=...)]; the URL asked
    for is [BASE_API_URL] followed by [url]. *)
Record Request : Type := mkRequest {
  method : string;
  url : string;
  json_body : option json
}.

Definition BASE_API_URL : string := "https://api.github.com".

Definition full_url (rq : Request) : string := (BASE_API_URL ++ url rq)%string.

(** [ApiError e] is an exception of the kinds [github_api_call] and
    [time.sleep] raise. *)
Inductive exn : Type :=
| ApiError (e : Http.exn)
| JSONDecodeError
| KeyError (key : string)
| TypeError
| IndexError
| ContentError.

(** What the script uses of the libraries: [response.json()] ([None] when
    it raises), [str(v)] of a decoded value inside an f-string,
    [base64.b64encode(s.encode('utf-8')).decode('utf-8')] and
    [base64.b64decode(v).decode('utf-8')] ([None] when it raises). *)
Record Library : Type := mkLibrary {
  response_json : Response -> option json;
  py_str : json -> string;
  b64encode_utf8 : string -> string;
  b64decode_utf8 : json -> option string
}.

(** The world outside: for the k-th call of [github_api_call] and its
    request, the server and clock that call meets; the k-th reading of
    the wall clock already formatted by [strftime]; and how much longer
    than [Exec.SAFE_SLEEP] the platform lets the script's own
    [time.sleep] wait. *)
Record Remote : Type := mkRemote {
  lib : Library;
  api : nat -> Request -> Exec.Env;
  strftime_now : nat -> string;
  sleep_headroom : N
}.

Inductive event : Type :=
| Called (rq : Request) (attempts : list Exec.event)
| Slept (seconds : Z).

Record World : Type := mkWorld {
  api_calls : nat;
  time_reads : nat;
  events : list event
}.

Definition start : World := mkWorld 0 0 [].

Inductive result (A : Type) : Type :=
| Ok (a : A)
| Raised (e : exn).
Arguments Ok {A} a.
Arguments Raised {A} e.

Definition Run (A : Type) : Type := Remote -> World -> result A * World.

Definition pure {A} (a : A) : Run A := fun _ w => (Ok a, w).

Definition and_then {A B} (m : Run A) (k : A -> Run B) : Run B :=
  fun rem w =>
    match m rem w with
    | (Ok a, w') => k a rem w'
    | (Raised e, w') => (Raised e, w')
    end.

Definition throw {A} (e : exn) : Run A := fun _ w => (Raised e, w).

(** [try: m  except requests.exceptions.HTTPError as e: handler e.response];
    every other exception goes through. *)
Definition except_HTTPError {A} (m : Run A) (handler : Response -> Run A) : Run A :=
  fun rem w =>
    match m rem w with
    | (Raised (ApiError (HTTPError r)), w') => handler r rem w'
    | other => other
    end.

Declare Scope script_scope.
Delimit Scope script_scope with script.
Notation "x <- m ;; k" := (and_then m (fun x => k))
  (at level 100, m at next level, right associativity) : script_scope.
Notation "m ;;; k" := (and_then m (fun _ => k))
  (at level 100, right associativity) : script_scope.
Local Open Scope script_scope.
Local Open Scope string_scope.

(** [github_api_call(method, url, json=body)], run as modelled in [Exec]
    against what the remote side does for this call. *)
Definition github_api_call (method url : string) (body : option json) : Run Response :=
  fun rem w =>
    let rq := mkRequest method url body in
    let out := Exec.run (api rem (api_calls w) rq) in
    let w' := mkWorld (S (api_calls w)) (time_reads w)
                      (events w ++ [Called rq (Exec.trace (snd out))]) in
    match fst out with
    | Exec.Val r => (Ok r, w')
    | Exec.Exc e => (Raised (ApiError e), w')
    end.

(** [time.sleep(seconds)]: it refuses the durations that
    [Exec.time_sleep] refuses. *)
Definition time_sleep (seconds : Z) : Run unit :=
  fun rem w =>
    match Exec.refusal_at (Exec.SAFE_SLEEP + Z.of_N (sleep_headroom rem)) seconds with
    | Some e => (Raised (ApiError e), w)
    | None => (Ok tt, mkWorld (api_calls w) (time_reads w)
                              (events w ++ [Slept seconds]))
    end.

(** [response.json()] *)
Definition json_of (r : Response) : Run json :=
  fun rem w =>
    match response_json (lib rem) r with
    | Some v => (Ok v, w)
    | None => (Raised JSONDecodeError, w)
    end.

(** [v[key]] for a string key: [KeyError] on a [dict] without the key,
    [TypeError] on anything that is not a [dict]. *)
Definition subscript (v : json) (key : string) : Run json :=
  match v with
  | JDict items =>
      match dict_get items key with
      | Some x => pure x
      | None => throw (KeyError key)
      end
  | _ => throw TypeError
  end.

(** [f"{v}"] for a setting that is a [str] or [None]. *)
Definition fmt (v : option string) : string :=
  match v with
  | Some s => s
  | None => "None"
  end.

(** A setting as a JSON value. *)
Definition json_of_setting (v : option string) : json :=
  match v with
  | Some s => JStr s
  | None => JNull
  end.

Section Functions.

Variable cfg : Main.Config.

Definition get_repo_url : string :=
  "/repos/" ++ fmt (Main.REPO_OWNER cfg) ++ "/" ++ fmt (Main.REPO_NAME cfg).

Definition get_ref_url (ref_type ref_name : string) : string :=
  "/repos/" ++ fmt (Main.REPO_OWNER cfg) ++ "/" ++ fmt (Main.REPO_NAME cfg)
  ++ "/git/refs/" ++ ref_type ++ "/" ++ ref_name.

Definition get_contents_url (path : option string) : string :=
  "/repos/" ++ fmt (Main.REPO_OWNER cfg) ++ "/" ++ fmt (Main.REPO_NAME cfg)
  ++ "/contents/" ++ fmt path.

Definition get_pulls_url : string :=
  "/repos/" ++ fmt (Main.REPO_OWNER cfg) ++ "/" ++ fmt (Main.REPO_NAME cfg)
  ++ "/pulls".

Definition get_pull_merge_url (pr_number : string) : string :=
  "/repos/" ++ fmt (Main.REPO_OWNER cfg) ++ "/" ++ fmt (Main.REPO_NAME cfg)
  ++ "/pulls/" ++ pr_number ++ "/merge".

Definition get_main_branch_sha : Run json :=
  response <-
    except_HTTPError
      (github_api_call "GET" (get_ref_url "heads" "main") None)
      (fun r =>
         if (status_code r =? 404)%Z
         then github_api_call "GET" (get_ref_url "heads" "master") None
         else throw (ApiError (HTTPError r))) ;;
  v <- json_of response ;;
  object <- subscript v "object" ;;
  subscript object "sha".

(** The loop [for i in range(retries)] that waits for the default branch:
    it ends at the [break] or with an exception. *)
Fixpoint await_main_branch (retries : nat) (range : list nat) : Run unit :=
  match range with
  | [] => pure tt
  | i :: rest =>
      ready <-
        except_HTTPError
          (get_main_branch_sha ;;; pure true)
          (fun branch_r =>
             if (status_code branch_r =? 404)%Z && (i <? retries - 1)%nat
             then time_sleep (2 ^ Z.of_nat i) ;;; pure false
             else throw (ApiError (HTTPError branch_r))) ;;
      if ready then pure tt else await_main_branch retries rest
  end.

Definition new_repository : json :=
  JDict [ ("name", json_of_setting (Main.REPO_NAME cfg));
          ("description",
           JStr "Automated repository for Pull Shark achievement (managed by GitHub Action).");
          ("private", JBool true);
          ("auto_init", JBool true) ].

Definition create_repository_if_not_exists : Run unit :=
  except_HTTPError
    (github_api_call "GET" get_repo_url None ;;; pure tt)
    (fun r =>
       if (status_code r =? 404)%Z then
         github_api_call "POST" "/user/repos" (Some new_repository) ;;;
         time_sleep 15 ;;;
         await_main_branch 10 (seq 0 10)
       else throw (ApiError (HTTPError r))).

Definition create_branch (branch_name : string) (base_sha : json) : Run unit :=
  let data := JDict [ ("ref", JStr ("refs/heads/" ++ branch_name));
                      ("sha", base_sha) ] in
  github_api_call "POST"
    ("/repos/" ++ fmt (Main.REPO_OWNER cfg) ++ "/" ++ fmt (Main.REPO_NAME cfg)
     ++ "/git/refs")
    (Some data) ;;;
  pure tt.

(** The pair returned is [(content, sha)]; [(None, JNull)] is Python's
    [(None, None)]. *)
Definition get_file_content (file_path : option string) (branch : string)
  : Run (option string * json) :=
  except_HTTPError
    (response <- github_api_call "GET"
                   (get_contents_url file_path ++ "?ref=" ++ branch) None ;;
     v <- json_of response ;;
     encoded <- subscript v "content" ;;
     content <- (fun rem w =>
                   match b64decode_utf8 (lib rem) encoded with
                   | Some s => (Ok s, w)
                   | None => (Raised ContentError, w)
                   end) ;;
     v' <- json_of response ;;
     sha <- subscript v' "sha" ;;
     pure (Some content, sha))
    (fun r =>
       if (status_code r =? 404)%Z then pure (None, JNull)
       else throw (ApiError (HTTPError r))).

Definition commit_data (rem : Remote) (branch_name content commit_message : string)
           (current_sha : json) : json :=
  JDict ([ ("message", JStr commit_message);
           ("content", JStr (b64encode_utf8 (lib rem) content));
           ("branch", JStr branch_name) ]
         ++ if truthy current_sha then [("sha", current_sha)] else []).

Definition update_file_and_commit (branch_name : string) (file_path : option string)
           (content commit_message : string) (current_sha : json) : Run json :=
  fun rem =>
    (response <- github_api_call "PUT" (get_contents_url file_path)
                   (Some (commit_data rem branch_name content commit_message
                                      current_sha)) ;;
     v <- json_of response ;;
     commit <- subscript v "commit" ;;
     subscript commit "sha") rem.

Definition create_pull_request (head_branch base_branch title body : string)
  : Run json :=
  let data := JDict [ ("title", JStr title); ("body", JStr body);
                      ("head", JStr head_branch); ("base", JStr base_branch) ] in
  response <- github_api_call "POST" get_pulls_url (Some data) ;;
  v <- json_of response ;;
  subscript v "number".

Definition merge_pull_request (pr_number : json) : Run unit :=
  fun rem =>
    let n := py_str (lib rem) pr_number in
    let data := JDict [ ("commit_title",
                         JStr ("Merge pull request #" ++ n ++ " (Automated)"));
                        ("commit_message",
                         JStr "Automated merge for Pull Shark achievement.");
                        ("merge_method", JStr "merge") ] in
    (github_api_call "PUT" (get_pull_merge_url n) (Some data) ;;; pure tt) rem.

Definition delete_branch (branch_name : string) : Run unit :=
  except_HTTPError
    (github_api_call "DELETE" (get_ref_url "heads" branch_name) None ;;; pure tt)
    (fun r =>
       if (status_code r =? 422)%Z then pure tt
       else throw (ApiError (HTTPError r))).

(** [datetime ... .strftime("%Y-%m-%d %H:%M:%S IST")] *)
Definition current_time_ist : Run string :=
  fun rem w =>
    (Ok (strftime_now rem (time_reads w)),
     mkWorld (api_calls w) (S (time_reads w)) (events w)).

Definition newline : string := String (ascii_of_nat 10) "".

Definition log_header : string :=
  "# GitHub Automation Log for " ++ fmt (Main.REPO_NAME cfg) ++ newline ++ newline.

Definition log_event (message : string) : Run unit :=
  now <- current_time_ist ;;
  let log_entry := "- " ++ now ++ ": " ++ message ++ newline in
  current <- get_file_content (Main.LOG_FILE_PATH cfg) "main" ;;
  let (current_log_content, current_log_sha) := current in
  let new_log_content :=
    match current_log_content with
    | Some (String c s) => String c s ++ log_entry
    | _ => log_header ++ log_entry
    end in
  match PyStr.first_line message with
  | None => throw IndexError
  | Some summary =>
      update_file_and_commit "main" (Main.LOG_FILE_PATH cfg) new_log_content
                             ("Update automation log: " ++ summary)
                             current_log_sha ;;;
      pure tt
  end.

End Functions.

End Script.

(* ------------------------------------------------------------------ *)
(** ** Base64 and UTF-8 *)

(** [base64.b64encode], [base64.b64decode] (CPython 3.11, not strict) and
    the UTF-8 codec, on bytes.  A [str] is held as the string of its
    UTF-8 bytes, so that [s.encode('utf-8')] gives the bytes of [s] and
    [b.decode('utf-8')] gives [b] back when it is well-formed UTF-8. *)
Module PyBase64.
Local Open Scope N_scope.

Definition bytes_of (s : string) : list N := map N_of_ascii (list_ascii_of_string s).
Definition string_of (b : list N) : string := string_of_list_ascii (map ascii_of_N b).

(** [table_b2a_base64]: the character of a 6-bit value. *)
Definition b64_char (i : N) : ascii :=
  ascii_of_N (if i <? 26 then 65 + i
              else if i <? 52 then 71 + i
              else if i <? 62 then i - 4
              else if i =? 62 then 43
              else 47).

(** [table_a2b_base64]: the 6-bit value of a character of the alphabet. *)
Definition b64_value (c : ascii) : option N :=
  let n := N_of_ascii c in
  if (65 <=? n) && (n <=? 90) then Some (n - 65)
  else if (97 <=? n) && (n <=? 122) then Some (n - 71)
  else if (48 <=? n) && (n <=? 57) then Some (n + 4)
  else if n =? 43 then Some 62
  else if n =? 47 then Some 63
  else None.

(** [binascii.b2a_base64(data, newline=False)] *)
Fixpoint b2a_base64 (data : list N) : list ascii :=
  match data with
  | [] => []
  | [a] =>
      [b64_char (N.shiftr a 2); b64_char (N.shiftl (N.land a 3) 4);
       "="%char; "="%char]
  | [a; b] =>
      [b64_char (N.shiftr a 2);
       b64_char (N.lor (N.shiftl (N.land a 3) 4) (N.shiftr b 4));
       b64_char (N.shiftl (N.land b 15) 2); "="%char]
  | a :: b :: c :: rest =>
      b64_char (N.shiftr a 2)
      :: b64_char (N.lor (N.shiftl (N.land a 3) 4) (N.shiftr b 4))
      :: b64_char (N.lor (N.shiftl (N.land b 15) 2) (N.shiftr c 6))
      :: b64_char (N.land c 63)
      :: b2a_base64 rest
  end.

(** The loop of [binascii.a2b_base64] without [strict_mode]: characters
    outside the alphabet are skipped; a ['='] ends the data when it
    completes a quad of at least two characters; data that ends inside a
    quad is an error ([None]).  [out] is the output so far, last byte
    first. *)
Fixpoint a2b_loop (data : list ascii) (quad_pos leftchar pads : N) (out : list N)
  : option (list N) :=
  match data with
  | [] => if quad_pos =? 0 then Some (rev out) else None
  | this_ch :: rest =>
      if Ascii.eqb this_ch "="
      then
        if (2 <=? quad_pos) && (4 <=? quad_pos + (pads + 1))
        then Some (rev out)
        else a2b_loop rest quad_pos leftchar
                      (if 2 <=? quad_pos then pads + 1 else pads) out
      else
        match b64_value this_ch with
        | None => a2b_loop rest quad_pos leftchar pads out
        | Some v =>
            if quad_pos =? 0 then a2b_loop rest 1 v 0 out
            else if quad_pos =? 1 then
              a2b_loop rest 2 (N.land v 15) 0
                       (N.lor (N.shiftl leftchar 2) (N.shiftr v 4) :: out)
            else if quad_pos =? 2 then
              a2b_loop rest 3 (N.land v 3) 0
                       (N.lor (N.shiftl leftchar 4) (N.shiftr v 2) :: out)
            else
              a2b_loop rest 0 0 0 (N.lor (N.shiftl leftchar 6) v :: out)
        end
  end.

Definition a2b_base64 (data : list ascii) : option (list N) :=
  a2b_loop data 0 0 0 [].

Definition is_ascii (s : string) : bool :=
  forallb (fun n => n <? 128) (bytes_of s).

(** Well-formed UTF-8, as the decoder of CPython accepts it: [need]
    continuation bytes are still due, the next one between [lo] and
    [hi]. *)
Fixpoint utf8_ok (data : list N) (need : nat) (lo hi : N) : bool :=
  match data with
  | [] => match need with O => true | S _ => false end
  | b :: rest =>
      match need with
      | O =>
          if b <=? 127 then utf8_ok rest 0 128 191
          else if (194 <=? b) && (b <=? 223) then utf8_ok rest 1 128 191
          else if b =? 224 then utf8_ok rest 2 160 191
          else if b =? 237 then utf8_ok rest 2 128 159
          else if (225 <=? b) && (b <=? 239) then utf8_ok rest 2 128 191
          else if b =? 240 then utf8_ok rest 3 144 191
          else if (241 <=? b) && (b <=? 243) then utf8_ok rest 3 128 191
          else if b =? 244 then utf8_ok rest 3 128 143
          else false
      | S n => (lo <=? b) && (b <=? hi) && utf8_ok rest n 128 191
      end
  end.

(** [base64.b64encode(s.encode('utf-8')).decode('utf-8')] *)
Definition b64encode_utf8 (s : string) : string :=
  string_of_list_ascii (b2a_base64 (bytes_of s)).

(** [base64.b64decode(s).decode('utf-8')] for a [str]: [None] when [s]
    is not ASCII ([ValueError]), when the data is not complete
    ([binascii.Error]) or when the bytes are not UTF-8
    ([UnicodeDecodeError]). *)
Definition b64decode_utf8 (s : string) : option string :=
  if is_ascii s then
    match a2b_base64 (list_ascii_of_string s) with
    | Some b => if utf8_ok b 0 128 191 then Some (string_of b) else None
    | None => None
    end
  else None.

End PyBase64.

(* ------------------------------------------------------------------ *)
(** ** More vocabulary *)

Module Measures.
Import Http Exec Obs.

(** Seconds slept in a trace of [github_api_call]. *)
Fixpoint total_sleep (tr : list event) : Z :=
  match tr with
  | [] => 0
  | EvRequest :: rest => total_sleep rest
  | EvSleep d :: rest => d + total_sleep rest
  end.

(** A response that is neither returned, nor rate-limited, nor a 404 or
    409: the kind the loop retries with exponential backoff. *)
Definition transient (r : Response) : Prop :=
  is_http_error r = true /\ rate_limit_hit r = false /\ in_404_409 r = false.

Definition unprocessable_422 : Response :=
  mkResponse 422 "Reference does not exist" HeaderAbsent.
Definition unauthorized_401 : Response :=
  mkResponse 401 "Bad credentials" HeaderAbsent.

Definition conflict_409 : Response :=
  mkResponse 409 "Pull Request is not mergeable" HeaderAbsent.

End Measures.

Module ScriptObs.
Import Http Script.

(** What the next [github_api_call] gives for a request, and the world it
    leaves. *)
Definition outcome_of (rem : Remote) (w : World) (rq : Request) : Exec.res Response :=
  fst (Exec.run (api rem (api_calls w) rq)).

Definition after_call (rem : Remote) (w : World) (rq : Request) : World :=
  mkWorld (S (api_calls w)) (time_reads w)
          (events w ++ [Called rq (Exec.trace (snd (Exec.run (api rem (api_calls w) rq))))]).

Definition after_sleep (w : World) (seconds : Z) : World :=
  mkWorld (api_calls w) (time_reads w) (events w ++ [Slept seconds]).

Definition after_time_read (w : World) : World :=
  mkWorld (api_calls w) (S (time_reads w)) (events w).

(** The call raised an [HTTPError] with status 404. *)
Definition is_404 (o : Exec.res Response) : bool :=
  match o with
  | Exec.Exc (HTTPError r) => status_code r =? 404
  | _ => false
  end.

(** What the caller of [github_api_call] gets for an outcome. *)
Definition as_result (o : Exec.res Response) : result Response :=
  match o with
  | Exec.Val r => Ok r
  | Exec.Exc e => Raised (ApiError e)
  end.

Fixpoint requests_of (evs : list event) : list Request :=
  match evs with
  | [] => []
  | Called rq _ :: rest => rq :: requests_of rest
  | Slept _ :: rest => requests_of rest
  end.

Fixpoint sleeps_of (evs : list event) : list Z :=
  match evs with
  | [] => []
  | Called _ _ :: rest => sleeps_of rest
  | Slept d :: rest => d :: sleeps_of rest
  end.

(** Seconds slept by the functions themselves, the sleeps inside
    [github_api_call] not counted. *)
Definition total_slept (evs : list event) : Z := fold_right Z.add 0 (sleeps_of evs).

(** The most the loop that waits for the default branch can sleep. *)
Fixpoint poll_sleep_budget (retries : nat) (range : list nat) : Z :=
  match range with
  | [] => 0
  | i :: rest =>
      (if (i <? retries - 1)%nat then 2 ^ Z.of_nat i else 0)
      + poll_sleep_budget retries rest
  end.

Section Requests.
Variable cfg : Main.Config.

Definition rq_repo : Request := mkRequest "GET" (get_repo_url cfg) None.
Definition rq_create_repo : Request :=
  mkRequest "POST" "/user/repos" (Some (new_repository cfg)).
Definition rq_main : Request :=
  mkRequest "GET" (get_ref_url cfg "heads" "main") None.
Definition rq_master : Request :=
  mkRequest "GET" (get_ref_url cfg "heads" "master") None.
Definition rq_contents (file_path : option string) (branch : string) : Request :=
  mkRequest "GET" (get_contents_url cfg file_path ++ "?ref=" ++ branch)%string None.
Definition rq_delete (branch_name : string) : Request :=
  mkRequest "DELETE" (get_ref_url cfg "heads" branch_name) None.

(** The line [log_event] adds for a message at a formatted time. *)
Definition log_entry (now message : string) : string :=
  ("- " ++ now ++ ": " ++ message ++ newline)%string.

End Requests.

(** Sample library and remote sides.  The sample library decodes every
    body as the JSON object given; its base64 is that of [PyBase64],
    which raises [TypeError] for a value that is not a [str]. *)
Definition sample_library (decoded : json) : Library :=
  mkLibrary (fun _ => Some decoded)
            (fun v => match v with
                      | JStr s => s
                      | JInt n => Main.str_of_int n
                      | _ => "None"%string
                      end)
            PyBase64.b64encode_utf8
            (fun v => match v with
                      | JStr s => PyBase64.b64decode_utf8 s
                      | _ => None
                      end).

Definition ref_object : json :=
  JDict [ ("ref"%string, JStr "refs/heads/main");
          ("object"%string, JDict [ ("sha"%string, JStr "aa218f56b14c9653891f9e74264a383fa43fefbd") ]) ].

Definition contents_object : json :=
  JDict [ ("content"%string, JStr ("IyBsb2c=" ++ newline));
          ("sha"%string, JStr "95b966ae1c166bd92f8ae7d1c313e738c731dfc3") ].

(** Every call meets the same server. *)
Definition same_server (decoded : json) (env : Exec.Env) : Remote :=
  mkRemote (sample_library decoded) (fun _ _ => env)
           (fun _ => "2024-05-01 12:00:00 IST"%string) 0.

(** The k-th call meets the k-th listed server, later calls the last
    argument. *)
Definition servers (decoded : json) (envs : list Exec.Env) (then_ : Exec.Env) : Remote :=
  mkRemote (sample_library decoded) (fun k _ => nth k envs then_)
           (fun _ => "2024-05-01 12:00:00 IST"%string) 0.

End ScriptObs.

(* ------------------------------------------------------------------ *)
(** ** The [__main__] block over these functions *)

Module Runner.
Import Http Script.
Local Open Scope script_scope.
Local Open Scope string_scope.

(** What one run reads from its host: [int(time.time())],
    [random.randint(1000, 9999)], the local time formatted with
    ['%Y-%m-%d %H:%M:%S %Z%z'], and [str(e)] of an exception raised by a
    library. *)
Record Host : Type := mkHost {
  timestamp : Z;
  randint : Z;
  strftime_local : string;
  str_of_exn : exn -> string
}.

Section Run.

Variables (cfg : Main.Config) (host : Host).

Definition pr_identifier : string :=
  "pr-" ++ Main.str_of_int (timestamp host) ++ "-" ++ Main.str_of_int (randint host).
Definition branch_name : string := "feature/" ++ pr_identifier.
Definition file_path_in_pr : string := "pr_data/" ++ pr_identifier ++ ".txt".
Definition pr_content : string :=
  "Automated data for PR " ++ pr_identifier ++ " created on "
  ++ strftime_local host ++ ".".
Definition commit_message : string := "Add data for automated PR " ++ pr_identifier.
Definition pr_title : string := "Automated Pull Request: " ++ pr_identifier.
Definition pr_body : string :=
  "This pull request (" ++ pr_identifier
  ++ ") is part of an automated process to track pull request merges for the Pull Shark achievement.".

Definition merged_message (pr_number : string) : string :=
  "Successfully merged PR #" ++ pr_number ++ " ('" ++ pr_title ++ "') from '"
  ++ branch_name ++ "'.".

(** The body of the [try] statement. *)
Definition try_body : Run unit :=
  create_repository_if_not_exists cfg ;;;
  main_branch_sha <- get_main_branch_sha cfg ;;
  create_branch cfg branch_name main_branch_sha ;;;
  current_branch_ref_response <-
    github_api_call "GET" (get_ref_url cfg "heads" branch_name) None ;;
  v <- json_of current_branch_ref_response ;;
  object <- subscript v "object" ;;
  current_branch_sha_for_commit <- subscript object "sha" ;;
  update_file_and_commit cfg branch_name (Some file_path_in_pr) pr_content
                         commit_message current_branch_sha_for_commit ;;;
  pr_number <- create_pull_request cfg branch_name "main" pr_title pr_body ;;
  time_sleep 5 ;;;
  merge_pull_request cfg pr_number ;;;
  (fun rem => log_event cfg (merged_message (py_str (lib rem) pr_number)) rem) ;;;
  time_sleep 10 ;;;
  delete_branch cfg branch_name.

(** [str(e)]: the message for the exceptions the script itself raises,
    the host's answer for those of the libraries. *)
Definition text_of_exn (e : exn) : string :=
  match e with
  | ApiError (Exception msg) => msg
  | IndexError => "list index out of range"
  | _ => str_of_exn host e
  end.

(** The [error_message] of the [except] clause that catches [e]: the
    first one for an [HTTPError], the second one for every other
    exception; [None] is the [IndexError] of [.splitlines()[0]]. *)
Definition error_message (e : exn) : option string :=
  match e with
  | ApiError (HTTPError r) =>
      match PyStr.first_line (text r) with
      | Some line =>
          Some ("Fatal GitHub API Error: " ++ Main.str_of_int (status_code r)
                ++ " - " ++ line)
      | None => None
      end
  | _ =>
      match PyStr.first_line (text_of_exn e) with
      | Some line => Some ("An unexpected error occurred: " ++ line)
      | None => None
      end
  end.

Definition except_clause (e : exn) (rem : Remote) (w : World)
  : World * Main.termination :=
  match error_message e with
  | None => (w, Main.UncaughtIndexError)
  | Some msg =>
      (snd (log_event cfg ("Failed to complete automation: " ++ msg) rem w),
       Main.SystemExit 1)
  end.

Definition main (rem : Remote) : World * Main.termination :=
  if Main.py_not (Main.GITHUB_TOKEN cfg) then (start, Main.UncaughtValueError)
  else if Main.py_not (Main.REPO_OWNER cfg) || Main.py_not (Main.REPO_NAME cfg)
          || Main.py_not (Main.LOG_FILE_PATH cfg)
  then (start, Main.UncaughtValueError)
  else
    match try_body rem start with
    | (Ok _, w) => (w, Main.EndOfScript)
    | (Raised e, w) => except_clause e rem w
    end.

End Run.

End Runner.

Module RunnerObs.
Import Http Script ScriptObs Runner.

(** HTTP requests made inside the calls of [github_api_call]. *)
Fixpoint http_requests (evs : list event) : nat :=
  match evs with
  | [] => 0
  | Called _ attempts :: rest => Obs.n_requests attempts + http_requests rest
  | Slept _ :: rest => http_requests rest
  end.

(** [m] makes at most [calls] calls of [github_api_call] and sleeps at
    most [seconds] itself, from every world and against every remote
    side. *)
Definition costs {A} (m : Run A) (calls : nat) (seconds : Z) : Prop :=
  forall rem w,
    (api_calls (snd (m rem w)) <= api_calls w + calls)%nat
    /\ total_slept (events (snd (m rem w))) <= total_slept (events w) + seconds
    /\ (http_requests (events (snd (m rem w)))
        <= http_requests (events w) + 5 * calls)%nat.

(** Method and path of a request. *)
Definition endpoint (rq : Request) : string * string := (method rq, url rq).

(** A run seen from outside: the endpoints called and the seconds slept
    between them, in order. *)
Fixpoint outline (evs : list event) : list (string * string + Z) :=
  match evs with
  | [] => []
  | Called rq _ :: rest => inl (endpoint rq) :: outline rest
  | Slept seconds :: rest => inr seconds :: outline rest
  end.


(** An outline that asks for no deletion. *)
Definition no_delete (o : list (string * string + Z)) : Prop :=
  forall u, ~ In (inl ("DELETE"%string, u)) o.

(** [m] asks for no deletion, from every world and against every remote
    side. *)
Definition deletes_nothing {A} (m : Run A) : Prop :=
  forall rem w, exists o,
    outline (events (snd (m rem w))) = outline (events w) ++ o /\ no_delete o.

(** From a world in which nothing was deleted, [m] either deletes
    nothing or ends with: pull request, five seconds, merge, log read,
    log written, ten seconds, deletion of the branch. *)
Definition ends_with_deletion {A} (cfg : Main.Config) (host : Host) (m : Run A) : Prop :=
  forall rem w,
    no_delete (outline (events w)) ->
    no_delete (outline (events (snd (m rem w))))
    \/ exists before n,
        outline (events (snd (m rem w)))
        = before
          ++ [ inl ("POST", get_pulls_url cfg);
               inr 5;
               inl ("PUT", get_pull_merge_url cfg n);
               inl ("GET", get_contents_url cfg (Main.LOG_FILE_PATH cfg) ++ "?ref=main");
               inl ("PUT", get_contents_url cfg (Main.LOG_FILE_PATH cfg));
               inr 10;
               inl ("DELETE", get_ref_url cfg "heads" (branch_name host)) ]%string
        /\ no_delete before.

Definition sample_host : Host :=
  mkHost 1714544400 4242 "2024-05-01 06:30:00 "
         (fun _ => "unexpected"%string).

(** A JSON object that has every key the script reads. *)
Definition catch_all_object : json :=
  JDict [ ("object"%string, JDict [ ("sha"%string, JStr "aa218f56b14c9653891f9e74264a383fa43fefbd") ]);
          ("commit"%string, JDict [ ("sha"%string, JStr "7638417db6d59f3c431d3e1f261cc637155684cd") ]);
          ("number"%string, JInt 7);
          ("content"%string, JStr ("IyBsb2c=" ++ newline));
          ("sha"%string, JStr "95b966ae1c166bd92f8ae7d1c313e738c731dfc3") ].

End RunnerObs.

(* ------------------------------------------------------------------ *)
(** * Facts *)

(** ** [in] on strings is the substring relation *)

Lemma startswith_iff (p s : string) :
  PyStr.startswith p s = true <-> exists post, s = (p ++ post)%string.
Proof.
  revert s; induction p as [|a p IH]; intros s; simpl.
  - split; [intros _; now exists s | reflexivity].
  - destruct s as [|b s].
    + split; [discriminate | intros [post H]; discriminate].
    + destruct (Ascii.eqb_spec a b) as [->|Hab].
      * rewrite IH. split; intros [post H]; exists post.
        -- now rewrite H.
        -- now injection H.
      * split; [discriminate | intros [post H]; injection H; intros; now subst].
Qed.

Lemma contains_iff (needle s : string) :
  PyStr.contains needle s = true
  <-> exists pre post, s = (pre ++ needle ++ post)%string.
Proof.
  induction s as [|c s IH]; simpl.
  - destruct (PyStr.startswith needle "") eqn:E.
    + split; [intros _ | reflexivity].
      apply startswith_iff in E. destruct E as [post E].
      now exists ""%string, post.
    + split; [discriminate|]. intros [pre [post H]].
      destruct pre; simpl in H.
      * assert (PyStr.startswith needle "" = true)
          by (apply startswith_iff; now exists post).
        congruence.
      * discriminate.
  - destruct (PyStr.startswith needle (String c s)) eqn:E.
    + split; [intros _ | reflexivity].
      apply startswith_iff in E. destruct E as [post E].
      now exists ""%string, post.
    + rewrite IH. split.
      * intros [pre [post H]]. exists (String c pre), post. simpl. now rewrite H.
      * intros [pre [post H]]. destruct pre as [|c' pre]; simpl in H.
        -- assert (PyStr.startswith needle (String c s) = true)
             by (apply startswith_iff; now exists post).
           congruence.
        -- injection H; intros. now exists pre, post.
Qed.

Example lower_mixed_case :
  PyStr.lower "API Rate Limit Exceeded" = "api rate limit exceeded"%string.
Proof. reflexivity. Qed.

Example contains_marker :
  PyStr.contains "rate limit exceeded" (PyStr.lower "You have exceeded a secondary rate limit")
  = false
  /\ PyStr.contains "rate limit exceeded" (PyStr.lower "API RATE LIMIT EXCEEDED for 1.2.3.4")
     = true.
Proof. split; reflexivity. Qed.

Example first_line_cases :
  PyStr.first_line "" = None
  /\ PyStr.first_line "Not Found" = Some "Not Found"%string
  /\ PyStr.first_line (String (ascii_of_nat 10) "x") = Some ""%string.
Proof. repeat split; reflexivity. Qed.

(** ** One attempt *)

Section OneAttempt.
Import Http Exec Obs.

Variables (env : Env) (attempt : nat) (w : World).

Ltac run_body H :=
  unfold attempt_body, try_except, bind, requests_request, raise_for_status;
  rewrite H; cbn [fst snd].

Lemma rate_limit_is_http_error (r : Response) :
  rate_limit_hit r = true -> is_http_error r = true.
Proof.
  unfold rate_limit_hit, is_http_error. intros H.
  apply andb_true_iff in H. destruct H as [H _].
  apply Z.eqb_eq in H. now rewrite H.
Qed.

(** [time.sleep] accepts a duration exactly when it is not negative, not
    too large to convert, and within what the platform accepts. *)
Lemma refusal_none_iff (seconds : Z) :
  refusal env seconds = None
  <-> 0 <= seconds /\ seconds <= MAX_TIMESTAMP /\ seconds <= sleep_limit env.
Proof.
  unfold refusal, refusal_at.
  destruct (Z.gtb_spec seconds MAX_TIMESTAMP); cbn [orb];
    [split; [discriminate | lia]|].
  destruct (Z.ltb_spec seconds (- MAX_TIMESTAMP));
    [split; [discriminate | unfold MAX_TIMESTAMP in *; lia]|].
  destruct (Z.ltb_spec seconds 0); [split; [discriminate | lia]|].
  destruct (Z.gtb_spec seconds (sleep_limit env)); [split; [discriminate | lia]|].
  split; [lia | reflexivity].
Qed.

Lemma refusal_safe (seconds : Z) :
  0 <= seconds <= SAFE_SLEEP -> refusal env seconds = None.
Proof.
  intros H. apply refusal_none_iff. unfold sleep_limit, MAX_TIMESTAMP, SAFE_SLEEP in *.
  lia.
Qed.

(** The sleeps of the exponential backoff are always accepted. *)
Lemma backoff_accepted :
  (attempt < max_retries)%nat -> refusal env (2 ^ Z.of_nat attempt) = None.
Proof.
  intros H. apply refusal_safe. unfold max_retries, SAFE_SLEEP in *.
  assert (0 < 2 ^ Z.of_nat attempt) by (apply Z.pow_pos_nonneg; lia).
  assert (2 ^ Z.of_nat attempt <= 2 ^ 4) by (apply Z.pow_le_mono_r; lia).
  change (2 ^ 4) with 16 in *. lia.
Qed.

Lemma time_sleep_accepted (seconds : Z) (w0 : World) :
  refusal env seconds = None ->
  time_sleep seconds env w0 = (Val tt, log_event (EvSleep seconds) w0).
Proof.
  intros H. unfold time_sleep. now rewrite H.
Qed.

Lemma time_sleep_refused (seconds : Z) (w0 : World) (e : exn) :
  refusal env seconds = Some e ->
  time_sleep seconds env w0 = (Exc e, w0).
Proof.
  intros H. unfold time_sleep. now rewrite H.
Qed.

Lemma attempt_body_success (r : Response) :
  server env (requests_made w) = Responded r ->
  is_http_error r = false ->
  attempt_body attempt env w = (Val (Some r), after_request w 0 []).
Proof.
  intros Hs Hok. run_body Hs. rewrite Hok. reflexivity.
Qed.

Lemma attempt_body_reraise (r : Response) :
  server env (requests_made w) = Responded r ->
  is_http_error r = true ->
  rate_limit_hit r = false ->
  in_404_409 r || (attempt =? max_retries - 1)%nat = true ->
  attempt_body attempt env w = (Exc (HTTPError r), after_request w 0 []).
Proof.
  intros Hs Herr Hrl Hlast. run_body Hs. rewrite Herr. unfold raise at 1.
  unfold on_http_error. rewrite Hrl, Hlast. reflexivity.
Qed.

Lemma attempt_body_backoff (r : Response) :
  (attempt < max_retries)%nat ->
  server env (requests_made w) = Responded r ->
  is_http_error r = true ->
  rate_limit_hit r = false ->
  in_404_409 r || (attempt =? max_retries - 1)%nat = false ->
  attempt_body attempt env w
  = (Val None, after_request w 0 [EvSleep (2 ^ Z.of_nat attempt)]).
Proof.
  intros Ha Hs Herr Hrl Hlast. run_body Hs. rewrite Herr. unfold raise at 1.
  unfold on_http_error. rewrite Hrl, Hlast.
  unfold bind. rewrite (time_sleep_accepted _ _ (backoff_accepted Ha)).
  unfold ret, log_event, after_request. cbn.
  now rewrite <- app_assoc.
Qed.

Lemma attempt_body_rate_limit (r : Response) :
  server env (requests_made w) = Responded r ->
  rate_limit_hit r = true ->
  x_ratelimit_reset r <> HeaderNotInt ->
  refusal env (rate_limit_sleep env w r) = None ->
  attempt_body attempt env w
  = (Val None, after_request w 2 [EvSleep (rate_limit_sleep env w r)]).
Proof.
  intros Hs Hrl Hhdr Hacc. run_body Hs.
  rewrite (rate_limit_is_http_error r Hrl). unfold raise at 1.
  unfold on_http_error. rewrite Hrl.
  unfold rate_limit_sleep, reset_time_of in *.
  unfold bind, time_time, int_reset_header, after_request.
  destruct (x_ratelimit_reset r); try congruence;
    unfold ret; cbn [clock_reads requests_made trace];
    rewrite (time_sleep_accepted _ _ Hacc);
    unfold log_event; cbn; now rewrite <- app_assoc.
Qed.

(** A rate-limit sleep that [time.sleep] refuses: its exception leaves
    the attempt after both readings of the clock. *)
Lemma attempt_body_sleep_refused (r : Response) (e : exn) :
  server env (requests_made w) = Responded r ->
  rate_limit_hit r = true ->
  x_ratelimit_reset r <> HeaderNotInt ->
  refusal env (rate_limit_sleep env w r) = Some e ->
  attempt_body attempt env w = (Exc e, after_request w 2 []).
Proof.
  intros Hs Hrl Hhdr Href. run_body Hs.
  rewrite (rate_limit_is_http_error r Hrl). unfold raise at 1.
  unfold on_http_error. rewrite Hrl.
  unfold rate_limit_sleep, reset_time_of in *.
  unfold bind, time_time, int_reset_header, after_request.
  destruct (x_ratelimit_reset r); try congruence;
    unfold ret; cbn [clock_reads requests_made trace];
    rewrite (time_sleep_refused _ _ _ Href); reflexivity.
Qed.

Lemma attempt_body_bad_header (r : Response) :
  server env (requests_made w) = Responded r ->
  rate_limit_hit r = true ->
  x_ratelimit_reset r = HeaderNotInt ->
  attempt_body attempt env w = (Exc ValueError, after_request w 1 []).
Proof.
  intros Hs Hrl Hhdr. run_body Hs.
  rewrite (rate_limit_is_http_error r Hrl). unfold raise at 1.
  unfold on_http_error. rewrite Hrl.
  unfold bind, time_time, int_reset_header. rewrite Hhdr. reflexivity.
Qed.

Lemma attempt_body_connection_retry :
  (attempt < max_retries)%nat ->
  server env (requests_made w) = ConnectionFailed ->
  (attempt =? max_retries - 1)%nat = false ->
  attempt_body attempt env w
  = (Val None, after_request w 0 [EvSleep (2 ^ Z.of_nat attempt)]).
Proof.
  intros Ha Hs Hlast. run_body Hs. unfold on_connection_error. rewrite Hlast.
  unfold bind. rewrite (time_sleep_accepted _ _ (backoff_accepted Ha)).
  unfold ret, log_event, after_request. cbn.
  now rewrite <- app_assoc.
Qed.

Lemma attempt_body_connection_reraise :
  server env (requests_made w) = ConnectionFailed ->
  (attempt =? max_retries - 1)%nat = true ->
  attempt_body attempt env w = (Exc ConnectionError, after_request w 0 []).
Proof.
  intros Hs Hlast. run_body Hs. unfold on_connection_error. rewrite Hlast.
  reflexivity.
Qed.

Lemma attempt_body_other :
  server env (requests_made w) = OtherFailure ->
  attempt_body attempt env w = (Exc OtherRequestError, after_request w 0 []).
Proof.
  intros Hs. run_body Hs. reflexivity.
Qed.

(** Whatever happens, an attempt issues exactly one request, first, and
    then at most sleeps. *)
Lemma attempt_body_shape :
  exists reads sleeps,
    snd (attempt_body attempt env w) = after_request w reads sleeps
    /\ n_requests sleeps = 0%nat.
Proof.
  unfold attempt_body, try_except, bind, requests_request, raise_for_status.
  destruct (server env (requests_made w)) as [r| |]; cbn [fst snd].
  - destruct (is_http_error r); [|now exists 0%nat, []].
    unfold raise at 1. unfold on_http_error.
    destruct (rate_limit_hit r).
    + unfold bind, time_time, int_reset_header, time_sleep.
      destruct (x_ratelimit_reset r); unfold ret, raise;
        cbn [clock_reads requests_made trace];
        try (now exists 1%nat, []);
        match goal with
        | |- context [refusal env ?d] =>
            destruct (refusal env d);
            [now exists 2%nat, []
            | exists 2%nat, [EvSleep d]; unfold log_event, after_request; cbn;
              now rewrite <- app_assoc]
        end.
    + destruct (in_404_409 r || (attempt =? max_retries - 1)%nat);
        [now exists 0%nat, []|].
      unfold bind, time_sleep.
      destruct (refusal env (2 ^ Z.of_nat attempt)); [now exists 0%nat, []|].
      exists 0%nat, [EvSleep (2 ^ Z.of_nat attempt)].
      unfold ret, log_event, after_request. cbn. now rewrite <- app_assoc.
  - unfold on_connection_error.
    destruct (attempt =? max_retries - 1)%nat; [now exists 0%nat, []|].
    unfold bind, time_sleep.
    destruct (refusal env (2 ^ Z.of_nat attempt)); [now exists 0%nat, []|].
    exists 0%nat, [EvSleep (2 ^ Z.of_nat attempt)].
    unfold ret, log_event, after_request. cbn. now rewrite <- app_assoc.
  - now exists 0%nat, [].
Qed.

End OneAttempt.

(** ** The loop *)

Section Loop.
Import Http Exec Obs.

Lemma for_each_app (body : nat -> M (option Response)) (l1 l2 : list nat)
      (env : Env) (w : World) :
  for_each body (l1 ++ l2) env w
  = match for_each body l1 env w with
    | (Val None, w') => for_each body l2 env w'
    | other => other
    end.
Proof.
  revert w; induction l1 as [|a l1 IH]; intros w; simpl.
  - reflexivity.
  - destruct (body a env w) as [[[r|]|e] w1]; auto.
Qed.

Lemma n_requests_app (tr1 tr2 : list event) :
  n_requests (tr1 ++ tr2) = (n_requests tr1 + n_requests tr2)%nat.
Proof.
  induction tr1 as [|[|d] tr1 IH]; simpl; auto.
Qed.

(** Requests made and requests traced move together, one per attempt. *)
Lemma for_each_counts (env : Env) (l : list nat) (w : World) :
  let out := for_each attempt_body l env w in
  (requests_made (snd out) <= requests_made w + List.length l)%nat
  /\ (n_requests (trace (snd out)) + requests_made w
      = n_requests (trace w) + requests_made (snd out))%nat
  /\ (fst out = Val None ->
      requests_made (snd out) = (requests_made w + List.length l)%nat).
Proof.
  revert w; induction l as [|a l IH]; intros w; cbn zeta.
  - simpl. repeat split; lia.
  - cbn [for_each List.length].
    destruct (attempt_body_shape env a w) as (reads & sleeps & Hw & Hs).
    destruct (attempt_body a env w) as [x w1]. cbn [snd] in Hw. subst w1.
    assert (Hn : n_requests (trace (after_request w reads sleeps))
                 = S (n_requests (trace w))).
    { unfold after_request; simpl. rewrite n_requests_app. simpl. lia. }
    assert (Hm : requests_made (after_request w reads sleeps)
                 = S (requests_made w)) by reflexivity.
    destruct x as [[r|]|e]; cbn [fst snd].
    + rewrite Hn, Hm. repeat split; try lia. discriminate.
    + specialize (IH (after_request w reads sleeps)). cbn zeta in IH.
      rewrite Hn, Hm in IH.
      destruct IH as (IH1 & IH2 & IH3). repeat split; try lia.
      intros H. specialize (IH3 H). lia.
    + rewrite Hn, Hm. repeat split; try lia. discriminate.
Qed.

Lemma for_each_trace (env : Env) (l : list nat) (w : World) :
  exists tr, trace (snd (for_each attempt_body l env w)) = trace w ++ tr.
Proof.
  revert w; induction l as [|a l IH]; intros w; simpl.
  - exists []. now rewrite app_nil_r.
  - destruct (attempt_body_shape env a w) as (reads & sleeps & Hw & _).
    destruct (attempt_body a env w) as [x w1]. simpl in Hw. subst w1.
    destruct x as [[r|]|e]; simpl; try (eexists; reflexivity).
    destruct (IH (after_request w reads sleeps)) as [tr Htr].
    rewrite Htr. simpl. rewrite <- app_assoc. eexists; reflexivity.
Qed.

Variable env : Env.

Lemma reaches_requests_made (k : nat) (w : World) :
  reaches env k w -> requests_made w = k.
Proof.
  unfold reaches. intros H.
  destruct (for_each_counts env (seq 0 k) world0) as (_ & _ & Hk).
  rewrite H in Hk. simpl in Hk. rewrite length_seq in Hk. now apply Hk.
Qed.

Lemma reaches_zero : reaches env 0 world0.
Proof. reflexivity. Qed.

Lemma reaches_step (k : nat) (w w' : World) :
  reaches env k w ->
  attempt_body k env w = (Val None, w') ->
  reaches env (S k) w'.
Proof.
  unfold reaches. intros H Hb.
  rewrite seq_S, for_each_app, H. simpl. now rewrite Hb.
Qed.

(** From an attempt that is reached, the call is decided by the rest of
    the loop. *)
Lemma run_from (k : nat) (w : World) :
  (k <= max_retries)%nat ->
  reaches env k w ->
  run env
  = match for_each attempt_body (seq k (max_retries - k)) env w with
    | (Val (Some response), w') => (Val response, w')
    | (Val None, w') =>
        (Exc (Exception "Failed to make API call after multiple retries."), w')
    | (Exc e, w') => (Exc e, w')
    end.
Proof.
  unfold reaches, run, github_api_call, bind. intros Hk H.
  replace max_retries with (k + (max_retries - k))%nat at 1 by lia.
  rewrite seq_app, for_each_app, H. cbn beta iota. rewrite Nat.add_0_l.
  destruct (for_each attempt_body (seq k (max_retries - k)) env w)
    as [[[r|]|e] w1]; reflexivity.
Qed.

Lemma seq_budget (k : nat) :
  (k < max_retries)%nat ->
  seq k (max_retries - k) = k :: seq (S k) (max_retries - S k).
Proof.
  intros Hk. replace (max_retries - k)%nat with (S (max_retries - S k)) by lia.
  reflexivity.
Qed.

Lemma run_returns (k : nat) (w w' : World) (r : Response) :
  (k < max_retries)%nat ->
  reaches env k w ->
  attempt_body k env w = (Val (Some r), w') ->
  run env = (Val r, w').
Proof.
  intros Hk H Hb. rewrite (run_from k w) by (auto; lia).
  rewrite seq_budget by assumption. cbn [for_each]. now rewrite Hb.
Qed.

Lemma run_raises (k : nat) (w w' : World) (e : exn) :
  (k < max_retries)%nat ->
  reaches env k w ->
  attempt_body k env w = (Exc e, w') ->
  run env = (Exc e, w').
Proof.
  intros Hk H Hb. rewrite (run_from k w) by (auto; lia).
  rewrite seq_budget by assumption. cbn [for_each]. now rewrite Hb.
Qed.

Lemma run_falls_through (w : World) :
  reaches env max_retries w ->
  run env
  = (Exc (Exception "Failed to make API call after multiple retries."), w).
Proof.
  intros H. rewrite (run_from max_retries w) by (auto; lia).
  rewrite Nat.sub_diag. reflexivity.
Qed.

(** An attempt that is reached within the budget issues its request. *)
Lemma run_requests_again (k : nat) (w : World) :
  (k < max_retries)%nat ->
  reaches env k w ->
  exists rest, trace (snd (run env)) = trace w ++ EvRequest :: rest.
Proof.
  intros Hk H. rewrite (run_from k w) by (auto; lia).
  rewrite seq_budget by assumption. cbn [for_each].
  destruct (attempt_body_shape env k w) as (reads & sleeps & Hw & _).
  destruct (attempt_body k env w) as [x w1]. cbn [snd] in Hw. subst w1.
  destruct x as [[r|]|e]; cbn [snd]; try (eexists; reflexivity).
  destruct (for_each_trace env (seq (S k) (max_retries - S k))
                           (after_request w reads sleeps)) as [tr Htr].
  destruct (for_each attempt_body _ env _) as [[[r|]|e] w1];
    cbn [snd] in *; rewrite Htr; unfold after_request; cbn [trace];
    rewrite <- app_assoc; eexists; reflexivity.
Qed.

End Loop.

(** ** Observing the trace *)

Section Observing.
Import Http Exec Obs.

Lemma reaches_n_requests (env : Env) (k : nat) (w : World) :
  reaches env k w -> n_requests (trace w) = k.
Proof.
  intros H. pose proof (reaches_requests_made env k w H) as Hk.
  unfold reaches in H.
  destruct (for_each_counts env (seq 0 k) world0) as (_ & Hn & _).
  rewrite H in Hn. cbn [snd] in Hn. simpl in Hn. lia.
Qed.

Lemma sleep_after_found (tr rest : list event) (d : Z) :
  sleep_after (n_requests tr) (tr ++ EvRequest :: EvSleep d :: rest) = Some d.
Proof.
  induction tr as [|[|d'] tr IH]; simpl; auto.
Qed.

(** A reached attempt that ends in a sleep of [d] seconds while budget is
    left: the sleep is seen after request number [k], and request number
    [k + 1] follows it. *)
Lemma run_sleeps_then_requests (env : Env) (k reads : nat) (w : World) (d : Z) :
  (S k < max_retries)%nat ->
  reaches env k w ->
  attempt_body k env w = (Val None, after_request w reads [EvSleep d]) ->
  exists rest,
    trace (snd (run env)) = trace w ++ [EvRequest; EvSleep d; EvRequest] ++ rest.
Proof.
  intros Hk H Hb.
  pose proof (reaches_step env k w _ H Hb) as H'.
  destruct (run_requests_again env (S k) _ Hk H') as [rest Hrest].
  exists rest. rewrite Hrest. unfold after_request. cbn [trace].
  now rewrite <- app_assoc.
Qed.

Lemma reaches_after_backoff (env : Env) (k : nat) (w : World) (r : Response) :
  (k < max_retries - 1)%nat ->
  reaches env k w ->
  server env k = Responded r ->
  is_http_error r = true ->
  rate_limit_hit r = false ->
  in_404_409 r = false ->
  attempt_body k env w
  = (Val None, after_request w 0 [EvSleep (2 ^ Z.of_nat k)]).
Proof.
  intros Hk H Hs Herr Hrl Hnf.
  apply attempt_body_backoff with (r := r); auto.
  - unfold max_retries in *. lia.
  - now rewrite (reaches_requests_made env k w H).
  - rewrite Hnf. cbn [orb]. apply Nat.eqb_neq. unfold max_retries in *. lia.
Qed.

Lemma reaches_after_rate_limit (env : Env) (k : nat) (w : World) (r : Response) :
  reaches env k w ->
  server env k = Responded r ->
  rate_limit_hit r = true ->
  x_ratelimit_reset r <> HeaderNotInt ->
  refusal env (rate_limit_sleep env w r) = None ->
  attempt_body k env w
  = (Val None, after_request w 2 [EvSleep (rate_limit_sleep env w r)]).
Proof.
  intros H Hs Hrl Hh Hacc.
  apply attempt_body_rate_limit; auto.
  now rewrite (reaches_requests_made env k w H).
Qed.

Lemma reaches_after_connection_error (env : Env) (k : nat) (w : World) :
  (k < max_retries - 1)%nat ->
  reaches env k w ->
  server env k = ConnectionFailed ->
  attempt_body k env w
  = (Val None, after_request w 0 [EvSleep (2 ^ Z.of_nat k)]).
Proof.
  intros Hk H Hs.
  apply attempt_body_connection_retry.
  - unfold max_retries in *. lia.
  - now rewrite (reaches_requests_made env k w H).
  - apply Nat.eqb_neq. unfold max_retries in *. lia.
Qed.

Lemma below_400_ends (env : Env) (k : nat) (w : World) (r : Response) :
  (k < max_retries)%nat ->
  reaches env k w ->
  server env k = Responded r ->
  status_code r < 400 ->
  run env = (Val r, after_request w 0 []).
Proof.
  intros Hk H Hs Hst.
  apply (run_returns env k w); auto.
  apply attempt_body_success.
  - now rewrite (reaches_requests_made env k w H).
  - unfold is_http_error. apply andb_false_iff. left. apply Z.leb_gt. lia.
Qed.

Lemma status_500_is_transient (r : Response) :
  status_code r = 500 ->
  is_http_error r = true /\ rate_limit_hit r = false /\ in_404_409 r = false.
Proof.
  unfold is_http_error, rate_limit_hit, in_404_409. intros ->. auto.
Qed.

Lemma backoff_trace_S (n : nat) :
  backoff_trace (S n)
  = backoff_trace n ++ [EvRequest; EvSleep (2 ^ Z.of_nat n)].
Proof.
  unfold backoff_trace. now rewrite seq_S, flat_map_app.
Qed.

End Observing.

(* ------------------------------------------------------------------ *)
(** * The executor: [github_api_call] *)

Import Http Exec Obs.

(** C9: when the first attempt is answered with a status in 200..299,
    [github_api_call] returns that response on the first attempt: one
    request in all, no sleep. *)
Theorem success_on_first_attempt (env : Env) (r : Response) :
  server env 0 = Responded r ->
  200 <= status_code r <= 299 ->
  run env = (Val r, mkWorld 1 0 [EvRequest]).
Proof.
  intros Hs Hst.
  apply (run_returns env 0 world0); [unfold max_retries; lia | apply reaches_zero |].
  rewrite (attempt_body_success env 0 world0 r); auto.
  unfold is_http_error. apply andb_false_iff. left. apply Z.leb_gt. lia.
Qed.

Lemma success_on_first_attempt_witness :
  run (scripted [Responded ok_200] 1000) = (Val ok_200, mkWorld 1 0 [EvRequest]).
Proof.
  apply (success_on_first_attempt (scripted [Responded ok_200] 1000) ok_200).
  - reflexivity.
  - simpl; lia.
Defined.

(** C10: on whichever attempt it arrives, a response with a status below
    400 (a 3xx as well as a 2xx) is returned by that attempt: the call
    ends with the request that got it, with no sleep and no retry. *)
Theorem below_400_returned (env : Env) (k : nat) (w : World) (r : Response) :
  (k < max_retries)%nat ->
  reaches env k w ->
  server env k = Responded r ->
  status_code r < 400 ->
  run env = (Val r, after_request w 0 []).
Proof.
  intros Hk H Hs Hst. now apply (below_400_ends env k w r).
Qed.

Lemma below_400_returned_witness :
  run (scripted [ConnectionFailed; Responded see_other_303] 1000)
  = (Val see_other_303, mkWorld 2 0 [EvRequest; EvSleep 1; EvRequest]).
Proof.
  apply (below_400_returned
           (scripted [ConnectionFailed; Responded see_other_303] 1000)
           1 (mkWorld 1 0 [EvRequest; EvSleep 1]) see_other_303).
  - unfold max_retries; lia.
  - reflexivity.
  - reflexivity.
  - simpl; lia.
Defined.

(** C3: on every attempt (the first one to the fifth one), a 404 or a 409
    makes [github_api_call] re-raise that [HTTPError] at once: nothing is
    slept after the request and no further request is made. *)
Theorem not_found_or_conflict_reraised
        (env : Env) (k : nat) (w : World) (r : Response) :
  (k < max_retries)%nat ->
  reaches env k w ->
  server env k = Responded r ->
  status_code r = 404 \/ status_code r = 409 ->
  run env = (Exc (HTTPError r), after_request w 0 []).
Proof.
  intros Hk H Hs Hst.
  apply (run_raises env k w); auto.
  apply attempt_body_reraise.
  - now rewrite (reaches_requests_made env k w H).
  - unfold is_http_error. destruct Hst as [-> | ->]; reflexivity.
  - unfold rate_limit_hit. destruct Hst as [-> | ->]; reflexivity.
  - unfold in_404_409. destruct Hst as [-> | ->]; reflexivity.
Qed.

Lemma not_found_or_conflict_reraised_witness :
  run (scripted [Responded not_found_404] 1000)
  = (Exc (HTTPError not_found_404), mkWorld 1 0 [EvRequest]).
Proof.
  apply (not_found_or_conflict_reraised
           (scripted [Responded not_found_404] 1000) 0 world0 not_found_404).
  - unfold max_retries; lia.
  - reflexivity.
  - reflexivity.
  - left; reflexivity.
Defined.

(** C6: whatever the responses and connection failures, one call of
    [github_api_call] issues at most 5 HTTP requests. *)
Theorem at_most_max_retries_requests (env : Env) :
  (n_requests (trace (snd (run env))) <= 5)%nat
  /\ requests_made (snd (run env)) = n_requests (trace (snd (run env))).
Proof.
  rewrite (run_from env 0 world0) by (unfold max_retries; try lia; apply reaches_zero).
  destruct (for_each_counts env (seq 0 (max_retries - 0)) world0) as (Hle & Hn & _).
  rewrite length_seq in Hle.
  change (requests_made world0) with 0%nat in Hle, Hn.
  change (n_requests (trace world0)) with 0%nat in Hn.
  change (max_retries - 0)%nat with 5%nat in Hle.
  destruct (for_each attempt_body _ env world0) as [[[r|]|e] w1];
    cbn [snd] in *; lia.
Qed.

(** C4: when each of the five attempts is answered with a 500,
    [github_api_call] makes exactly 5 requests, sleeps 1, 2, 4 and 8
    seconds between them, and re-raises the [HTTPError] of the fifth. *)
Theorem persistent_500 (env : Env) :
  (forall k, (k < max_retries)%nat ->
             exists r, server env k = Responded r /\ status_code r = 500) ->
  exists r,
    server env 4 = Responded r
    /\ run env
       = (Exc (HTTPError r),
          mkWorld 5 0 [EvRequest; EvSleep 1; EvRequest; EvSleep 2; EvRequest;
                       EvSleep 4; EvRequest; EvSleep 8; EvRequest]).
Proof.
  intros Hall.
  assert (Hstep : forall k w, (k < max_retries - 1)%nat -> reaches env k w ->
            reaches env (S k) (after_request w 0 [EvSleep (2 ^ Z.of_nat k)])).
  { intros k w Hk H.
    destruct (Hall k) as (r & Hs & Hst); [unfold max_retries in *; lia|].
    destruct (status_500_is_transient r Hst) as (He & Hrl & Hnf).
    apply (reaches_step env k w); auto.
    now apply reaches_after_backoff with (r := r). }
  pose proof (reaches_zero env) as H0.
  apply Hstep in H0; [|unfold max_retries; simpl; lia].
  apply Hstep in H0; [|unfold max_retries; simpl; lia].
  apply Hstep in H0; [|unfold max_retries; simpl; lia].
  apply Hstep in H0; [|unfold max_retries; simpl; lia].
  destruct (Hall 4%nat) as (r & Hs & Hst); [unfold max_retries; lia|].
  destruct (status_500_is_transient r Hst) as (He & Hrl & Hnf).
  exists r. split; [assumption|].
  erewrite (run_raises env 4); [reflexivity | unfold max_retries; lia | exact H0 |].
  apply attempt_body_reraise; auto.
  rewrite Hnf. reflexivity.
Qed.

Lemma persistent_500_witness :
  exists r,
    server (always (Responded server_error_500) 1000) 4 = Responded r
    /\ run (always (Responded server_error_500) 1000)
       = (Exc (HTTPError r),
          mkWorld 5 0 [EvRequest; EvSleep 1; EvRequest; EvSleep 2; EvRequest;
                       EvSleep 4; EvRequest; EvSleep 8; EvRequest]).
Proof.
  apply (persistent_500 (always (Responded server_error_500) 1000)).
  intros k _. exists server_error_500. split; reflexivity.
Defined.

(** *** Connection errors *)

Lemma connection_errors_reach (env : Env) (n : nat) :
  (n < max_retries)%nat ->
  (forall k, (k < n)%nat -> server env k = ConnectionFailed) ->
  reaches env n (mkWorld n 0 (backoff_trace n)).
Proof.
  induction n as [|n IH]; intros Hn Hall.
  - apply reaches_zero.
  - assert (H : reaches env n (mkWorld n 0 (backoff_trace n)))
      by (apply IH; [lia | intros k Hk; apply Hall; lia]).
    apply (reaches_step env n _ _ H).
    rewrite reaches_after_connection_error; auto.
    + unfold after_request. cbn [requests_made clock_reads trace].
      now rewrite backoff_trace_S.
    + unfold max_retries in *; lia.
Qed.

(** C7: a connection error is retried like a transient HTTP error, after
    a sleep of 2^attempt seconds, and is re-raised when it happens on the
    fifth attempt; hence connection errors followed, within the five
    attempts, by a 200 end with that response returned and nothing after
    the request that got it. *)
Theorem connection_errors_backoff (env : Env) :
  (forall k w,
      (k < max_retries - 1)%nat ->
      reaches env k w ->
      server env k = ConnectionFailed ->
      reaches env (S k) (after_request w 0 [EvSleep (2 ^ Z.of_nat k)])
      /\ forall env' r,
          server env' k = Responded r ->
          is_http_error r = true ->
          rate_limit_hit r = false ->
          in_404_409 r = false ->
          attempt_body k env' w = attempt_body k env w)
  /\ (forall w,
         reaches env (max_retries - 1) w ->
         server env (max_retries - 1) = ConnectionFailed ->
         run env = (Exc ConnectionError, after_request w 0 []))
  /\ (forall n r,
         (n < max_retries)%nat ->
         (forall k, (k < n)%nat -> server env k = ConnectionFailed) ->
         server env n = Responded r ->
         status_code r = 200 ->
         run env = (Val r, mkWorld (S n) 0 (backoff_trace n ++ [EvRequest]))).
Proof.
  split; [|split].
  - intros k w Hk H Hs.
    pose proof (reaches_after_connection_error env k w Hk H Hs) as Hb.
    split.
    + now apply (reaches_step env k w).
    + intros env' r Hs' He Hrl Hnf. rewrite Hb.
      apply attempt_body_backoff with (r := r); auto.
      * unfold max_retries in *. lia.
      * now rewrite (reaches_requests_made env k w H).
      * rewrite Hnf. cbn [orb]. apply Nat.eqb_neq. unfold max_retries in *. lia.
  - intros w H Hs.
    apply (run_raises env (max_retries - 1) w);
      [unfold max_retries; lia | assumption |].
    apply attempt_body_connection_reraise.
    + now rewrite (reaches_requests_made env _ w H).
    + reflexivity.
  - intros n r Hn Hall Hs Hst.
    pose proof (connection_errors_reach env n Hn Hall) as H.
    assert (Hlt : status_code r < 400) by (rewrite Hst; reflexivity).
    rewrite (below_400_ends env n _ r Hn H Hs Hlt).
    reflexivity.
Qed.

Lemma connection_errors_backoff_witness :
  reaches (scripted [ConnectionFailed] 1000) 1 (mkWorld 1 0 [EvRequest; EvSleep 1])
  /\ run (always ConnectionFailed 1000)
     = (Exc ConnectionError,
        mkWorld 5 0 [EvRequest; EvSleep 1; EvRequest; EvSleep 2; EvRequest;
                     EvSleep 4; EvRequest; EvSleep 8; EvRequest])
  /\ run (scripted [ConnectionFailed; ConnectionFailed; Responded ok_200] 1000)
     = (Val ok_200,
        mkWorld 3 0 [EvRequest; EvSleep 1; EvRequest; EvSleep 2; EvRequest]).
Proof.
  split; [|split].
  - destruct (connection_errors_backoff (scripted [ConnectionFailed] 1000))
      as (H1 & _).
    apply (H1 0%nat world0).
    + unfold max_retries; simpl; lia.
    + reflexivity.
    + reflexivity.
  - destruct (connection_errors_backoff (always ConnectionFailed 1000))
      as (_ & H2 & _).
    apply (H2 (mkWorld 4 0 [EvRequest; EvSleep 1; EvRequest; EvSleep 2;
                            EvRequest; EvSleep 4; EvRequest; EvSleep 8])).
    + reflexivity.
    + reflexivity.
  - destruct (connection_errors_backoff
                (scripted [ConnectionFailed; ConnectionFailed; Responded ok_200] 1000))
      as (_ & _ & H3).
    apply (H3 2%nat ok_200).
    + unfold max_retries; lia.
    + intros k Hk. destruct k as [|[|k]]; [reflexivity | reflexivity | lia].
    + reflexivity.
    + reflexivity.
Defined.

(** *** Runs that agree on the attempts made *)

Lemma refusal_ext (env env' : Env) (seconds : Z) :
  sleep_headroom env = sleep_headroom env' ->
  refusal env seconds = refusal env' seconds.
Proof.
  intros H. unfold refusal, refusal_at, sleep_limit. now rewrite H.
Qed.

Lemma attempt_body_ext (env env' : Env) (attempt : nat) (w : World) :
  server env (requests_made w) = server env' (requests_made w) ->
  (forall n, clock env n = clock env' n) ->
  sleep_headroom env = sleep_headroom env' ->
  attempt_body attempt env w = attempt_body attempt env' w.
Proof.
  intros Hs Hc Hh.
  unfold attempt_body, try_except, bind, requests_request, raise_for_status.
  rewrite <- Hs.
  destruct (server env (requests_made w)) as [r| |]; try reflexivity.
  2: { unfold on_connection_error.
       destruct (attempt =? max_retries - 1)%nat; [reflexivity|].
       unfold bind, time_sleep. rewrite (refusal_ext env env' _ Hh).
       destruct (refusal env' (2 ^ Z.of_nat attempt)); reflexivity. }
  destruct (is_http_error r); try reflexivity.
  unfold raise, on_http_error. cbn beta iota.
  destruct (rate_limit_hit r).
  - unfold bind, time_time, int_reset_header.
    destruct (x_ratelimit_reset r); unfold ret, raise, time_sleep;
      cbn [clock_reads requests_made trace]; rewrite ?Hc;
      try reflexivity;
      match goal with
      | |- context [refusal env ?d] =>
          rewrite (refusal_ext env env' d Hh); destruct (refusal env' d); reflexivity
      end.
  - destruct (in_404_409 r || (attempt =? max_retries - 1)%nat); [reflexivity|].
    unfold bind, time_sleep. rewrite (refusal_ext env env' _ Hh).
    destruct (refusal env' (2 ^ Z.of_nat attempt)); reflexivity.
Qed.

Lemma reaches_S_inv (env : Env) (k : nat) (w : World) :
  reaches env (S k) w ->
  exists w1, reaches env k w1 /\ attempt_body k env w1 = (Val None, w).
Proof.
  unfold reaches. rewrite seq_S, for_each_app. cbn [Nat.add for_each].
  destruct (for_each attempt_body (seq 0 k) env world0) as [[[r|]|e] w1];
    try discriminate.
  intros H. exists w1. split; [reflexivity|].
  destruct (attempt_body k env w1) as [[[r|]|e] w2]; try discriminate.
  exact H.
Qed.

Lemma reaches_ext (env env' : Env) (k : nat) (w : World) :
  (forall j, (j < k)%nat -> server env j = server env' j) ->
  (forall n, clock env n = clock env' n) ->
  sleep_headroom env = sleep_headroom env' ->
  reaches env k w -> reaches env' k w.
Proof.
  revert w; induction k as [|k IH]; intros w Hs Hc Hh H.
  - exact H.
  - destruct (reaches_S_inv env k w H) as (w1 & H1 & Hb).
    assert (H1' : reaches env' k w1) by (apply IH; auto).
    apply (reaches_step env' k w1 w H1').
    rewrite <- Hb. symmetry. apply attempt_body_ext; auto.
    rewrite (reaches_requests_made env k w1 H1). apply Hs. lia.
Qed.

(** *** Rate limits *)

Lemma rate_limit_hit_iff (r : Response) :
  rate_limit_hit r = true
  <-> status_code r = 403
      /\ exists pre post,
          PyStr.lower (text r) = (pre ++ "rate limit exceeded" ++ post)%string.
Proof.
  unfold rate_limit_hit. rewrite andb_true_iff, Z.eqb_eq, contains_iff.
  reflexivity.
Qed.

Lemma rate_limit_sleep_accepted (env : Env) (w : World) (r : Response) :
  accepted env (rate_limit_sleep env w r) ->
  refusal env (rate_limit_sleep env w r) = None.
Proof.
  intros [H1 H2]. apply refusal_none_iff. repeat split; auto.
  unfold rate_limit_sleep. lia.
Qed.

(** C1 (the claim fails): with a rate-limited first attempt the 500 that
    follows is slept on for 2 seconds; in the same call without the
    rate-limited attempt it is slept on for 1 second. *)
Lemma rate_limit_attempt_changes_backoff :
  let env := scripted [Responded rate_limited_403; Responded server_error_500] 1000 in
  let env' := without_attempt 0 env in
  rate_limit_hit rate_limited_403 = true
  /\ trace (snd (run env))
     = [EvRequest; EvSleep 61; EvRequest; EvSleep 2; EvRequest]
  /\ trace (snd (run env')) = [EvRequest; EvSleep 1; EvRequest]
  /\ sleep_after 1 (trace (snd (run env)))
     <> sleep_after 0 (trace (snd (run env'))).
Proof.
  cbv zeta. repeat split; try reflexivity.
  vm_compute. discriminate.
Qed.

(** C1 (amended): a rate-limited attempt does count toward the growth of
    the exponential backoff.  When attempt [k] is rate-limited, with a
    reset header that is absent or an integer and a sleep that
    [time.sleep] accepts, and attempt [k + 1] (not the last one) gets a
    transient error, then the sleep after the rate-limited answer is
    max(reset - now + 1, 10) seconds, driven by the reset time and not
    exponential, while the sleep after the transient error is 2^(k+1)
    seconds: twice the 2^k seconds slept after the same error in the call
    without the rate-limited attempt. *)
Theorem rate_limit_attempt_doubles_backoff
        (env : Env) (k : nat) (w : World) (r1 r2 : Response) :
  (S k < max_retries - 1)%nat ->
  reaches env k w ->
  server env k = Responded r1 ->
  rate_limit_hit r1 = true ->
  x_ratelimit_reset r1 <> HeaderNotInt ->
  accepted env (rate_limit_sleep env w r1) ->
  server env (S k) = Responded r2 ->
  is_http_error r2 = true ->
  rate_limit_hit r2 = false ->
  in_404_409 r2 = false ->
  sleep_after k (trace (snd (run env)))
  = Some (Z.max (reset_time_of r1 (plus_60_as_int (clock env (clock_reads w)))
                 - as_int (clock env (S (clock_reads w))) + 1) 10)
  /\ sleep_after (S k) (trace (snd (run env))) = Some (2 * 2 ^ Z.of_nat k)
  /\ sleep_after k (trace (snd (run (without_attempt k env))))
     = Some (2 ^ Z.of_nat k).
Proof.
  intros Hk H Hs1 Hrl1 Hh1 Hacc Hs2 He2 Hrl2 Hnf2.
  pose proof (reaches_after_rate_limit env k w r1 H Hs1 Hrl1 Hh1
                (rate_limit_sleep_accepted env w r1 Hacc)) as Hb1.
  pose proof (reaches_step env k w _ H Hb1) as H1.
  pose proof (reaches_after_backoff env (S k) _ r2 Hk H1 Hs2 He2 Hrl2 Hnf2)
    as Hb2.
  destruct (run_sleeps_then_requests env (S k) 0 _ _
              ltac:(unfold max_retries in *; lia) H1 Hb2) as [rest Hrest].
  split; [|split].
  - rewrite Hrest. unfold after_request at 1. cbn [trace].
    rewrite <- (reaches_n_requests env k w H) at 1.
    rewrite <- app_assoc. cbn [app]. now rewrite sleep_after_found.
  - rewrite Hrest.
    rewrite <- (reaches_n_requests env (S k) _ H1) at 1.
    cbn [app]. rewrite sleep_after_found.
    now rewrite Nat2Z.inj_succ, Z.pow_succ_r by lia.
  - set (env' := without_attempt k env).
    assert (H' : reaches env' k w).
    { apply (reaches_ext env env'); auto.
      intros j Hj. unfold env', without_attempt, drop_attempt; cbn [server].
      apply Nat.ltb_lt in Hj. now rewrite Hj. }
    assert (Hs' : server env' k = Responded r2).
    { unfold env', without_attempt, drop_attempt; cbn [server].
      now rewrite Nat.ltb_irrefl. }
    pose proof (reaches_after_backoff env' k w r2
                  ltac:(unfold max_retries in *; lia) H' Hs' He2 Hrl2 Hnf2)
      as Hb.
    destruct (run_sleeps_then_requests env' k 0 w _
                ltac:(unfold max_retries in *; lia) H' Hb) as [rest' Hrest'].
    rewrite Hrest'.
    rewrite <- (reaches_n_requests env' k w H') at 1.
    cbn [app]. now rewrite sleep_after_found.
Qed.

Lemma rate_limit_attempt_doubles_backoff_witness :
  let env := scripted [Responded (rate_limited_reset 1500);
                       Responded server_error_500] 1000 in
  sleep_after 0 (trace (snd (run env))) = Some (Z.max (1500 - 1000 + 1) 10)
  /\ sleep_after 1 (trace (snd (run env))) = Some (2 * 2 ^ Z.of_nat 0)
  /\ sleep_after 0 (trace (snd (run (without_attempt 0 env))))
     = Some (2 ^ Z.of_nat 0).
Proof.
  cbv zeta.
  apply (rate_limit_attempt_doubles_backoff
           (scripted [Responded (rate_limited_reset 1500);
                      Responded server_error_500] 1000)
           0 world0 (rate_limited_reset 1500) server_error_500).
  - unfold max_retries; simpl; lia.
  - reflexivity.
  - reflexivity.
  - reflexivity.
  - discriminate.
  - split; vm_compute; discriminate.
  - reflexivity.
  - reflexivity.
  - reflexivity.
  - reflexivity.
Defined.

(** C5 (the claim fails): five rate-limited answers.  The fifth attempt
    is reached, is answered with a rate-limited 403 and is followed by
    the sleep, but no request follows that sleep: the call ends.  A
    rate-limited 403 whose reset header is not an integer is followed by
    neither sleep nor retry, and so is one whose reset header lies so
    far ahead that [time.sleep] refuses the duration. *)
Lemma rate_limit_not_always_retried :
  let env := always (Responded rate_limited_403) 1000 in
  let w4 := mkWorld 4 8 [EvRequest; EvSleep 61; EvRequest; EvSleep 61;
                         EvRequest; EvSleep 61; EvRequest; EvSleep 61] in
  (reaches env 4 w4
   /\ server env 4 = Responded rate_limited_403
   /\ rate_limit_hit rate_limited_403 = true
   /\ trace (snd (run env)) = trace w4 ++ [EvRequest; EvSleep 61]
   /\ ~ exists d rest,
         trace (snd (run env))
         = trace w4 ++ [EvRequest; EvSleep d; EvRequest] ++ rest)
  /\ (rate_limit_hit rate_limited_bad_header = true
      /\ run (scripted [Responded rate_limited_bad_header] 1000)
         = (Exc ValueError, mkWorld 1 1 [EvRequest]))
  /\ (rate_limit_hit (rate_limited_reset 99999999999) = true
      /\ run (scripted [Responded (rate_limited_reset 99999999999)] 1000)
         = (Exc OverflowError, mkWorld 1 2 [EvRequest])).
Proof.
  cbv zeta. repeat split; try reflexivity.
  intros (d & rest & H). vm_compute in H. discriminate H.
Qed.

(** C5 (amended): on each of the first four attempts, a 403 whose body
    contains "rate limit exceeded" in any letter case, whose
    X-RateLimit-Reset header is absent or an integer, and whose sleep
    [time.sleep] accepts, is followed by a sleep of
    max(reset - now + 1, 10) seconds, reset being the header or, without
    one, int(time.time() + 60), and then by the next request. *)
Theorem rate_limit_sleep_then_retry
        (env : Env) (k : nat) (w : World) (r : Response) :
  (S k < max_retries)%nat ->
  reaches env k w ->
  server env k = Responded r ->
  status_code r = 403 ->
  (exists pre post,
      PyStr.lower (text r) = (pre ++ "rate limit exceeded" ++ post)%string) ->
  x_ratelimit_reset r <> HeaderNotInt ->
  let reset := reset_time_of r (plus_60_as_int (clock env (clock_reads w))) in
  let now := as_int (clock env (S (clock_reads w))) in
  accepted env (Z.max (reset - now + 1) 10) ->
  exists rest,
    trace (snd (run env))
    = trace w ++ [EvRequest; EvSleep (Z.max (reset - now + 1) 10); EvRequest]
              ++ rest.
Proof.
  intros Hk H Hs Hst Hbody Hh reset now Hacc.
  assert (Hrl : rate_limit_hit r = true) by (apply rate_limit_hit_iff; auto).
  pose proof (reaches_after_rate_limit env k w r H Hs Hrl Hh
                (rate_limit_sleep_accepted env w r Hacc)) as Hb.
  exact (run_sleeps_then_requests env k 2 w _ Hk H Hb).
Qed.

Lemma rate_limit_sleep_then_retry_witness :
  exists rest,
    trace (snd (run (scripted [Responded (rate_limited_reset 1500)] 1000)))
    = [] ++ [EvRequest; EvSleep (Z.max (1500 - 1000 + 1) 10); EvRequest] ++ rest.
Proof.
  apply (rate_limit_sleep_then_retry
           (scripted [Responded (rate_limited_reset 1500)] 1000)
           0 world0 (rate_limited_reset 1500)).
  - unfold max_retries; lia.
  - reflexivity.
  - reflexivity.
  - reflexivity.
  - exists "api "%string, ""%string. reflexivity.
  - discriminate.
  - split; vm_compute; discriminate.
Defined.

Lemma rate_limits_reach (env : Env) (k : nat) :
  (forall j, (j < k)%nat ->
             exists r, server env j = Responded r
                       /\ rate_limit_hit r = true
                       /\ x_ratelimit_reset r <> HeaderNotInt
                       /\ forall w, accepted env (rate_limit_sleep env w r)) ->
  exists w, reaches env k w
            /\ (k = 0%nat \/ exists d before, trace w = before ++ [EvSleep d]).
Proof.
  induction k as [|k IH]; intros Hall.
  - exists world0. split; [apply reaches_zero | now left].
  - destruct IH as (w & H & _); [intros j Hj; apply Hall; lia|].
    destruct (Hall k) as (r & Hs & Hrl & Hh & Hacc); [lia|].
    pose proof (reaches_after_rate_limit env k w r H Hs Hrl Hh
                  (rate_limit_sleep_accepted env w r (Hacc w))) as Hb.
    eexists. split; [exact (reaches_step env k w _ H Hb)|].
    right. unfold after_request. cbn [trace].
    eexists _, (trace w ++ [EvRequest]). now rewrite <- app_assoc.
Qed.

(** C2 (the code leaves the loop): when all five attempts are answered
    with a rate-limited 403 (reset header absent or an integer, sleeps
    that [time.sleep] accepts), the fifth one too sleeps and lets the
    loop go on, the loop ends, and the call raises the generic exception
    of the statement after the loop, which the code marks as not
    reached. *)
Theorem rate_limits_exhaust_the_loop (env : Env) :
  (forall k, (k < max_retries)%nat ->
             exists r, server env k = Responded r
                       /\ rate_limit_hit r = true
                       /\ x_ratelimit_reset r <> HeaderNotInt
                       /\ forall w, accepted env (rate_limit_sleep env w r)) ->
  fst (run env)
  = Exc (Exception "Failed to make API call after multiple retries.")
  /\ requests_made (snd (run env)) = 5%nat
  /\ exists d before, trace (snd (run env)) = before ++ [EvSleep d].
Proof.
  intros Hall.
  destruct (rate_limits_reach env max_retries Hall) as (w & H & Hlast).
  rewrite (run_falls_through env w H). cbn [fst snd].
  split; [reflexivity|]. split.
  - exact (reaches_requests_made env max_retries w H).
  - destruct Hlast as [Hz|Hlast]; [discriminate Hz | exact Hlast].
Qed.

Lemma rate_limits_exhaust_the_loop_witness :
  fst (run (always (Responded rate_limited_403) 1000))
  = Exc (Exception "Failed to make API call after multiple retries.")
  /\ requests_made (snd (run (always (Responded rate_limited_403) 1000))) = 5%nat
  /\ exists d before,
      trace (snd (run (always (Responded rate_limited_403) 1000)))
      = before ++ [EvSleep d].
Proof.
  apply (rate_limits_exhaust_the_loop (always (Responded rate_limited_403) 1000)).
  intros k _. exists rate_limited_403.
  split; [reflexivity | split; [reflexivity | split; [discriminate|]]].
  intros w. split; vm_compute; discriminate.
Defined.

(** The statement after the loop is reached in no other way: a call that
    ends with the generic exception had its fifth attempt answered with a
    rate-limited 403. *)
Lemma refusal_not_generic (env : Env) (seconds : Z) (m : string) :
  refusal env seconds <> Some (Exception m).
Proof.
  unfold refusal, refusal_at.
  destruct ((seconds >? MAX_TIMESTAMP) || (seconds <? - MAX_TIMESTAMP));
    [discriminate|].
  destruct (seconds <? 0); [discriminate|].
  destruct (seconds >? sleep_limit env); discriminate.
Qed.

Lemma attempt_body_outcomes (env : Env) (attempt : nat) (w : World) :
  match fst (attempt_body attempt env w) with
  | Val (Some r) => server env (requests_made w) = Responded r
  | Val None =>
      (attempt =? max_retries - 1)%nat = false
      \/ exists r, server env (requests_made w) = Responded r
                   /\ rate_limit_hit r = true
  | Exc (Exception _) => False
  | Exc _ => True
  end.
Proof.
  unfold attempt_body, try_except, bind, requests_request, raise_for_status.
  destruct (server env (requests_made w)) as [r| |] eqn:Hs; cbn [fst snd].
  - destruct (is_http_error r); [|reflexivity].
    unfold raise at 1. unfold on_http_error.
    destruct (rate_limit_hit r) eqn:Hrl.
    + unfold bind, time_time, int_reset_header, time_sleep.
      destruct (x_ratelimit_reset r); unfold ret, raise;
        cbn [clock_reads requests_made trace fst]; try exact I;
        match goal with
        | |- context [refusal env ?d] =>
            pose proof (refusal_not_generic env d) as Hn;
            destruct (refusal env d) as [e|]; cbn [fst];
            [destruct e; try exact I; now apply (Hn msg)
            | right; now exists r]
        end.
    + destruct (in_404_409 r || (attempt =? max_retries - 1)%nat) eqn:Hl;
        [exact I|].
      apply orb_false_iff in Hl. destruct Hl as [_ Hl].
      unfold bind, time_sleep.
      pose proof (refusal_not_generic env (2 ^ Z.of_nat attempt)) as Hn.
      destruct (refusal env (2 ^ Z.of_nat attempt)) as [e|]; cbn [fst];
        [destruct e; try exact I; now apply (Hn msg) | now left].
  - unfold on_connection_error.
    destruct (attempt =? max_retries - 1)%nat eqn:Hl; [exact I|].
    unfold bind, time_sleep.
    pose proof (refusal_not_generic env (2 ^ Z.of_nat attempt)) as Hn.
    destruct (refusal env (2 ^ Z.of_nat attempt)) as [e|]; cbn [fst];
      [destruct e; try exact I; now apply (Hn msg) | now left].
  - exact I.
Qed.

Lemma for_each_never_generic (env : Env) (l : list nat) (w : World) (m : string) :
  fst (for_each attempt_body l env w) <> Exc (Exception m).
Proof.
  revert w; induction l as [|a l IH]; intros w; cbn [for_each].
  - discriminate.
  - pose proof (attempt_body_outcomes env a w) as Ho.
    destruct (attempt_body a env w) as [[[r|]|e] w1]; cbn [fst] in *.
    + discriminate.
    + apply IH.
    + destruct e; try discriminate. contradiction.
Qed.

Lemma generic_failure_only_after_rate_limit (env : Env) (m : string) :
  fst (run env) = Exc (Exception m) ->
  exists w r,
    reaches env (max_retries - 1) w
    /\ server env (max_retries - 1) = Responded r
    /\ rate_limit_hit r = true.
Proof.
  unfold run, github_api_call, bind. intros Hrun.
  pose proof (for_each_never_generic env (seq 0 max_retries) world0 m) as Hn.
  destruct (for_each attempt_body (seq 0 max_retries) env world0)
    as [[[r|]|e] w5] eqn:E; cbn [fst] in *.
  - discriminate.
  - destruct (reaches_S_inv env 4 w5 E) as (w & H & Hb).
    pose proof (attempt_body_outcomes env 4 w) as Ho.
    rewrite Hb in Ho. cbn [fst] in Ho.
    destruct Ho as [Ho | (r & Hs & Hrl)]; [discriminate|].
    rewrite (reaches_requests_made env 4 w H) in Hs.
    now exists w, r.
  - congruence.
Qed.

(* ------------------------------------------------------------------ *)
(** * The main run *)

Section MainRun.

Variables (cfg : Main.Config) (env : Main.Env).
Hypothesis Hcfg : configured cfg.

Lemma main_configured :
  Main.main cfg env
  = match Main.run_block env Main.try_block [] with
    | (done, None) => (done, Main.EndOfScript)
    | (done, Some e) => Main.except_clause env e done
    end.
Proof.
  destruct Hcfg as (H1 & H2 & H3 & H4).
  unfold Main.main. now rewrite H1, H2, H3, H4.
Qed.

Lemma failure_logs_app (evs1 evs2 : list Main.event) :
  Main.failure_logs (evs1 ++ evs2)
  = (Main.failure_logs evs1 + Main.failure_logs evs2)%nat.
Proof.
  induction evs1 as [|[] evs1 IH]; simpl; auto.
Qed.

(** The [try] block itself logs no failure, and it ends without an
    exception exactly when none of its calls raises. *)
Lemma run_block_logs_nothing (block : list Main.action) (done : list Main.event) :
  Main.failure_logs done = 0%nat ->
  Main.failure_logs (fst (Main.run_block env block done)) = 0%nat.
Proof.
  revert done; induction block as [|[s|d] block IH]; intros done Hd; simpl.
  - exact Hd.
  - destruct (Main.step_raises env s); simpl.
    + rewrite failure_logs_app, Hd. reflexivity.
    + apply IH. rewrite failure_logs_app, Hd. reflexivity.
  - apply IH. rewrite failure_logs_app, Hd. reflexivity.
Qed.

Lemma run_block_completes (block : list Main.action) (done : list Main.event) :
  snd (Main.run_block env block done) = None
  <-> forall s, In (Main.Call s) block -> Main.step_raises env s = None.
Proof.
  revert done; induction block as [|[s|d] block IH]; intros done; simpl.
  - split; [intros _ s [] | reflexivity].
  - destruct (Main.step_raises env s) eqn:E; simpl.
    + split; [discriminate|]. intros H.
      rewrite (H s) in E by (left; reflexivity). discriminate.
    + rewrite IH. split.
      * intros H s' [Heq | Hin]; [injection Heq; intros <-; exact E | now apply H].
      * intros H s' Hin. apply H. now right.
  - rewrite IH. split.
    + intros H s' [Heq | Hin]; [discriminate | now apply H].
    + intros H s' Hin. apply H. now right.
Qed.

Lemma try_block_calls_every_step (s : Main.step) :
  In (Main.Call s) Main.try_block.
Proof.
  destruct s; simpl; tauto.
Qed.

(** Full success: exit status 0 and no failure logged. *)
Lemma main_success :
  (forall s, Main.step_raises env s = None) ->
  Main.exit_status (snd (Main.main cfg env)) = 0
  /\ Main.failure_logs (fst (Main.main cfg env)) = 0%nat.
Proof.
  intros Hok. rewrite main_configured.
  pose proof (proj2 (run_block_completes Main.try_block []) (fun s _ => Hok s)) as Hc.
  pose proof (run_block_logs_nothing Main.try_block [] eq_refl) as Hl.
  destruct (Main.run_block env Main.try_block []) as [done [e|]];
    simpl in *; [discriminate | auto].
Qed.

(** A step raises: the exit status is 1 in every case, whether or not
    the failure could be logged. *)
Lemma main_failure_exit_status (s : Main.step) (e : Main.raised) :
  Main.step_raises env s = Some e ->
  Main.exit_status (snd (Main.main cfg env)) = 1.
Proof.
  intros Hs. rewrite main_configured.
  destruct (Main.run_block env Main.try_block []) as [done [e'|]] eqn:Hb.
  - unfold Main.except_clause.
    destruct (Main.error_message e'); [|reflexivity].
    destruct (Main.failure_log_raises env _); reflexivity.
  - pose proof (proj1 (run_block_completes Main.try_block [])) as Hc.
    rewrite Hb in Hc. rewrite (Hc eq_refl s (try_block_calls_every_step s)) in Hs.
    discriminate.
Qed.

(** A step raises an exception whose text has a first line: exactly one
    failure log is attempted, whether that logging raises or not. *)
Lemma main_failure_logged_once (done : list Main.event) (e : Main.raised)
      (msg : string) :
  Main.run_block env Main.try_block [] = (done, Some e) ->
  Main.error_message e = Some msg ->
  Main.failure_logs (fst (Main.main cfg env)) = 1%nat
  /\ Main.exit_status (snd (Main.main cfg env)) = 1.
Proof.
  intros Hb Hm. rewrite main_configured, Hb.
  pose proof (run_block_logs_nothing Main.try_block [] eq_refl) as Hl.
  rewrite Hb in Hl. cbn [fst] in Hl.
  unfold Main.except_clause. rewrite Hm.
  destruct (Main.failure_log_raises env _); cbn [fst snd];
    rewrite failure_logs_app, Hl; split; reflexivity.
Qed.

End MainRun.

Example main_all_steps_succeed :
  Main.main sample_config all_steps_succeed
  = ([Main.EvCall Main.create_repository_if_not_exists;
      Main.EvCall Main.get_main_branch_sha;
      Main.EvCall Main.create_branch;
      Main.EvCall Main.get_branch_ref;
      Main.EvCall Main.update_file_and_commit;
      Main.EvCall Main.create_pull_request;
      Main.EvSleep 5;
      Main.EvCall Main.merge_pull_request;
      Main.EvCall Main.log_success;
      Main.EvSleep 10;
      Main.EvCall Main.delete_branch],
     Main.EndOfScript).
Proof. reflexivity. Qed.

Example main_merge_conflict_log_fails :
  let e := Main.RaisedHTTPError
             (mkResponse 409 "Pull Request is not mergeable" HeaderAbsent) in
  Main.error_message e
  = Some "Fatal GitHub API Error: 409 - Pull Request is not mergeable"%string
  /\ Main.failure_logs (fst (Main.main sample_config (merge_fails e true))) = 1%nat
  /\ snd (Main.main sample_config (merge_fails e true)) = Main.SystemExit 1
  /\ Main.failure_logs (fst (Main.main sample_config (merge_fails e false))) = 1%nat
  /\ snd (Main.main sample_config (merge_fails e false)) = Main.SystemExit 1.
Proof. cbv zeta. repeat split; reflexivity. Qed.

(** C8 (the code misses a case): [merge_pull_request] raises the
    [HTTPError] of a 409 whose body is empty.  The [except] clause raises
    [IndexError] while it builds its message, so the run ends with exit
    status 1 but with no failure log attempted. *)
Theorem empty_error_text_skips_failure_log :
  let env := merge_fails (Main.RaisedHTTPError (mkResponse 409 "" HeaderAbsent))
                         false in
  Main.main sample_config env
  = ([Main.EvCall Main.create_repository_if_not_exists;
      Main.EvCall Main.get_main_branch_sha;
      Main.EvCall Main.create_branch;
      Main.EvCall Main.get_branch_ref;
      Main.EvCall Main.update_file_and_commit;
      Main.EvCall Main.create_pull_request;
      Main.EvSleep 5;
      Main.EvCall Main.merge_pull_request],
     Main.UncaughtIndexError)
  /\ Main.failure_logs (fst (Main.main sample_config env)) = 0%nat
  /\ Main.exit_status (snd (Main.main sample_config env)) = 1.
Proof.
  cbv zeta. repeat split; reflexivity.
Qed.

(* ------------------------------------------------------------------ *)
(** * More about [github_api_call] *)

Import Measures.

(** A rate-limit sleep that [time.sleep] refuses is refused for its
    size: the duration is at least 10 seconds. *)
Lemma rate_limit_sleep_refused (env : Env) (w : World) (r : Response) (e : exn) :
  refusal env (rate_limit_sleep env w r) = Some e ->
  e = OverflowError \/ e = OSError.
Proof.
  unfold refusal, refusal_at.
  destruct ((rate_limit_sleep env w r >? MAX_TIMESTAMP)
            || (rate_limit_sleep env w r <? - MAX_TIMESTAMP)).
  - intros [= <-]. now left.
  - destruct (Z.ltb_spec (rate_limit_sleep env w r) 0) as [Hneg|_].
    + unfold rate_limit_sleep in Hneg. lia.
    + destruct (rate_limit_sleep env w r >? sleep_limit env).
      * intros [= <-]. now right.
      * discriminate.
Qed.

Lemma accepted_iff (env : Env) (w : World) (r : Response) :
  refusal env (rate_limit_sleep env w r) = None
  <-> accepted env (rate_limit_sleep env w r).
Proof.
  split; [|apply rate_limit_sleep_accepted].
  intros H. apply refusal_none_iff in H. destruct H as (_ & H1 & H2).
  now split.
Qed.

(** Every way one of the five attempts can go, with the world it
    leaves. *)
Lemma attempt_body_cases (env : Env) (attempt : nat) (w : World) :
  (attempt < max_retries)%nat ->
  (exists r, server env (requests_made w) = Responded r
             /\ is_http_error r = false
             /\ attempt_body attempt env w = (Val (Some r), after_request w 0 []))
  \/ (exists r, server env (requests_made w) = Responded r
                /\ is_http_error r = true /\ rate_limit_hit r = false
                /\ in_404_409 r || (attempt =? max_retries - 1)%nat = true
                /\ attempt_body attempt env w
                   = (Exc (HTTPError r), after_request w 0 []))
  \/ (exists r, server env (requests_made w) = Responded r
                /\ is_http_error r = true /\ rate_limit_hit r = false
                /\ in_404_409 r || (attempt =? max_retries - 1)%nat = false
                /\ attempt_body attempt env w
                   = (Val None, after_request w 0 [EvSleep (2 ^ Z.of_nat attempt)]))
  \/ (exists r, server env (requests_made w) = Responded r
                /\ rate_limit_hit r = true
                /\ x_ratelimit_reset r <> HeaderNotInt
                /\ refusal env (rate_limit_sleep env w r) = None
                /\ attempt_body attempt env w
                   = (Val None,
                      after_request w 2 [EvSleep (rate_limit_sleep env w r)]))
  \/ (exists r, server env (requests_made w) = Responded r
                /\ rate_limit_hit r = true
                /\ x_ratelimit_reset r = HeaderNotInt
                /\ attempt_body attempt env w = (Exc ValueError, after_request w 1 []))
  \/ (server env (requests_made w) = ConnectionFailed
      /\ (attempt =? max_retries - 1)%nat = true
      /\ attempt_body attempt env w = (Exc ConnectionError, after_request w 0 []))
  \/ (server env (requests_made w) = ConnectionFailed
      /\ (attempt =? max_retries - 1)%nat = false
      /\ attempt_body attempt env w
         = (Val None, after_request w 0 [EvSleep (2 ^ Z.of_nat attempt)]))
  \/ (server env (requests_made w) = OtherFailure
      /\ attempt_body attempt env w = (Exc OtherRequestError, after_request w 0 []))
  \/ (exists r, server env (requests_made w) = Responded r
                /\ rate_limit_hit r = true
                /\ x_ratelimit_reset r <> HeaderNotInt
                /\ refusal env (rate_limit_sleep env w r) = Some OverflowError
                /\ attempt_body attempt env w
                   = (Exc OverflowError, after_request w 2 []))
  \/ (exists r, server env (requests_made w) = Responded r
                /\ rate_limit_hit r = true
                /\ x_ratelimit_reset r <> HeaderNotInt
                /\ refusal env (rate_limit_sleep env w r) = Some OSError
                /\ attempt_body attempt env w
                   = (Exc OSError, after_request w 2 [])).
Proof.
  intros Hlt.
  destruct (server env (requests_made w)) as [r| |] eqn:Hs.
  - destruct (is_http_error r) eqn:Herr.
    + destruct (rate_limit_hit r) eqn:Hrl.
      * assert (Hdec : x_ratelimit_reset r = HeaderNotInt
                       \/ x_ratelimit_reset r <> HeaderNotInt)
          by (destruct (x_ratelimit_reset r); [right | right | left];
              congruence).
        destruct Hdec as [Hh|Hh].
        -- do 4 right; left. exists r. repeat split; auto.
           apply (attempt_body_bad_header env attempt w r); auto.
        -- destruct (refusal env (rate_limit_sleep env w r)) as [e|] eqn:Hr.
           ++ pose proof (attempt_body_sleep_refused env attempt w r e
                            Hs Hrl Hh Hr) as Hb.
              destruct (rate_limit_sleep_refused env w r e Hr) as [-> | ->].
              ** do 8 right; left. exists r. repeat split; auto.
              ** do 9 right. exists r. repeat split; auto.
           ++ do 3 right; left. exists r. repeat split; auto.
              apply (attempt_body_rate_limit env attempt w r); auto.
      * destruct (in_404_409 r || (attempt =? max_retries - 1)%nat) eqn:Hl.
        -- right; left. exists r. repeat split; auto.
           apply (attempt_body_reraise env attempt w r); auto.
        -- do 2 right; left. exists r. repeat split; auto.
           apply (attempt_body_backoff env attempt w r); auto.
    + left. exists r. repeat split; auto. apply (attempt_body_success env attempt w r); auto.
  - destruct (attempt =? max_retries - 1)%nat eqn:Hl.
    + do 5 right; left. repeat split; auto.
      apply attempt_body_connection_reraise; auto.
    + do 6 right; left. repeat split; auto.
      apply attempt_body_connection_retry; auto.
  - do 7 right; left. split; auto. apply attempt_body_other; auto.
Qed.

(** Every call stops at some attempt [k]: either the budget is used up
    ([k = 5]) and the generic exception is raised, or attempt [k] returns
    or raises and its result is the result of the call. *)
Lemma run_stops (env : Env) :
  exists k w,
    reaches env k w
    /\ ((k = max_retries
         /\ run env
            = (Exc (Exception "Failed to make API call after multiple retries."), w))
        \/ ((k < max_retries)%nat
            /\ ((exists r w', attempt_body k env w = (Val (Some r), w')
                              /\ run env = (Val r, w'))
                \/ (exists e w', attempt_body k env w = (Exc e, w')
                                 /\ run env = (Exc e, w'))))).
Proof.
  assert (Hgen : forall n k w,
             (k + n = max_retries)%nat -> reaches env k w ->
             exists k w,
               reaches env k w
               /\ ((k = max_retries
                    /\ run env
                       = (Exc (Exception "Failed to make API call after multiple retries."), w))
                   \/ ((k < max_retries)%nat
                       /\ ((exists r w', attempt_body k env w = (Val (Some r), w')
                                         /\ run env = (Val r, w'))
                           \/ (exists e w', attempt_body k env w = (Exc e, w')
                                            /\ run env = (Exc e, w')))))).
  { induction n as [|n IH]; intros k w Hk H.
    - exists k, w. split; [assumption|]. left.
      assert (k = max_retries) by lia. subst k.
      split; [reflexivity | now apply run_falls_through].
    - assert (Hlt : (k < max_retries)%nat) by lia.
      destruct (attempt_body k env w) as [[[r|]|e] w'] eqn:Hb.
      + exists k, w. split; [assumption|]. right. split; [assumption|].
        left. exists r, w'. split; [exact Hb|].
        now apply (run_returns env k w).
      + apply (IH (S k) w'); [lia|]. now apply (reaches_step env k w).
      + exists k, w. split; [assumption|]. right. split; [assumption|].
        right. exists e, w'. split; [exact Hb|].
        now apply (run_raises env k w). }
  apply (Hgen max_retries 0%nat world0); [lia | apply reaches_zero].
Qed.

Ltac attempt_cases env k w Hk :=
  let C := fresh "C" in
  destruct (attempt_body_cases env k w Hk)
    as [C|[C|[C|[C|[C|[C|[C|[C|[C|C]]]]]]]]];
  repeat match type of C with
         | exists _, _ => destruct C as [? C]
         | _ /\ _ => let H := fresh "Hc" in destruct C as [H C]
         end.

(** X1: a response that [github_api_call] returns never has a status in
    400..599; it is the answer to the last request of the call. *)
Theorem returned_response_is_no_error (env : Env) (r : Response) :
  fst (run env) = Val r ->
  is_http_error r = false
  /\ exists k, (k < max_retries)%nat
               /\ server env k = Responded r
               /\ requests_made (snd (run env)) = S k.
Proof.
  intros Hrun.
  destruct (run_stops env)
    as (k & w & H & [[-> Hr] | [Hk [(r' & w' & Hb & Hr) | (e & w' & Hb & Hr)]]]);
    rewrite Hr in *; cbn [fst snd] in *; try discriminate.
  injection Hrun as ->.
  pose proof (reaches_requests_made env k w H) as Hw.
  attempt_cases env k w Hk; rewrite C in Hb; try discriminate.
  injection Hb as -> <-. rewrite Hw in *.
  split; [assumption|]. exists k. repeat split; auto.
  unfold after_request; cbn. now rewrite Hw.
Qed.

Lemma returned_response_is_no_error_witness :
  is_http_error see_other_303 = false
  /\ exists k, (k < max_retries)%nat
               /\ server (scripted [ConnectionFailed; Responded see_other_303] 1000) k
                  = Responded see_other_303
               /\ requests_made
                    (snd (run (scripted [ConnectionFailed; Responded see_other_303] 1000)))
                  = S k.
Proof.
  apply (returned_response_is_no_error
           (scripted [ConnectionFailed; Responded see_other_303] 1000) see_other_303).
  reflexivity.
Defined.

(** X2: an [HTTPError] leaves [github_api_call] only with the response of
    the last request made, which is an error status and not a rate-limit
    hit; and unless the status is 404 or 409, only after all five
    attempts. *)
Theorem http_error_only_when_final (env : Env) (r : Response) :
  fst (run env) = Exc (HTTPError r) ->
  is_http_error r = true
  /\ rate_limit_hit r = false
  /\ exists k, (k < max_retries)%nat
               /\ server env k = Responded r
               /\ requests_made (snd (run env)) = S k
               /\ (in_404_409 r = true \/ k = 4%nat).
Proof.
  intros Hrun.
  destruct (run_stops env)
    as (k & w & H & [[-> Hr] | [Hk [(r' & w' & Hb & Hr) | (e & w' & Hb & Hr)]]]);
    rewrite Hr in *; cbn [fst snd] in *; try discriminate.
  injection Hrun as ->.
  pose proof (reaches_requests_made env k w H) as Hw.
  attempt_cases env k w Hk; rewrite C in Hb; try discriminate.
  injection Hb as -> <-. rewrite Hw in *.
  repeat split; auto. exists k. repeat split; auto.
  - unfold after_request; cbn. now rewrite Hw.
  - match goal with
    | Hl : _ || _ = true |- _ =>
        apply orb_true_iff in Hl; destruct Hl as [Hn | Hl];
        [now left | right; now apply Nat.eqb_eq in Hl]
    end.
Qed.

Lemma http_error_only_when_final_witness :
  is_http_error unauthorized_401 = true
  /\ rate_limit_hit unauthorized_401 = false
  /\ exists k, (k < max_retries)%nat
               /\ server (always (Responded unauthorized_401) 1000) k
                  = Responded unauthorized_401
               /\ requests_made (snd (run (always (Responded unauthorized_401) 1000)))
                  = S k
               /\ (in_404_409 unauthorized_401 = true \/ k = 4%nat).
Proof.
  apply (http_error_only_when_final
           (always (Responded unauthorized_401) 1000) unauthorized_401).
  reflexivity.
Defined.

(** X3: a [ConnectionError] leaves [github_api_call] only after five
    requests, the fifth of which failed to connect. *)
Theorem connection_error_only_after_five (env : Env) :
  fst (run env) = Exc ConnectionError ->
  requests_made (snd (run env)) = 5%nat
  /\ server env 4 = ConnectionFailed.
Proof.
  intros Hrun.
  destruct (run_stops env)
    as (k & w & H & [[-> Hr] | [Hk [(r' & w' & Hb & Hr) | (e & w' & Hb & Hr)]]]);
    rewrite Hr in *; cbn [fst snd] in *; try discriminate.
  injection Hrun as ->.
  pose proof (reaches_requests_made env k w H) as Hw.
  attempt_cases env k w Hk; rewrite C in Hb; try discriminate.
  injection Hb as <-.
  match goal with
  | Hl : (_ =? _)%nat = true |- _ =>
      apply Nat.eqb_eq in Hl; change (max_retries - 1)%nat with 4%nat in Hl;
      rewrite Hl in *
  end.
  rewrite Hw in *. split; [|assumption].
  unfold after_request; cbn. now rewrite Hw.
Qed.

Lemma connection_error_only_after_five_witness :
  requests_made (snd (run (always ConnectionFailed 1000))) = 5%nat
  /\ server (always ConnectionFailed 1000) 4 = ConnectionFailed.
Proof.
  apply (connection_error_only_after_five (always ConnectionFailed 1000)).
  reflexivity.
Defined.

(** X7: any other exception of [requests.request] (a read timeout, too
    many redirects, ...) is not retried on any attempt: it leaves the call
    at once, nothing slept after the request. *)
Theorem other_failure_not_retried (env : Env) (k : nat) (w : World) :
  (k < max_retries)%nat ->
  reaches env k w ->
  server env k = OtherFailure ->
  run env = (Exc OtherRequestError, after_request w 0 []).
Proof.
  intros Hk H Hs.
  apply (run_raises env k w); auto.
  apply attempt_body_other. now rewrite (reaches_requests_made env k w H).
Qed.

Lemma other_failure_not_retried_witness :
  run (scripted [Responded server_error_500; OtherFailure] 1000)
  = (Exc OtherRequestError, mkWorld 2 0 [EvRequest; EvSleep 1; EvRequest]).
Proof.
  apply (other_failure_not_retried
           (scripted [Responded server_error_500; OtherFailure] 1000)
           1 (mkWorld 1 0 [EvRequest; EvSleep 1])).
  - unfold max_retries; lia.
  - reflexivity.
  - reflexivity.
Defined.

(** X8: on any attempt, a rate-limited 403 whose X-RateLimit-Reset header
    is not an integer makes the call fail with [ValueError] (from [int]),
    after one reading of the clock and with no sleep and no retry. *)
Theorem bad_reset_header_raises_value_error
        (env : Env) (k : nat) (w : World) (r : Response) :
  (k < max_retries)%nat ->
  reaches env k w ->
  server env k = Responded r ->
  rate_limit_hit r = true ->
  x_ratelimit_reset r = HeaderNotInt ->
  run env = (Exc ValueError, after_request w 1 []).
Proof.
  intros Hk H Hs Hrl Hh.
  apply (run_raises env k w); auto.
  apply (attempt_body_bad_header env k w r); auto.
  now rewrite (reaches_requests_made env k w H).
Qed.

Lemma bad_reset_header_raises_value_error_witness :
  run (scripted [ConnectionFailed; Responded rate_limited_bad_header] 1000)
  = (Exc ValueError, mkWorld 2 1 [EvRequest; EvSleep 1; EvRequest]).
Proof.
  apply (bad_reset_header_raises_value_error
           (scripted [ConnectionFailed; Responded rate_limited_bad_header] 1000)
           1 (mkWorld 1 0 [EvRequest; EvSleep 1]) rate_limited_bad_header).
  - unfold max_retries; lia.
  - reflexivity.
  - reflexivity.
  - reflexivity.
  - reflexivity.
Defined.

(** *** Sleeping *)

Lemma total_sleep_app (tr1 tr2 : list event) :
  total_sleep (tr1 ++ tr2) = total_sleep tr1 + total_sleep tr2.
Proof.
  induction tr1 as [|[|d] tr1 IH]; simpl; lia.
Qed.

(** With no rate-limited answer, the world at the start of attempt [k]
    has slept 2^k - 1 seconds, has not read the clock, and [k] is at most
    4. *)
Lemma backoff_only_invariant (env : Env) :
  (forall k r, server env k = Responded r -> rate_limit_hit r = false) ->
  forall k w,
    reaches env k w ->
    (k < max_retries)%nat
    /\ total_sleep (trace w) = 2 ^ Z.of_nat k - 1
    /\ clock_reads w = 0%nat.
Proof.
  intros Hno. induction k as [|k IH]; intros w H.
  - unfold reaches in H. cbn in H. injection H as <-.
    repeat split. unfold max_retries; lia.
  - destruct (reaches_S_inv env k w H) as (w1 & H1 & Hb).
    destruct (IH w1 H1) as (Hk & Ht & Hc).
    pose proof (reaches_requests_made env k w1 H1) as Hw.
    attempt_cases env k w1 Hk; rewrite C in Hb; try discriminate;
      injection Hb as <-; rewrite Hw in *.
    + match goal with
      | Hl : _ || _ = false |- _ =>
          apply orb_false_iff in Hl; destruct Hl as [_ Hl];
          apply Nat.eqb_neq in Hl
      end.
      unfold after_request; cbn [trace clock_reads].
      rewrite total_sleep_app, Ht. cbn [total_sleep].
      rewrite Nat2Z.inj_succ, Z.pow_succ_r by lia.
      repeat split; unfold max_retries in *; lia.
    + match goal with
      | Hs : server env k = Responded ?r, Hrl : rate_limit_hit ?r = true |- _ =>
          rewrite (Hno k r Hs) in Hrl; discriminate
      end.
    + match goal with
      | Hl : (_ =? _)%nat = false |- _ => apply Nat.eqb_neq in Hl
      end.
      unfold after_request; cbn [trace clock_reads].
      rewrite total_sleep_app, Ht. cbn [total_sleep].
      rewrite Nat2Z.inj_succ, Z.pow_succ_r by lia.
      repeat split; unfold max_retries in *; lia.
Qed.

(** X4: when no answer is a rate-limit hit, a call that made n requests
    has slept 2^(n-1) - 1 seconds in all, so at most 15 seconds, and has
    never read the clock. *)
Theorem backoff_total_without_rate_limit (env : Env) :
  (forall k r, server env k = Responded r -> rate_limit_hit r = false) ->
  total_sleep (trace (snd (run env)))
  = 2 ^ (Z.of_nat (requests_made (snd (run env))) - 1) - 1
  /\ total_sleep (trace (snd (run env))) <= 15
  /\ clock_reads (snd (run env)) = 0%nat.
Proof.
  intros Hno.
  destruct (run_stops env)
    as (k & w & H & [[-> Hr] | [Hk [(r' & w' & Hb & Hr) | (e & w' & Hb & Hr)]]]).
  - destruct (backoff_only_invariant env Hno _ w H) as (Hk & _). lia.
  - destruct (backoff_only_invariant env Hno k w H) as (_ & Ht & Hc).
    pose proof (reaches_requests_made env k w H) as Hw.
    rewrite Hr; cbn [snd].
    attempt_cases env k w Hk; rewrite C in Hb; try discriminate.
    injection Hb as _ <-. unfold after_request; cbn [trace clock_reads requests_made].
    rewrite total_sleep_app, Ht, Hw, Hc. cbn [total_sleep].
    replace (Z.of_nat (S k) - 1) with (Z.of_nat k) by lia.
    repeat split; try lia.
    assert (2 ^ Z.of_nat k <= 2 ^ 4) by (apply Z.pow_le_mono_r; unfold max_retries in *; lia).
    change (2 ^ 4) with 16 in *. lia.
  - destruct (backoff_only_invariant env Hno k w H) as (_ & Ht & Hc).
    pose proof (reaches_requests_made env k w H) as Hw.
    rewrite Hr; cbn [snd].
    assert (Hpow : 2 ^ Z.of_nat k <= 16).
    { change 16 with (2 ^ 4). apply Z.pow_le_mono_r; unfold max_retries in *; lia. }
    attempt_cases env k w Hk; rewrite C in Hb; try discriminate;
      injection Hb as _ <-;
      try match goal with
          | Hs : server env (requests_made w) = Responded ?r,
            Hrl : rate_limit_hit ?r = true |- _ =>
              rewrite Hw in Hs; rewrite (Hno k r Hs) in Hrl; discriminate
          end;
      unfold after_request; cbn [trace clock_reads requests_made];
      rewrite total_sleep_app, Ht, Hw, Hc; cbn [total_sleep];
      replace (Z.of_nat (S k) - 1) with (Z.of_nat k) by lia;
      repeat split; lia.
Qed.

Lemma backoff_total_without_rate_limit_witness :
  total_sleep (trace (snd (run (always (Responded server_error_500) 1000))))
  = 2 ^ (Z.of_nat (requests_made (snd (run (always (Responded server_error_500) 1000)))) - 1) - 1
  /\ total_sleep (trace (snd (run (always (Responded server_error_500) 1000)))) <= 15
  /\ clock_reads (snd (run (always (Responded server_error_500) 1000))) = 0%nat.
Proof.
  apply (backoff_total_without_rate_limit (always (Responded server_error_500) 1000)).
  intros k r Hs. injection Hs as <-. reflexivity.
Defined.







(** *** Statuses retried like a 500 *)

Lemma transient_five_times (env : Env) :
  (forall k, (k < max_retries)%nat ->
             exists r, server env k = Responded r /\ transient r) ->
  exists r,
    server env 4 = Responded r
    /\ run env
       = (Exc (HTTPError r),
          mkWorld 5 0 [EvRequest; EvSleep 1; EvRequest; EvSleep 2; EvRequest;
                       EvSleep 4; EvRequest; EvSleep 8; EvRequest]).
Proof.
  intros Hall.
  assert (Hstep : forall k w, (k < max_retries - 1)%nat -> reaches env k w ->
            reaches env (S k) (after_request w 0 [EvSleep (2 ^ Z.of_nat k)])).
  { intros k w Hk H.
    destruct (Hall k) as (r & Hs & He & Hrl & Hnf); [unfold max_retries in *; lia|].
    apply (reaches_step env k w); auto.
    now apply reaches_after_backoff with (r := r). }
  pose proof (reaches_zero env) as H0.
  do 4 (apply Hstep in H0; [|unfold max_retries; simpl; lia]).
  destruct (Hall 4%nat) as (r & Hs & He & Hrl & Hnf); [unfold max_retries; lia|].
  exists r. split; [assumption|].
  erewrite (run_raises env 4); [reflexivity | unfold max_retries; lia | exact H0 |].
  apply attempt_body_reraise; auto.
  rewrite Hnf. reflexivity.
Qed.


(** X6: every error status that is not a 404, a 409 or a rate-limit hit
    (a 401 for a bad token, a 422, a 403 without the rate-limit marker,
    ...) is retried like a 500: answered five times, it costs five
    requests and sleeps of 1, 2, 4 and 8 seconds before the [HTTPError] of
    the fifth answer is raised. *)
Theorem persistent_transient_status (env : Env) :
  (forall k, (k < max_retries)%nat ->
             exists r, server env k = Responded r /\ transient r) ->
  exists r,
    server env 4 = Responded r
    /\ run env
       = (Exc (HTTPError r),
          mkWorld 5 0 [EvRequest; EvSleep 1; EvRequest; EvSleep 2; EvRequest;
                       EvSleep 4; EvRequest; EvSleep 8; EvRequest]).
Proof.
  exact (transient_five_times env).
Qed.

Lemma persistent_transient_status_witness :
  exists r,
    server (always (Responded unauthorized_401) 1000) 4 = Responded r
    /\ run (always (Responded unauthorized_401) 1000)
       = (Exc (HTTPError r),
          mkWorld 5 0 [EvRequest; EvSleep 1; EvRequest; EvSleep 2; EvRequest;
                       EvSleep 4; EvRequest; EvSleep 8; EvRequest]).
Proof.
  apply (persistent_transient_status (always (Responded unauthorized_401) 1000)).
  intros k _. exists unauthorized_401. repeat split; reflexivity.
Defined.

(** *** The statement after the loop *)

(** X9: the generic exception after the loop is raised exactly when the
    fifth attempt is reached and answered with a rate-limited 403 whose
    reset header is absent or an integer and whose sleep [time.sleep]
    accepts. *)
Theorem generic_failure_iff (env : Env) (m : string) :
  fst (run env) = Exc (Exception m)
  <-> m = "Failed to make API call after multiple retries."%string
      /\ exists w r,
          reaches env 4 w
          /\ server env 4 = Responded r
          /\ rate_limit_hit r = true
          /\ x_ratelimit_reset r <> HeaderNotInt
          /\ accepted env (rate_limit_sleep env w r).
Proof.
  split.
  - intros Hrun.
    destruct (run_stops env)
      as (k & w & H & [[-> Hr] | [Hk [(r' & w' & Hb & Hr) | (e & w' & Hb & Hr)]]]);
      rewrite Hr in *; cbn [fst snd] in *; try discriminate.
    + injection Hrun as <-. split; [reflexivity|].
      destruct (reaches_S_inv env 4 w H) as (w1 & H1 & Hb).
      pose proof (reaches_requests_made env 4 w1 H1) as Hw.
      assert (H4 : (4 < max_retries)%nat) by (unfold max_retries; lia).
      attempt_cases env 4%nat w1 H4; rewrite C in Hb; try discriminate;
        try match goal with
            | Hl : _ || (4 =? max_retries - 1)%nat = false |- _ =>
                apply orb_false_iff in Hl; destruct Hl as [_ Hl]; discriminate Hl
            | Hl : (4 =? max_retries - 1)%nat = false |- _ => discriminate Hl
            end.
      rewrite Hw in *. eexists w1, _. repeat split; eauto;
        match goal with
        | Hr : refusal env _ = None |- _ => apply accepted_iff in Hr; apply Hr
        end.
    + injection Hrun as ->.
      attempt_cases env k w Hk; rewrite C in Hb; discriminate.
  - intros (-> & w & r & H & Hs & Hrl & Hh & Hacc).
    pose proof (reaches_after_rate_limit env 4 w r H Hs Hrl Hh
                  (rate_limit_sleep_accepted env w r Hacc)) as Hb.
    pose proof (reaches_step env 4 w _ H Hb) as H5.
    now rewrite (run_falls_through env _ H5).
Qed.

Lemma generic_failure_iff_witness :
  fst (run (always (Responded rate_limited_403) 1000))
  = Exc (Exception "Failed to make API call after multiple retries.").
Proof.
  apply (proj2 (generic_failure_iff (always (Responded rate_limited_403) 1000)
                  "Failed to make API call after multiple retries.")).
  split; [reflexivity|].
  exists (mkWorld 4 8 [EvRequest; EvSleep 61; EvRequest; EvSleep 61;
                       EvRequest; EvSleep 61; EvRequest; EvSleep 61]),
         rate_limited_403.
  repeat split; try reflexivity; try discriminate.
Defined.

(* ------------------------------------------------------------------ *)
(** * More about the main run *)

Lemma not_configured_stops (cfg : Main.Config) (env : Main.Env) :
  ~ configured cfg -> Main.main cfg env = ([], Main.UncaughtValueError).
Proof.
  unfold configured, Main.main. intros Hn.
  destruct (Main.py_not (Main.GITHUB_TOKEN cfg)); [reflexivity|].
  destruct (Main.py_not (Main.REPO_OWNER cfg)); [reflexivity|].
  destruct (Main.py_not (Main.REPO_NAME cfg)); [reflexivity|].
  destruct (Main.py_not (Main.LOG_FILE_PATH cfg)); [reflexivity|].
  exfalso. apply Hn. repeat split.
Qed.

Lemma configured_dec (cfg : Main.Config) : configured cfg \/ ~ configured cfg.
Proof.
  unfold configured.
  destruct (Main.py_not (Main.GITHUB_TOKEN cfg));
    destruct (Main.py_not (Main.REPO_OWNER cfg));
    destruct (Main.py_not (Main.REPO_NAME cfg));
    destruct (Main.py_not (Main.LOG_FILE_PATH cfg));
    try (left; repeat split; reflexivity);
    right; intros (H1 & H2 & H3 & H4); discriminate.
Qed.

(** X10: the run ends with exit status 0 exactly when the four settings
    are present and not empty and no call of the [try] block raises; in
    every other case the exit status is 1. *)
Theorem main_exit_status_zero_iff (cfg : Main.Config) (env : Main.Env) :
  (Main.exit_status (snd (Main.main cfg env)) = 0
   <-> configured cfg /\ forall s, Main.step_raises env s = None)
  /\ (Main.exit_status (snd (Main.main cfg env)) = 0
      \/ Main.exit_status (snd (Main.main cfg env)) = 1).
Proof.
  destruct (configured_dec cfg) as [Hcfg | Hcfg].
  - destruct (Main.run_block env Main.try_block []) as [done [e|]] eqn:Hb.
    + assert (Hone : Main.exit_status (snd (Main.main cfg env)) = 1).
      { rewrite (main_configured cfg env Hcfg), Hb. unfold Main.except_clause.
        destruct (Main.error_message e); [|reflexivity].
        destruct (Main.failure_log_raises env _); reflexivity. }
      rewrite Hone. split; [|now right]. split; [discriminate|].
      intros [_ Hok].
      pose proof (proj2 (run_block_completes env Main.try_block [])
                        (fun s _ => Hok s)) as Hc.
      rewrite Hb in Hc. discriminate.
    + assert (Hok : forall s, Main.step_raises env s = None).
      { intros s.
        pose proof (proj1 (run_block_completes env Main.try_block [])) as Hc.
        rewrite Hb in Hc. exact (Hc eq_refl s (try_block_calls_every_step s)). }
      destruct (main_success cfg env Hcfg Hok) as [Hz _].
      rewrite Hz. split; [|now left]. split; auto.
  - rewrite (not_configured_stops cfg env Hcfg). cbn.
    split; [|now right]. split; [discriminate | intros [H _]; contradiction].
Qed.

Lemma main_exit_status_zero_iff_witness :
  Main.exit_status (snd (Main.main sample_config all_steps_succeed)) = 0.
Proof.
  apply (proj2 (proj1 (main_exit_status_zero_iff sample_config all_steps_succeed))).
  split; [repeat split | reflexivity].
Defined.

(** X11: when a call of the [try] block raises an exception whose text
    has a first line, the run attempts exactly one failure log and ends
    with [exit(1)], whether that logging raises or not: an exception of
    the logging never leaves the run. *)
Theorem failure_logged_once_and_swallowed
        (cfg : Main.Config) (env : Main.Env) (done : list Main.event)
        (e : Main.raised) (msg : string) :
  configured cfg ->
  Main.run_block env Main.try_block [] = (done, Some e) ->
  Main.error_message e = Some msg ->
  Main.failure_logs (fst (Main.main cfg env)) = 1%nat
  /\ snd (Main.main cfg env) = Main.SystemExit 1
  /\ In (Main.EvLogFailure ("Failed to complete automation: " ++ msg))
        (fst (Main.main cfg env)).
Proof.
  intros Hcfg Hb Hm.
  destruct (main_failure_logged_once cfg env Hcfg done e msg Hb Hm) as [Hl _].
  split; [exact Hl|].
  rewrite (main_configured cfg env Hcfg), Hb. unfold Main.except_clause. rewrite Hm.
  destruct (Main.failure_log_raises env _); cbn [fst snd];
    (split; [reflexivity | apply in_or_app; right; left; reflexivity]).
Qed.

Lemma failure_logged_once_and_swallowed_witness :
  Main.failure_logs
    (fst (Main.main sample_config
                    (merge_fails (Main.RaisedHTTPError conflict_409) true))) = 1%nat
  /\ snd (Main.main sample_config
                    (merge_fails (Main.RaisedHTTPError conflict_409) true))
     = Main.SystemExit 1
  /\ In (Main.EvLogFailure
           ("Failed to complete automation: "
            ++ "Fatal GitHub API Error: 409 - Pull Request is not mergeable"))
        (fst (Main.main sample_config
                        (merge_fails (Main.RaisedHTTPError conflict_409) true))).
Proof.
  apply (failure_logged_once_and_swallowed
           sample_config (merge_fails (Main.RaisedHTTPError conflict_409) true)
           [Main.EvCall Main.create_repository_if_not_exists;
            Main.EvCall Main.get_main_branch_sha;
            Main.EvCall Main.create_branch;
            Main.EvCall Main.get_branch_ref;
            Main.EvCall Main.update_file_and_commit;
            Main.EvCall Main.create_pull_request;
            Main.EvSleep 5;
            Main.EvCall Main.merge_pull_request]
           (Main.RaisedHTTPError conflict_409)).
  - repeat split.
  - reflexivity.
  - reflexivity.
Defined.

(* ------------------------------------------------------------------ *)
(** * The functions that drive the API *)

Import Script ScriptObs.

Section ScriptFacts.

Variables (cfg : Main.Config) (rem : Remote).

Lemma github_api_call_eq (method url : string) (body : option json) (w : World) :
  github_api_call method url body rem w
  = (as_result (outcome_of rem w (mkRequest method url body)),
     after_call rem w (mkRequest method url body)).
Proof.
  unfold github_api_call, outcome_of, after_call, as_result. cbv zeta.
  destruct (fst (Exec.run _)); reflexivity.
Qed.

(** [response.json()['object']['sha']] leaves the world as it is. *)
Lemma object_sha_pure (r : Response) (w : World) :
  snd ((v <- json_of r ;; object <- subscript v "object" ;;
        subscript object "sha")%script rem w) = w.
Proof.
  unfold and_then, json_of, subscript.
  destruct (response_json (lib rem) r) as [[| | | | |items]|]; try reflexivity.
  cbn. destruct (dict_get items "object") as [[| | | | |items']|]; try reflexivity.
  cbn. destruct (dict_get items' "sha"); reflexivity.
Qed.

(** The three ways [get_main_branch_sha] can go, by what the request for
    [main] gives. *)
Lemma get_main_branch_sha_eq (w : World) :
  get_main_branch_sha cfg rem w
  = match outcome_of rem w (rq_main cfg) with
    | Exec.Val r =>
        (v <- json_of r ;; object <- subscript v "object" ;;
         subscript object "sha")%script rem (after_call rem w (rq_main cfg))
    | Exec.Exc (HTTPError r) =>
        if status_code r =? 404 then
          match outcome_of rem (after_call rem w (rq_main cfg)) (rq_master cfg) with
          | Exec.Val r' =>
              (v <- json_of r' ;; object <- subscript v "object" ;;
               subscript object "sha")%script
                rem (after_call rem (after_call rem w (rq_main cfg)) (rq_master cfg))
          | Exec.Exc e =>
              (Raised (ApiError e),
               after_call rem (after_call rem w (rq_main cfg)) (rq_master cfg))
          end
        else (Raised (ApiError (HTTPError r)), after_call rem w (rq_main cfg))
    | Exec.Exc e => (Raised (ApiError e), after_call rem w (rq_main cfg))
    end.
Proof.
  unfold get_main_branch_sha. unfold and_then at 1. unfold except_HTTPError.
  rewrite github_api_call_eq. fold (rq_main cfg).
  destruct (outcome_of rem w (rq_main cfg)) as [r|e]; cbn [as_result].
  - reflexivity.
  - destruct e as [r| | | |m| |]; try reflexivity.
    destruct (status_code r =? 404); [|reflexivity].
    rewrite github_api_call_eq. fold (rq_master cfg).
    destruct (outcome_of rem (after_call rem w (rq_main cfg)) (rq_master cfg));
      reflexivity.
Qed.

Lemma requests_of_app (evs1 evs2 : list event) :
  requests_of (evs1 ++ evs2) = requests_of evs1 ++ requests_of evs2.
Proof.
  induction evs1 as [|[rq tr|d] evs1 IH]; simpl; congruence.
Qed.

Lemma sleeps_of_app (evs1 evs2 : list event) :
  sleeps_of (evs1 ++ evs2) = sleeps_of evs1 ++ sleeps_of evs2.
Proof.
  induction evs1 as [|[rq tr|d] evs1 IH]; simpl; congruence.
Qed.

(** The world [get_main_branch_sha] leaves: one call, or two after a 404
    for [main]. *)
Lemma get_main_branch_sha_world (w : World) :
  snd (get_main_branch_sha cfg rem w)
  = if is_404 (outcome_of rem w (rq_main cfg))
    then after_call rem (after_call rem w (rq_main cfg)) (rq_master cfg)
    else after_call rem w (rq_main cfg).
Proof.
  rewrite get_main_branch_sha_eq.
  destruct (outcome_of rem w (rq_main cfg)) as [r|e]; cbn [is_404].
  - apply object_sha_pure.
  - destruct e as [r| | | |m| |]; try reflexivity.
    destruct (status_code r =? 404); [|reflexivity].
    destruct (outcome_of rem (after_call rem w (rq_main cfg)) (rq_master cfg));
      [apply object_sha_pure | reflexivity].
Qed.

End ScriptFacts.

(** X13: [get_main_branch_sha] asks for [master] exactly when the request
    for [main] ended in an [HTTPError] with status 404; any other
    exception of that request is raised as it is, after that one
    request. *)
Theorem master_asked_only_after_404 (cfg : Main.Config) (rem : Remote) (w : World) :
  requests_of (events (snd (get_main_branch_sha cfg rem w)))
  = requests_of (events w)
    ++ (if is_404 (outcome_of rem w (rq_main cfg))
        then [rq_main cfg; rq_master cfg]
        else [rq_main cfg])
  /\ forall e,
      outcome_of rem w (rq_main cfg) = Exec.Exc e ->
      is_404 (Exec.Exc e) = false ->
      get_main_branch_sha cfg rem w
      = (Raised (ApiError e), after_call rem w (rq_main cfg)).
Proof.
  split.
  - rewrite get_main_branch_sha_world.
    destruct (is_404 (outcome_of rem w (rq_main cfg)));
      unfold after_call; cbn [events]; rewrite ?requests_of_app;
      cbn [requests_of]; now rewrite <- ?app_assoc.
  - intros e He Hn. rewrite get_main_branch_sha_eq, He.
    destruct e as [r| | | |m| |]; try reflexivity.
    cbn [is_404] in Hn. now rewrite Hn.
Qed.

(** X14: when the answer for the branch decodes to a JSON array, or to
    anything that is not an object, [get_main_branch_sha] raises
    [TypeError]; when it is an object without the key [object], it raises
    [KeyError]. *)
Theorem get_main_branch_sha_bad_json
        (cfg : Main.Config) (rem : Remote) (w : World) (r : Response) :
  outcome_of rem w (rq_main cfg) = Exec.Val r ->
  (forall v, response_json (lib rem) r = Some v ->
             (forall items, v <> JDict items) ->
             get_main_branch_sha cfg rem w
             = (Raised TypeError, after_call rem w (rq_main cfg)))
  /\ (forall items, response_json (lib rem) r = Some (JDict items) ->
                    dict_get items "object" = None ->
                    get_main_branch_sha cfg rem w
                    = (Raised (KeyError "object"), after_call rem w (rq_main cfg)))
  /\ (response_json (lib rem) r = None ->
      get_main_branch_sha cfg rem w
      = (Raised JSONDecodeError, after_call rem w (rq_main cfg))).
Proof.
  intros Ho. rewrite get_main_branch_sha_eq, Ho.
  unfold and_then, json_of, subscript. repeat split.
  - intros v Hv Hnd. rewrite Hv.
    destruct v as [| | | | |items]; try reflexivity.
    exfalso. now apply (Hnd items).
  - intros items Hv Hk. rewrite Hv. cbn. now rewrite Hk.
  - intros Hv. now rewrite Hv.
Qed.

Lemma get_main_branch_sha_bad_json_witness :
  get_main_branch_sha sample_config
    (same_server (JList [ref_object]) (Obs.always (Responded Obs.ok_200) 1000)) start
  = (Raised TypeError,
     after_call (same_server (JList [ref_object]) (Obs.always (Responded Obs.ok_200) 1000))
                start (rq_main sample_config)).
Proof.
  destruct (get_main_branch_sha_bad_json
              sample_config
              (same_server (JList [ref_object]) (Obs.always (Responded Obs.ok_200) 1000))
              start Obs.ok_200 eq_refl) as (H & _).
  apply (H (JList [ref_object])).
  - reflexivity.
  - intros items. discriminate.
Defined.

Lemma master_asked_only_after_404_witness :
  get_main_branch_sha sample_config
    (same_server ref_object (Obs.always ConnectionFailed 1000)) start
  = (Raised (ApiError ConnectionError),
     after_call (same_server ref_object (Obs.always ConnectionFailed 1000))
                start (rq_main sample_config)).
Proof.
  destruct (master_asked_only_after_404
              sample_config (same_server ref_object (Obs.always ConnectionFailed 1000))
              start) as (_ & H).
  apply (H ConnectionError); reflexivity.
Defined.

(** ** Creating the repository *)

Section CreateRepository.

Variables (cfg : Main.Config) (rem : Remote).

(** The script's own [time.sleep] either sleeps or raises at once. *)
Lemma time_sleep_cases (seconds : Z) (w : World) :
  time_sleep seconds rem w = (Ok tt, after_sleep w seconds)
  \/ exists e, time_sleep seconds rem w = (Raised (ApiError e), w)
                /\ forall r, e <> HTTPError r.
Proof.
  unfold time_sleep, Exec.refusal_at.
  destruct ((seconds >? Exec.MAX_TIMESTAMP) || (seconds <? - Exec.MAX_TIMESTAMP));
    [right; eexists; split; [reflexivity | discriminate]|].
  destruct (seconds <? 0); [right; eexists; split; [reflexivity | discriminate]|].
  destruct (seconds >? Exec.SAFE_SLEEP + Z.of_N (sleep_headroom rem));
    [right; eexists; split; [reflexivity | discriminate]|].
  now left.
Qed.

(** It sleeps for every duration the script asks for. *)
Lemma time_sleep_small (seconds : Z) (w : World) :
  0 <= seconds <= Exec.SAFE_SLEEP ->
  time_sleep seconds rem w = (Ok tt, after_sleep w seconds).
Proof.
  intros H. unfold time_sleep, Exec.refusal_at.
  destruct (Z.gtb_spec seconds Exec.MAX_TIMESTAMP);
    [unfold Exec.MAX_TIMESTAMP, Exec.SAFE_SLEEP in *; lia|].
  destruct (Z.ltb_spec seconds (- Exec.MAX_TIMESTAMP));
    [unfold Exec.MAX_TIMESTAMP in *; lia|].
  cbn [orb].
  destruct (Z.ltb_spec seconds 0); [lia|].
  destruct (Z.gtb_spec seconds (Exec.SAFE_SLEEP + Z.of_N (sleep_headroom rem)));
    [lia | reflexivity].
Qed.

Lemma poll_sleep_small (i : nat) :
  (i < 10)%nat -> 0 <= 2 ^ Z.of_nat i <= Exec.SAFE_SLEEP.
Proof.
  intros H. unfold Exec.SAFE_SLEEP.
  assert (0 < 2 ^ Z.of_nat i) by (apply Z.pow_pos_nonneg; lia).
  assert (2 ^ Z.of_nat i <= 2 ^ 9) by (apply Z.pow_le_mono_r; lia).
  change (2 ^ 9) with 512 in *. lia.
Qed.

Lemma await_main_branch_eq (retries i : nat) (rest : list nat) (w : World) :
  await_main_branch cfg retries (i :: rest) rem w
  = match get_main_branch_sha cfg rem w with
    | (Ok _, w') => (Ok tt, w')
    | (Raised (ApiError (HTTPError r)), w') =>
        if (status_code r =? 404) && (i <? retries - 1)%nat
        then match time_sleep (2 ^ Z.of_nat i) rem w' with
             | (Ok _, w'') => await_main_branch cfg retries rest rem w''
             | (Raised e, w'') => (Raised e, w'')
             end
        else (Raised (ApiError (HTTPError r)), w')
    | (Raised e, w') => (Raised e, w')
    end.
Proof.
  cbn [await_main_branch]. unfold and_then at 1. unfold except_HTTPError.
  unfold and_then at 1.
  destruct (get_main_branch_sha cfg rem w) as [[v|e] w']; [reflexivity|].
  destruct e as [[r| | | |m| |]| | | | |]; try reflexivity.
  destruct ((status_code r =? 404) && (i <? retries - 1)%nat); [|reflexivity].
  unfold and_then at 1.
  destruct (time_sleep (2 ^ Z.of_nat i) rem w') as [[[]|e] w'']; reflexivity.
Qed.

Lemma create_repository_eq (w : World) :
  create_repository_if_not_exists cfg rem w
  = let w1 := after_call rem w (rq_repo cfg) in
    match outcome_of rem w (rq_repo cfg) with
    | Exec.Val _ => (Ok tt, w1)
    | Exec.Exc (HTTPError r) =>
        if status_code r =? 404 then
          let w2 := after_call rem w1 (rq_create_repo cfg) in
          match outcome_of rem w1 (rq_create_repo cfg) with
          | Exec.Val _ => await_main_branch cfg 10 (seq 0 10) rem (after_sleep w2 15)
          | Exec.Exc e => (Raised (ApiError e), w2)
          end
        else (Raised (ApiError (HTTPError r)), w1)
    | Exec.Exc e => (Raised (ApiError e), w1)
    end.
Proof.
  unfold create_repository_if_not_exists, except_HTTPError. unfold and_then at 1.
  rewrite github_api_call_eq. fold (rq_repo cfg). cbv zeta.
  destruct (outcome_of rem w (rq_repo cfg)) as [r|e]; cbn [as_result].
  - reflexivity.
  - destruct e as [r| | | |m| |]; try reflexivity.
    destruct (status_code r =? 404); [|reflexivity].
    unfold and_then at 1. rewrite github_api_call_eq. fold (rq_create_repo cfg).
    destruct (outcome_of rem (after_call rem w (rq_repo cfg)) (rq_create_repo cfg));
      cbn [as_result]; [|reflexivity].
    unfold and_then at 1.
    rewrite time_sleep_small by (unfold Exec.SAFE_SLEEP; lia).
    reflexivity.
Qed.

Lemma total_slept_app (evs1 evs2 : list event) :
  total_slept (evs1 ++ evs2) = total_slept evs1 + total_slept evs2.
Proof.
  unfold total_slept. rewrite sleeps_of_app.
  induction (sleeps_of evs1) as [|d l IH]; simpl; lia.
Qed.

(** What one [get_main_branch_sha] costs. *)
Lemma get_main_branch_sha_cost (w : World) :
  let w' := snd (get_main_branch_sha cfg rem w) in
  (S (api_calls w) <= api_calls w' <= api_calls w + 2)%nat
  /\ total_slept (events w') = total_slept (events w)
  /\ exists evs, events w' = events w ++ evs.
Proof.
  cbv zeta. rewrite get_main_branch_sha_world.
  destruct (is_404 (outcome_of rem w (rq_main cfg)));
    unfold after_call; cbn [api_calls events];
    rewrite ?total_slept_app; unfold total_slept; cbn;
    (split; [lia | split; [lia | rewrite <- ?app_assoc; eexists; reflexivity]]).
Qed.

Lemma await_main_branch_cost (retries : nat) (range : list nat) (w : World) :
  let w' := snd (await_main_branch cfg retries range rem w) in
  (api_calls w' <= api_calls w + 2 * List.length range)%nat
  /\ total_slept (events w') <= total_slept (events w) + poll_sleep_budget retries range
  /\ exists evs, events w' = events w ++ evs.
Proof.
  revert w; induction range as [|i rest IH]; intros w; cbv zeta.
  - cbn. repeat split; try lia. exists []. now rewrite app_nil_r.
  - rewrite await_main_branch_eq.
    destruct (get_main_branch_sha_cost w) as (Hc & Hs & (evs & He)).
    assert (Hpow : 0 <= 2 ^ Z.of_nat i) by (apply Z.pow_nonneg; lia).
    assert (Hbud : 0 <= poll_sleep_budget retries rest).
    { clear. induction rest as [|j rest IH]; cbn [poll_sleep_budget]; [lia|].
      destruct (j <? retries - 1)%nat; [|lia].
      assert (0 <= 2 ^ Z.of_nat j) by (apply Z.pow_nonneg; lia). lia. }
    cbn [List.length poll_sleep_budget].
    destruct (get_main_branch_sha cfg rem w) as [[v|e] w1]; cbn [snd] in *.
    + destruct (i <? retries - 1)%nat; (split; [lia | split; [lia | now exists evs]]).
    + destruct e as [[r| | | |m| |]| | | | |]; cbn [snd];
        try (destruct (i <? retries - 1)%nat; (split; [lia | split; [lia | now exists evs]])).
      destruct (status_code r =? 404); cbn [andb snd];
        [|destruct (i <? retries - 1)%nat; (split; [lia | split; [lia | now exists evs]])].
      destruct (i <? retries - 1)%nat; cbn [snd];
        [|(split; [lia | split; [lia | now exists evs]])].
      destruct (time_sleep_cases (2 ^ Z.of_nat i) w1) as [-> | (e & -> & _)];
        [|cbn [snd]; (split; [lia | split; [lia | now exists evs]])].
      destruct (IH (after_sleep w1 (2 ^ Z.of_nat i))) as (IH1 & IH2 & (evs' & IH3)).
      change (api_calls (after_sleep w1 (2 ^ Z.of_nat i))) with (api_calls w1) in IH1.
      change (events (after_sleep w1 (2 ^ Z.of_nat i)))
        with (events w1 ++ [Slept (2 ^ Z.of_nat i)]) in IH2, IH3.
      rewrite total_slept_app in IH2.
      change (total_slept [Slept (2 ^ Z.of_nat i)]) with (2 ^ Z.of_nat i + 0) in IH2.
      repeat split; try lia.
      rewrite IH3, He, <- !app_assoc. eexists; reflexivity.
Qed.

End CreateRepository.

(** X15: [create_repository_if_not_exists] creates nothing unless the
    request for the repository ended in an [HTTPError] with status 404:
    on an answer it returns after that one request, every other exception
    is raised as it is; after such a 404 its next request is the POST that
    creates the repository. *)
Theorem repository_created_only_after_404
        (cfg : Main.Config) (rem : Remote) (w : World) :
  (is_404 (outcome_of rem w (rq_repo cfg)) = false ->
   create_repository_if_not_exists cfg rem w
   = (match outcome_of rem w (rq_repo cfg) with
      | Exec.Val _ => Ok tt
      | Exec.Exc e => Raised (ApiError e)
      end,
      after_call rem w (rq_repo cfg)))
  /\ (is_404 (outcome_of rem w (rq_repo cfg)) = true ->
      exists rest,
        requests_of (events (snd (create_repository_if_not_exists cfg rem w)))
        = requests_of (events w) ++ rq_repo cfg :: rq_create_repo cfg :: rest).
Proof.
  split; intros H; rewrite create_repository_eq; cbv zeta;
    destruct (outcome_of rem w (rq_repo cfg)) as [r|e]; cbn [is_404] in H;
      try discriminate; try reflexivity.
  - destruct e as [r| | | |m| |]; try reflexivity. now rewrite H.
  - destruct e as [r| | | |m| |]; try discriminate. rewrite H.
    destruct (outcome_of rem (after_call rem w (rq_repo cfg)) (rq_create_repo cfg)).
    + destruct (await_main_branch_cost cfg rem 10 (seq 0 10)
                  (after_sleep (after_call rem (after_call rem w (rq_repo cfg))
                                           (rq_create_repo cfg)) 15))
        as (_ & _ & (evs & He)).
      rewrite He. unfold after_sleep, after_call; cbn [events].
      rewrite !requests_of_app. cbn [requests_of].
      rewrite <- !app_assoc. eexists; reflexivity.
    + cbn [snd]. unfold after_call; cbn [events].
      rewrite !requests_of_app. cbn [requests_of].
      rewrite <- !app_assoc. eexists; reflexivity.
Qed.

Lemma repository_created_only_after_404_witness :
  create_repository_if_not_exists sample_config
    (same_server ref_object (Obs.always (Responded Obs.ok_200) 1000)) start
  = (Ok tt,
     after_call (same_server ref_object (Obs.always (Responded Obs.ok_200) 1000))
                start (rq_repo sample_config))
  /\ exists rest,
      requests_of
        (events (snd (create_repository_if_not_exists sample_config
                        (same_server ref_object
                                     (Obs.always (Responded Obs.not_found_404) 1000))
                        start)))
      = requests_of (events start)
        ++ rq_repo sample_config :: rq_create_repo sample_config :: rest.
Proof.
  split.
  - destruct (repository_created_only_after_404
                sample_config
                (same_server ref_object (Obs.always (Responded Obs.ok_200) 1000))
                start) as (H & _).
    apply H. reflexivity.
  - destruct (repository_created_only_after_404
                sample_config
                (same_server ref_object (Obs.always (Responded Obs.not_found_404) 1000))
                start) as (_ & H).
    apply H. reflexivity.
Defined.

Lemma await_main_branch_ok (cfg : Main.Config) (rem : Remote) (retries n : nat) :
  forall a w w',
    (a + S n = retries)%nat ->
    await_main_branch cfg retries (seq a (S n)) rem w = (Ok tt, w') ->
    exists w1 sha, get_main_branch_sha cfg rem w1 = (Ok sha, w').
Proof.
  induction n as [|n IH]; intros a w w' Ha H;
    cbn [seq] in H; rewrite await_main_branch_eq in H;
    destruct (get_main_branch_sha cfg rem w) as [[v|e] w1] eqn:Hg.
  - injection H as <-. now exists w, v.
  - destruct e as [[r| | | |m| |]| | | | |]; try discriminate.
    replace (a <? retries - 1)%nat with false in H
      by (symmetry; apply Nat.ltb_ge; lia).
    rewrite andb_false_r in H. discriminate.
  - injection H as <-. now exists w, v.
  - destruct e as [[r| | | |m| |]| | | | |]; try discriminate.
    destruct ((status_code r =? 404) && (a <? retries - 1)%nat); [|discriminate].
    destruct (time_sleep_cases rem (2 ^ Z.of_nat a) w1) as [Hsl | (e & Hsl & _)];
      rewrite Hsl in H; [|discriminate].
    apply (IH (S a) (after_sleep w1 (2 ^ Z.of_nat a)) w'); [lia | exact H].
Qed.

(** X17: when [create_repository_if_not_exists] has created the
    repository (the check ended in a 404) and returns normally, the last
    thing it did was a [get_main_branch_sha] that succeeded: it never
    returns from the wait for the default branch without having seen the
    branch. *)
Theorem repository_ready_when_created
        (cfg : Main.Config) (rem : Remote) (w w' : World) :
  is_404 (outcome_of rem w (rq_repo cfg)) = true ->
  create_repository_if_not_exists cfg rem w = (Ok tt, w') ->
  exists w1 sha, get_main_branch_sha cfg rem w1 = (Ok sha, w').
Proof.
  intros H404 H. rewrite create_repository_eq in H. cbv zeta in H.
  destruct (outcome_of rem w (rq_repo cfg)) as [r|e]; cbn [is_404] in H404;
    [discriminate|].
  destruct e as [r| | | |m| |]; try discriminate. rewrite H404 in H.
  destruct (outcome_of rem (after_call rem w (rq_repo cfg)) (rq_create_repo cfg));
    [|discriminate].
  exact (await_main_branch_ok cfg rem 10 9 0 _ w' eq_refl H).
Qed.

Lemma repository_ready_when_created_witness :
  exists w1 sha,
    get_main_branch_sha sample_config
      (servers ref_object [Obs.always (Responded Obs.not_found_404) 1000]
               (Obs.always (Responded Obs.ok_200) 1000)) w1
    = (Ok sha,
       snd (create_repository_if_not_exists sample_config
              (servers ref_object [Obs.always (Responded Obs.not_found_404) 1000]
                       (Obs.always (Responded Obs.ok_200) 1000)) start)).
Proof.
  apply (repository_ready_when_created
           sample_config
           (servers ref_object [Obs.always (Responded Obs.not_found_404) 1000]
                    (Obs.always (Responded Obs.ok_200) 1000))
           start).
  - reflexivity.
  - reflexivity.
Defined.

Section NeverReady.

Variables (cfg : Main.Config) (rem : Remote) (first : nat).

Hypothesis always_404 :
  forall k rq, (first <= k)%nat ->
               exists r, fst (Exec.run (api rem k rq)) = Exec.Exc (HTTPError r)
                         /\ status_code r = 404.

Lemma get_main_branch_sha_not_found (w : World) :
  (first <= api_calls w)%nat ->
  exists r,
    status_code r = 404
    /\ get_main_branch_sha cfg rem w
       = (Raised (ApiError (HTTPError r)),
          after_call rem (after_call rem w (rq_main cfg)) (rq_master cfg)).
Proof.
  intros Hw. rewrite get_main_branch_sha_eq.
  destruct (always_404 (api_calls w) (rq_main cfg) Hw) as (r1 & H1 & Hs1).
  destruct (always_404 (S (api_calls w)) (rq_master cfg)) as (r2 & H2 & Hs2); [lia|].
  unfold outcome_of at 1. rewrite H1, Hs1. cbn [Z.eqb Pos.eqb].
  unfold outcome_of. cbn [after_call api_calls]. rewrite H2.
  now exists r2.
Qed.

Lemma await_main_branch_never_ready (n : nat) :
  forall a w,
    (a + S n = 10)%nat ->
    (first <= api_calls w)%nat ->
    exists r w',
      status_code r = 404
      /\ await_main_branch cfg 10 (seq a (S n)) rem w
         = (Raised (ApiError (HTTPError r)), w')
      /\ api_calls w' = (api_calls w + 2 * S n)%nat
      /\ sleeps_of (events w')
         = sleeps_of (events w) ++ map (fun i => 2 ^ Z.of_nat i) (seq a n).
Proof.
  induction n as [|n IH]; intros a w Ha Hw;
    rewrite <- cons_seq, await_main_branch_eq;
    destruct (get_main_branch_sha_not_found w Hw) as (r & Hs & ->);
    rewrite Hs; cbn [Z.eqb Pos.eqb andb].
  - replace (a <? 10 - 1)%nat with false by (symmetry; apply Nat.ltb_ge; lia).
    exists r, (after_call rem (after_call rem w (rq_main cfg)) (rq_master cfg)).
    repeat split; auto.
    + unfold after_call; cbn [api_calls]. lia.
    + unfold after_call; cbn [events map]. rewrite !sleeps_of_app. cbn.
      now rewrite !app_nil_r.
  - replace (a <? 10 - 1)%nat with true by (symmetry; apply Nat.ltb_lt; lia).
    rewrite time_sleep_small by (apply poll_sleep_small; lia).
    destruct (IH (S a)
                 (after_sleep (after_call rem (after_call rem w (rq_main cfg))
                                          (rq_master cfg)) (2 ^ Z.of_nat a)))
      as (r' & w' & Hs' & -> & Hc & Hsl); [lia | cbn; lia |].
    exists r', w'. repeat split; auto.
    + rewrite Hc. cbn. lia.
    + rewrite Hsl. unfold after_sleep, after_call; cbn [events].
      rewrite !sleeps_of_app. cbn [sleeps_of map seq]. cbn [app].
      rewrite !app_nil_r. now rewrite <- app_assoc.
Qed.

End NeverReady.

(** X18: when the repository is created but neither [main] nor [master]
    ever appears (every later call ends in a 404), the wait gives up with
    the [HTTPError] of the last 404 after ten polls: 22 calls of
    [github_api_call] in all, and sleeps of 15 and then 1, 2, 4, ..., 256
    seconds. *)
Theorem repository_never_ready
        (cfg : Main.Config) (rem : Remote) (w : World) (r0 r1 : Response) :
  outcome_of rem w (rq_repo cfg) = Exec.Exc (HTTPError r0) ->
  status_code r0 = 404 ->
  outcome_of rem (after_call rem w (rq_repo cfg)) (rq_create_repo cfg) = Exec.Val r1 ->
  (forall k rq, (api_calls w + 2 <= k)%nat ->
                exists r, fst (Exec.run (api rem k rq)) = Exec.Exc (HTTPError r)
                          /\ status_code r = 404) ->
  exists r w',
    status_code r = 404
    /\ create_repository_if_not_exists cfg rem w = (Raised (ApiError (HTTPError r)), w')
    /\ api_calls w' = (api_calls w + 22)%nat
    /\ sleeps_of (events w')
       = sleeps_of (events w) ++ [15; 1; 2; 4; 8; 16; 32; 64; 128; 256].
Proof.
  intros H0 Hs0 H1 Hall. rewrite create_repository_eq. cbv zeta.
  rewrite H0, Hs0, H1. cbn [Z.eqb Pos.eqb].
  destruct (await_main_branch_never_ready cfg rem (api_calls w + 2) Hall 9 0
              (after_sleep (after_call rem (after_call rem w (rq_repo cfg))
                                       (rq_create_repo cfg)) 15))
    as (r & w' & Hs & -> & Hc & Hsl); [reflexivity | cbn; lia |].
  exists r, w'. repeat split; auto.
  - rewrite Hc. cbn. lia.
  - rewrite Hsl. unfold after_sleep, after_call; cbn [events].
    rewrite !sleeps_of_app. cbn [sleeps_of]. rewrite !app_nil_r.
    rewrite <- app_assoc. reflexivity.
Qed.

Lemma repository_never_ready_witness :
  exists r w',
    status_code r = 404
    /\ create_repository_if_not_exists sample_config
         (servers ref_object [Obs.always (Responded Obs.not_found_404) 1000;
                              Obs.always (Responded Obs.ok_200) 1000]
                  (Obs.always (Responded Obs.not_found_404) 1000)) start
       = (Raised (ApiError (HTTPError r)), w')
    /\ api_calls w' = (api_calls start + 22)%nat
    /\ sleeps_of (events w')
       = sleeps_of (events start) ++ [15; 1; 2; 4; 8; 16; 32; 64; 128; 256].
Proof.
  apply (repository_never_ready
           sample_config
           (servers ref_object [Obs.always (Responded Obs.not_found_404) 1000;
                                Obs.always (Responded Obs.ok_200) 1000]
                    (Obs.always (Responded Obs.not_found_404) 1000))
           start Obs.not_found_404 Obs.ok_200).
  - reflexivity.
  - reflexivity.
  - reflexivity.
  - intros k rq Hk. exists Obs.not_found_404.
    destruct k as [|[|[|k]]]; cbn in Hk; try lia; split; reflexivity.
Defined.

(** ** Files and the log *)

Section Files.

Variables (cfg : Main.Config) (rem : Remote).

Lemma nested_subscript_pure (r : Response) (k1 k2 : string) (w : World) :
  snd ((v <- json_of r ;; x <- subscript v k1 ;; subscript x k2)%script rem w) = w.
Proof.
  unfold and_then, json_of, subscript.
  destruct (response_json (lib rem) r) as [[| | | | |items]|]; try reflexivity.
  cbn. destruct (dict_get items k1) as [[| | | | |items']|]; try reflexivity.
  cbn. destruct (dict_get items' k2); reflexivity.
Qed.

(** [get_file_content]: one request in every case; its result by what
    that request gives. *)
Lemma get_file_content_eq (file_path : option string) (branch : string) (w : World) :
  exists res,
    get_file_content cfg file_path branch rem w
    = (res, after_call rem w (rq_contents cfg file_path branch))
    /\ match outcome_of rem w (rq_contents cfg file_path branch) with
       | Exec.Val r =>
           (forall x, res <> Ok (None, x))
           /\ forall items enc c sha,
               response_json (lib rem) r = Some (JDict items) ->
               dict_get items "content" = Some enc ->
               b64decode_utf8 (lib rem) enc = Some c ->
               dict_get items "sha" = Some sha ->
               res = Ok (Some c, sha)
       | Exec.Exc (HTTPError r) =>
           res = if status_code r =? 404 then Ok (None, JNull)
                 else Raised (ApiError (HTTPError r))
       | Exec.Exc e => res = Raised (ApiError e)
       end.
Proof.
  unfold get_file_content, except_HTTPError. unfold and_then at 1.
  rewrite github_api_call_eq. fold (rq_contents cfg file_path branch).
  destruct (outcome_of rem w (rq_contents cfg file_path branch)) as [r|e];
    cbn [as_result].
  - unfold and_then, json_of, subscript.
    destruct (response_json (lib rem) r) as [v|] eqn:Hv.
    + destruct v as [| | | | |items];
        try (eexists; split; [reflexivity | split; [discriminate | discriminate]]).
      cbn. destruct (dict_get items "content") as [enc|] eqn:Hc; cbn.
      * destruct (b64decode_utf8 (lib rem) enc) as [c|] eqn:Hd.
        -- destruct (dict_get items "sha") as [sha|] eqn:Hsh; cbn;
             (eexists; split; [reflexivity|]); (split; [discriminate|]);
             intros items' enc' c' sha' Hi He' Hd' Hs'; injection Hi as <-;
             rewrite Hc in He'; injection He' as <-; rewrite Hd in Hd';
             injection Hd' as <-; rewrite Hsh in Hs'; try discriminate.
           now injection Hs' as <-.
        -- eexists; split; [reflexivity|]. split; [discriminate|].
           intros items' enc' c' sha' Hi He' Hd' Hs'. injection Hi as <-.
           rewrite Hc in He'. injection He' as <-. congruence.
      * eexists; split; [reflexivity|]. split; [discriminate|].
        intros items' enc' c' sha' Hi He' Hd' Hs'. injection Hi as <-. congruence.
    + eexists; split; [reflexivity|]. split; discriminate.
  - destruct e as [r| | | |m| |]; try (eexists; split; reflexivity).
    destruct (status_code r =? 404); eexists; split; reflexivity.
Qed.

Lemma file_absent_from_404 (file_path : option string) (branch : string) (w : World) :
  is_404 (outcome_of rem w (rq_contents cfg file_path branch)) = true ->
  get_file_content cfg file_path branch rem w
  = (Ok (None, JNull), after_call rem w (rq_contents cfg file_path branch)).
Proof.
  intros H. destruct (get_file_content_eq file_path branch w) as (res & -> & Hres).
  destruct (outcome_of rem w (rq_contents cfg file_path branch)) as [r|e];
    cbn [is_404] in H; [discriminate|].
  destruct e as [r| | | |m| |]; try discriminate. rewrite H in Hres. now subst res.
Qed.

Lemma update_file_and_commit_world
      (branch_name : string) (file_path : option string)
      (content commit_message : string) (current_sha : json) (w : World) :
  snd (update_file_and_commit cfg branch_name file_path content commit_message
                              current_sha rem w)
  = after_call rem w
      (mkRequest "PUT" (get_contents_url cfg file_path)
                 (Some (commit_data rem branch_name content commit_message current_sha))).
Proof.
  unfold update_file_and_commit. unfold and_then at 1.
  rewrite github_api_call_eq.
  destruct (outcome_of rem w _) as [r|e]; cbn [as_result]; [|reflexivity].
  apply (nested_subscript_pure r "commit" "sha").
Qed.

End Files.

(** X19: [get_file_content] makes exactly one call in every case, and it
    answers [(None, None)] exactly when that call ended in an [HTTPError]
    with status 404: no other failure is taken for a missing file. *)
Theorem file_absent_only_after_404
        (cfg : Main.Config) (rem : Remote) (file_path : option string)
        (branch : string) (w : World) :
  snd (get_file_content cfg file_path branch rem w)
  = after_call rem w (rq_contents cfg file_path branch)
  /\ ((exists x, fst (get_file_content cfg file_path branch rem w) = Ok (None, x))
      <-> is_404 (outcome_of rem w (rq_contents cfg file_path branch)) = true)
  /\ (is_404 (outcome_of rem w (rq_contents cfg file_path branch)) = true ->
      fst (get_file_content cfg file_path branch rem w) = Ok (None, JNull)).
Proof.
  destruct (get_file_content_eq cfg rem file_path branch w) as (res & -> & Hres).
  cbn [fst snd]. split; [reflexivity|].
  destruct (outcome_of rem w (rq_contents cfg file_path branch)) as [r|e];
    cbn [is_404].
  - destruct Hres as [Hn _]. split; [|discriminate].
    split; [intros [x Hx]; now apply Hn in Hx | discriminate].
  - destruct e as [r| | | |m| |]; subst res;
      try (split; [split; [intros [x Hx]; discriminate | discriminate] | discriminate]).
    destruct (status_code r =? 404).
    + split; [split; [reflexivity | intros _; now exists JNull] | reflexivity].
    + split; [split; [intros [x Hx]; discriminate | discriminate] | discriminate].
Qed.

Lemma file_absent_only_after_404_witness :
  fst (get_file_content sample_config (Some "automation_log.md"%string) "main"
         (same_server contents_object (Obs.always (Responded Obs.not_found_404) 1000))
         start)
  = Ok (None, JNull).
Proof.
  destruct (file_absent_only_after_404
              sample_config
              (same_server contents_object (Obs.always (Responded Obs.not_found_404) 1000))
              (Some "automation_log.md"%string) "main"%string start) as (_ & _ & H).
  apply H. reflexivity.
Defined.

Section LogEvent.

Variables (cfg : Main.Config) (rem : Remote).

(** [log_event] once the log has been read. *)
Lemma log_event_committing (message summary : string) (w w2 : World)
      (content : option string) (sha : json) :
  get_file_content cfg (Main.LOG_FILE_PATH cfg) "main" rem (after_time_read w)
  = (Ok (content, sha), w2) ->
  PyStr.first_line message = Some summary ->
  snd (log_event cfg message rem w)
  = after_call rem w2
      (mkRequest "PUT" (get_contents_url cfg (Main.LOG_FILE_PATH cfg))
         (Some (commit_data rem "main"
                  (match content with
                   | Some (String c s) => String c s
                   | _ => log_header cfg
                   end ++ log_entry (strftime_now rem (time_reads w)) message)
                  ("Update automation log: " ++ summary) sha))).
Proof.
  intros Hg Hm. unfold log_event. unfold and_then at 1. unfold current_time_ist at 1.
  fold (after_time_read w). unfold and_then at 1. rewrite Hg, Hm.
  unfold and_then at 1.
  pose proof (update_file_and_commit_world cfg rem "main" (Main.LOG_FILE_PATH cfg)
                (match content with
                 | Some (String c s) => String c s
                 | _ => log_header cfg
                 end ++ log_entry (strftime_now rem (time_reads w)) message)
                ("Update automation log: " ++ summary) sha w2) as Hu.
  unfold log_entry in *.
  destruct content as [[|c s]|];
    destruct (update_file_and_commit _ _ _ _ _ _ _ _) as [[v|e] w3];
    cbn [snd] in Hu; subst w3; reflexivity.
Qed.

End LogEvent.

(** X20: when the log file exists and is not empty, [log_event] commits
    the old content followed by the new line (nothing of the old log is
    dropped), to branch [main], with the blob SHA it read when that is
    truthy. *)
Theorem log_event_appends
        (cfg : Main.Config) (rem : Remote) (w : World) (message summary : string)
        (r : Response) (items : list (string * json)) (enc sha : json) (c : string) :
  let rq := rq_contents cfg (Main.LOG_FILE_PATH cfg) "main" in
  outcome_of rem (after_time_read w) rq = Exec.Val r ->
  response_json (lib rem) r = Some (JDict items) ->
  dict_get items "content" = Some enc ->
  b64decode_utf8 (lib rem) enc = Some c ->
  c <> ""%string ->
  dict_get items "sha" = Some sha ->
  PyStr.first_line message = Some summary ->
  exists body,
    requests_of (events (snd (log_event cfg message rem w)))
    = requests_of (events w)
      ++ [rq; mkRequest "PUT" (get_contents_url cfg (Main.LOG_FILE_PATH cfg))
                        (Some (JDict body))]
    /\ dict_get body "content"
       = Some (JStr (b64encode_utf8 (lib rem)
                       (c ++ log_entry (strftime_now rem (time_reads w)) message)))
    /\ dict_get body "sha" = (if truthy sha then Some sha else None)
    /\ dict_get body "branch" = Some (JStr "main")
    /\ dict_get body "message" = Some (JStr ("Update automation log: " ++ summary)).
Proof.
  intros rq Ho Hj Hc Hd Hne Hs Hm.
  destruct (get_file_content_eq cfg rem (Main.LOG_FILE_PATH cfg) "main"
                                (after_time_read w)) as (res & Hg & Hres).
  fold rq in Hg, Hres. rewrite Ho in Hres. destruct Hres as [_ Hfound].
  rewrite (Hfound items enc c sha Hj Hc Hd Hs) in Hg.
  rewrite (log_event_committing cfg rem message summary w _ _ _ Hg Hm).
  eexists. split; [|split; [|split; [|split]]].
  - unfold after_call, after_time_read, commit_data; cbn [events].
    rewrite !requests_of_app. cbn [requests_of]. rewrite <- app_assoc. reflexivity.
  - destruct c as [|a c]; [contradiction | reflexivity].
  - cbn. destruct (truthy sha); reflexivity.
  - reflexivity.
  - reflexivity.
Qed.

Lemma log_event_appends_witness :
  exists body,
    requests_of
      (events (snd (log_event sample_config "Merged PR #7"
                      (same_server contents_object
                                   (Obs.always (Responded Obs.ok_200) 1000)) start)))
    = requests_of (events start)
      ++ [rq_contents sample_config (Main.LOG_FILE_PATH sample_config) "main";
          mkRequest "PUT"
            (get_contents_url sample_config (Main.LOG_FILE_PATH sample_config))
            (Some (JDict body))]
    /\ dict_get body "content"
       = Some (JStr (PyBase64.b64encode_utf8
                       ("# log" ++ log_entry "2024-05-01 12:00:00 IST" "Merged PR #7")))
    /\ dict_get body "sha"
       = Some (JStr "95b966ae1c166bd92f8ae7d1c313e738c731dfc3")
    /\ dict_get body "branch" = Some (JStr "main")
    /\ dict_get body "message" = Some (JStr "Update automation log: Merged PR #7").
Proof.
  apply (log_event_appends
           sample_config
           (same_server contents_object (Obs.always (Responded Obs.ok_200) 1000))
           start "Merged PR #7" "Merged PR #7" Obs.ok_200
           [ ("content"%string, JStr ("IyBsb2c=" ++ newline));
             ("sha"%string, JStr "95b966ae1c166bd92f8ae7d1c313e738c731dfc3") ]
           (JStr ("IyBsb2c=" ++ newline))
           (JStr "95b966ae1c166bd92f8ae7d1c313e738c731dfc3") "# log").
  - reflexivity.
  - reflexivity.
  - reflexivity.
  - reflexivity.
  - discriminate.
  - reflexivity.
  - reflexivity.
Defined.

(** X21: when the log file is missing (the read ended in a 404),
    [log_event] commits a new file that starts with the header line and
    holds the one new line, and sends no [sha]. *)
Theorem log_event_creates_log
        (cfg : Main.Config) (rem : Remote) (w : World) (message summary : string) :
  let rq := rq_contents cfg (Main.LOG_FILE_PATH cfg) "main" in
  is_404 (outcome_of rem (after_time_read w) rq) = true ->
  PyStr.first_line message = Some summary ->
  exists body,
    requests_of (events (snd (log_event cfg message rem w)))
    = requests_of (events w)
      ++ [rq; mkRequest "PUT" (get_contents_url cfg (Main.LOG_FILE_PATH cfg))
                        (Some (JDict body))]
    /\ dict_get body "content"
       = Some (JStr (b64encode_utf8 (lib rem)
                       (log_header cfg
                        ++ log_entry (strftime_now rem (time_reads w)) message)))
    /\ dict_get body "sha" = None.
Proof.
  intros rq H404 Hm.
  pose proof (file_absent_from_404 cfg rem (Main.LOG_FILE_PATH cfg) "main"
                                   (after_time_read w) H404) as Hg.
  rewrite (log_event_committing cfg rem message summary w _ _ _ Hg Hm).
  eexists. split; [|split].
  - unfold after_call, after_time_read, commit_data; cbn [events].
    rewrite !requests_of_app. cbn [requests_of]. rewrite <- app_assoc. reflexivity.
  - reflexivity.
  - reflexivity.
Qed.

Lemma log_event_creates_log_witness :
  exists body,
    requests_of
      (events (snd (log_event sample_config "Merged PR #7"
                      (servers contents_object
                               [Obs.always (Responded Obs.not_found_404) 1000]
                               (Obs.always (Responded Obs.ok_200) 1000)) start)))
    = requests_of (events start)
      ++ [rq_contents sample_config (Main.LOG_FILE_PATH sample_config) "main";
          mkRequest "PUT"
            (get_contents_url sample_config (Main.LOG_FILE_PATH sample_config))
            (Some (JDict body))]
    /\ dict_get body "content"
       = Some (JStr (PyBase64.b64encode_utf8
                       (log_header sample_config
                        ++ log_entry "2024-05-01 12:00:00 IST" "Merged PR #7")))
    /\ dict_get body "sha" = None.
Proof.
  apply (log_event_creates_log
           sample_config
           (servers contents_object [Obs.always (Responded Obs.not_found_404) 1000]
                    (Obs.always (Responded Obs.ok_200) 1000))
           start "Merged PR #7" "Merged PR #7").
  - reflexivity.
  - reflexivity.
Defined.

(** X22: [log_event] of an empty message reads the log and then raises
    (the [IndexError] of [message.splitlines()[0]] when the read went
    well): it never returns normally and never commits. *)
Theorem log_event_empty_message (cfg : Main.Config) (rem : Remote) (w : World) :
  fst (log_event cfg "" rem w) <> Ok tt
  /\ requests_of (events (snd (log_event cfg "" rem w)))
     = requests_of (events w)
       ++ [rq_contents cfg (Main.LOG_FILE_PATH cfg) "main"]
  /\ (forall res, fst (get_file_content cfg (Main.LOG_FILE_PATH cfg) "main" rem
                         (after_time_read w)) = Ok res ->
                  fst (log_event cfg "" rem w) = Raised IndexError).
Proof.
  destruct (get_file_content_eq cfg rem (Main.LOG_FILE_PATH cfg) "main"
                                (after_time_read w)) as (res & Hg & _).
  assert (Heq : log_event cfg "" rem w
                = (match res with
                   | Ok _ => Raised IndexError
                   | Raised e => Raised e
                   end,
                   after_call rem (after_time_read w)
                     (rq_contents cfg (Main.LOG_FILE_PATH cfg) "main"))).
  { unfold log_event. unfold and_then at 1. unfold current_time_ist at 1.
    fold (after_time_read w). unfold and_then at 1. rewrite Hg.
    destruct res as [[content sha]|e]; reflexivity. }
  rewrite Heq, Hg. cbn [fst snd].
  split; [destruct res; discriminate|]. split.
  - unfold after_call, after_time_read; cbn [events].
    now rewrite requests_of_app.
  - intros res' Hres. now subst res.
Qed.

Lemma log_event_empty_message_witness :
  fst (log_event sample_config ""
         (same_server contents_object (Obs.always (Responded Obs.ok_200) 1000)) start)
  = Raised IndexError.
Proof.
  destruct (log_event_empty_message
              sample_config
              (same_server contents_object (Obs.always (Responded Obs.ok_200) 1000))
              start) as (_ & _ & H).
  apply (H (Some "# log"%string, JStr "95b966ae1c166bd92f8ae7d1c313e738c731dfc3")).
  reflexivity.
Defined.

(** ** Calls that meet the retry policy *)

Lemma status_422_is_transient (r : Response) :
  status_code r = 422 -> transient r.
Proof.
  unfold transient, is_http_error, Exec.rate_limit_hit, Exec.in_404_409.
  intros ->. auto.
Qed.

(** X23: a branch that the server refuses to delete with a 422 is
    tolerated by [delete_branch], but only after [github_api_call] has
    spent its five attempts on the DELETE, with sleeps of 1, 2, 4 and 8
    seconds between them. *)
Theorem delete_branch_tolerates_422
        (cfg : Main.Config) (rem : Remote) (w : World) (branch_name : string) :
  (forall k, (k < Exec.max_retries)%nat ->
             exists r, Exec.server (api rem (api_calls w) (rq_delete cfg branch_name)) k
                       = Responded r
                       /\ status_code r = 422) ->
  delete_branch cfg branch_name rem w
  = (Ok tt,
     mkWorld (S (api_calls w)) (time_reads w)
             (events w
              ++ [Called (rq_delete cfg branch_name)
                         [EvRequest; EvSleep 1; EvRequest; EvSleep 2; EvRequest;
                          EvSleep 4; EvRequest; EvSleep 8; EvRequest]])).
Proof.
  intros Hall.
  destruct (transient_five_times (api rem (api_calls w) (rq_delete cfg branch_name)))
    as (r & Hs & Hrun).
  { intros k Hk. destruct (Hall k Hk) as (r & Hs & Hst).
    exists r. split; [assumption | now apply status_422_is_transient]. }
  destruct (Hall 4%nat) as (r' & Hs' & Hst); [unfold Exec.max_retries; lia|].
  rewrite Hs in Hs'. injection Hs' as <-.
  unfold delete_branch, except_HTTPError. unfold and_then at 1.
  rewrite github_api_call_eq. fold (rq_delete cfg branch_name).
  unfold outcome_of, after_call. rewrite Hrun. cbn [fst snd as_result Exec.trace].
  now rewrite Hst.
Qed.

Lemma delete_branch_tolerates_422_witness :
  delete_branch sample_config "feature/pr-1"
    (same_server ref_object (Obs.always (Responded unprocessable_422) 1000)) start
  = (Ok tt,
     mkWorld 1 0
       [Called (rq_delete sample_config "feature/pr-1")
               [EvRequest; EvSleep 1; EvRequest; EvSleep 2; EvRequest;
                EvSleep 4; EvRequest; EvSleep 8; EvRequest]]).
Proof.
  apply (delete_branch_tolerates_422
           sample_config
           (same_server ref_object (Obs.always (Responded unprocessable_422) 1000))
           start "feature/pr-1").
  intros k _. exists unprocessable_422. split; reflexivity.
Defined.

(** X24: a merge that the server refuses with a 409 on the first attempt
    is not retried: [merge_pull_request] raises that [HTTPError] after a
    single HTTP request. *)
Theorem merge_conflict_not_retried
        (cfg : Main.Config) (rem : Remote) (w : World) (pr_number : json)
        (r : Response) :
  let n := py_str (lib rem) pr_number in
  let rq := mkRequest "PUT" (get_pull_merge_url cfg n)
              (Some (JDict [ ("commit_title"%string,
                              JStr ("Merge pull request #" ++ n ++ " (Automated)"));
                             ("commit_message"%string,
                              JStr "Automated merge for Pull Shark achievement.");
                             ("merge_method"%string, JStr "merge") ])) in
  Exec.server (api rem (api_calls w) rq) 0 = Responded r ->
  status_code r = 409 ->
  merge_pull_request cfg pr_number rem w
  = (Raised (ApiError (HTTPError r)),
     mkWorld (S (api_calls w)) (time_reads w) (events w ++ [Called rq [EvRequest]])).
Proof.
  intros n rq Hs Hst.
  assert (Hrun : Exec.run (api rem (api_calls w) rq)
                 = (Exec.Exc (HTTPError r), Exec.mkWorld 1 0 [EvRequest])).
  { apply (run_raises _ 0 Exec.world0);
      [unfold Exec.max_retries; lia | apply reaches_zero |].
    rewrite (attempt_body_reraise _ 0 Exec.world0 r); auto.
    - unfold is_http_error. now rewrite Hst.
    - unfold Exec.rate_limit_hit. now rewrite Hst.
    - unfold Exec.in_404_409. now rewrite Hst. }
  unfold merge_pull_request. unfold and_then at 1.
  rewrite github_api_call_eq. fold n. fold rq.
  unfold outcome_of, after_call. rewrite Hrun. reflexivity.
Qed.

Lemma merge_conflict_not_retried_witness :
  fst (merge_pull_request sample_config (JInt 7)
         (same_server ref_object (Obs.always (Responded conflict_409) 1000)) start)
  = Raised (ApiError (HTTPError conflict_409)).
Proof.
  rewrite (merge_conflict_not_retried
             sample_config
             (same_server ref_object (Obs.always (Responded conflict_409) 1000))
             start (JInt 7) conflict_409).
  - reflexivity.
  - reflexivity.
  - reflexivity.
Defined.

(* ------------------------------------------------------------------ *)
(** * The whole run *)

Import Runner RunnerObs.

(** ** What the functions cost *)

Lemma run_requests_le_five (env : Exec.Env) :
  (Obs.n_requests (Exec.trace (snd (Exec.run env))) <= 5)%nat.
Proof.
  rewrite (run_from env 0 Exec.world0)
    by (unfold Exec.max_retries; try lia; apply reaches_zero).
  destruct (for_each_counts env (seq 0 (Exec.max_retries - 0)) Exec.world0)
    as (Hle & Hn & _).
  rewrite length_seq in Hle.
  change (Exec.requests_made Exec.world0) with 0%nat in Hle, Hn.
  change (Obs.n_requests (Exec.trace Exec.world0)) with 0%nat in Hn.
  change (Exec.max_retries - 0)%nat with 5%nat in Hle.
  destruct (Exec.for_each Exec.attempt_body _ env Exec.world0) as [[[r|]|e] w1];
    cbn [snd] in *; lia.
Qed.

Lemma http_requests_app (evs1 evs2 : list event) :
  http_requests (evs1 ++ evs2) = (http_requests evs1 + http_requests evs2)%nat.
Proof.
  induction evs1 as [|[rq tr|d] evs1 IH]; simpl; lia.
Qed.

Lemma after_call_cost (rem : Remote) (w : World) (rq : Request) :
  api_calls (after_call rem w rq) = S (api_calls w)
  /\ total_slept (events (after_call rem w rq)) = total_slept (events w)
  /\ (http_requests (events (after_call rem w rq)) <= http_requests (events w) + 5)%nat.
Proof.
  unfold after_call; cbn [api_calls events].
  rewrite total_slept_app, http_requests_app.
  unfold total_slept at 2. cbn [sleeps_of fold_right http_requests].
  pose proof (run_requests_le_five (api rem (api_calls w) rq)).
  repeat split; lia.
Qed.

Section Costs.

Context {A B : Type}.

Lemma costs_pure (a : A) : costs (pure a) 0 0.
Proof. intros rem w. cbn. lia. Qed.

Lemma costs_throw (e : exn) : costs (@throw A e) 0 0.
Proof. intros rem w. cbn. lia. Qed.

Lemma costs_weaken (m : Run A) (c c' : nat) (s s' : Z) :
  costs m c s -> (c <= c')%nat -> s <= s' -> costs m c' s'.
Proof.
  intros H Hc Hs rem w. destruct (H rem w) as (H1 & H2 & H3). lia.
Qed.

Lemma costs_and_then (m : Run A) (k : A -> Run B) (c1 : nat) (s1 : Z)
      (c2 : nat) (s2 : Z) (c : nat) (s : Z) :
  costs m c1 s1 ->
  (forall a, costs (k a) c2 s2) ->
  (c1 + c2 <= c)%nat -> s1 + s2 <= s -> 0 <= s2 ->
  costs (and_then m k) c s.
Proof.
  intros Hm Hk Hc Hs Hs2 rem w. unfold and_then.
  destruct (Hm rem w) as (H1 & H2 & H3).
  destruct (m rem w) as [[a|e] w1]; cbn [snd] in *.
  - destruct (Hk a rem w1) as (K1 & K2 & K3). lia.
  - lia.
Qed.

Lemma costs_if (b : bool) (m1 m2 : Run A) (c : nat) (s : Z) :
  costs m1 c s -> costs m2 c s -> costs (if b then m1 else m2) c s.
Proof. destruct b; auto. Qed.

End Costs.

Lemma costs_except {A} (m : Run A) (h : Response -> Run A) (c1 : nat) (s1 : Z)
      (c2 : nat) (s2 : Z) (c : nat) (s : Z) :
  costs m c1 s1 ->
  (forall r, costs (h r) c2 s2) ->
  (c1 + c2 <= c)%nat -> s1 + s2 <= s -> 0 <= s2 ->
  costs (except_HTTPError m h) c s.
Proof.
  intros Hm Hh Hc Hs Hs2 rem w. unfold except_HTTPError.
  destruct (Hm rem w) as (H1 & H2 & H3).
  destruct (m rem w) as [[a|e] w1]; cbn [snd] in *; [lia|].
  destruct e as [[r| | | |msg| |]| | | | |]; cbn [snd]; try lia.
  destruct (Hh r rem w1) as (K1 & K2 & K3). lia.
Qed.

Lemma costs_call (method url : string) (body : option json) :
  costs (github_api_call method url body) 1 0.
Proof.
  intros rem w. rewrite github_api_call_eq. cbn [snd].
  destruct (after_call_cost rem w (mkRequest method url body)) as (H1 & H2 & H3).
  lia.
Qed.

Lemma costs_sleep (seconds : Z) :
  0 <= seconds -> costs (time_sleep seconds) 0 seconds.
Proof.
  intros Hs rem w. unfold time_sleep.
  destruct (Exec.refusal_at (Exec.SAFE_SLEEP + Z.of_N (sleep_headroom rem)) seconds);
    cbn [snd api_calls events]; [lia|].
  rewrite total_slept_app, http_requests_app. unfold total_slept at 2. cbn. lia.
Qed.

Lemma costs_json_of (r : Response) : costs (json_of r) 0 0.
Proof.
  intros rem w. unfold json_of.
  destruct (response_json (lib rem) r); cbn; lia.
Qed.

Lemma costs_subscript (v : json) (key : string) : costs (subscript v key) 0 0.
Proof.
  intros rem w. unfold subscript.
  destruct v as [| | | | |items]; try (cbn; lia).
  destruct (dict_get items key); cbn; lia.
Qed.

Ltac cost_seq c1 s1 c2 s2 :=
  apply (costs_and_then _ _ c1 s1 c2 s2); [ | intro | lia | lia | lia].

Section FunctionCosts.

Variable cfg : Main.Config.

(** [response.json()[k1][k2]] *)
Lemma costs_nested (r : Response) (k1 k2 : string) :
  costs (v <- json_of r ;; x <- subscript v k1 ;; subscript x k2)%script 0 0.
Proof.
  cost_seq 0%nat 0 0%nat 0; [apply costs_json_of|].
  cost_seq 0%nat 0 0%nat 0; apply costs_subscript.
Qed.

Lemma costs_get_main_branch_sha : costs (get_main_branch_sha cfg) 2 0.
Proof.
  unfold get_main_branch_sha.
  cost_seq 2%nat 0 0%nat 0; [|apply costs_nested].
  apply (costs_except _ _ 1 0 1 0); try lia; [apply costs_call|].
  intro r. apply costs_if; [apply costs_call|].
  apply (costs_weaken _ 0 1 0 0); [apply costs_throw | lia | lia].
Qed.

Lemma poll_sleep_budget_nonneg (retries : nat) (range : list nat) :
  0 <= poll_sleep_budget retries range.
Proof.
  induction range as [|j rest IH]; cbn [poll_sleep_budget]; [lia|].
  destruct (j <? retries - 1)%nat; [|lia].
  assert (0 <= 2 ^ Z.of_nat j) by (apply Z.pow_nonneg; lia). lia.
Qed.

Lemma costs_await_main_branch (retries : nat) (range : list nat) :
  costs (await_main_branch cfg retries range)
        (2 * List.length range) (poll_sleep_budget retries range).
Proof.
  induction range as [|i rest IH]; cbn [await_main_branch List.length poll_sleep_budget].
  - apply costs_pure.
  - pose proof (poll_sleep_budget_nonneg retries rest) as Hb.
    assert (Hp : 0 <= 2 ^ Z.of_nat i) by (apply Z.pow_nonneg; lia).
    apply (costs_and_then _ _ 2
             (if (i <? retries - 1)%nat then 2 ^ Z.of_nat i else 0)
             (2 * List.length rest) (poll_sleep_budget retries rest));
      try lia.
    + apply (costs_except _ _ 2 0 0
               (if (i <? retries - 1)%nat then 2 ^ Z.of_nat i else 0));
        try lia; [| | destruct (i <? retries - 1)%nat; lia].
      * cost_seq 2%nat 0 0%nat 0; [apply costs_get_main_branch_sha | apply costs_pure].
      * intro r. destruct (status_code r =? 404); cbn [andb].
        -- destruct (i <? retries - 1)%nat.
           ++ cost_seq 0%nat (2 ^ Z.of_nat i) 0%nat 0;
                [apply costs_sleep; lia | apply costs_pure].
           ++ apply costs_throw.
        -- apply (costs_weaken _ 0 0 0); [apply costs_throw | lia |].
           destruct (i <? retries - 1)%nat; lia.
    + intros ready. destruct ready.
      * apply (costs_weaken _ 0 _ 0); [apply costs_pure | lia | lia].
      * exact IH.
Qed.

Lemma costs_create_repository : costs (create_repository_if_not_exists cfg) 22 526.
Proof.
  unfold create_repository_if_not_exists.
  apply (costs_except _ _ 1 0 21 526); try lia.
  - cost_seq 1%nat 0 0%nat 0; [apply costs_call | apply costs_pure].
  - intro r. apply costs_if.
    + cost_seq 1%nat 0 20%nat 526; [apply costs_call|].
      cost_seq 0%nat 15 20%nat 511; [apply costs_sleep; lia|].
      exact (costs_await_main_branch 10 (seq 0 10)).
    + apply (costs_weaken _ 0 21 0 526); [apply costs_throw | lia | lia].
Qed.

Lemma costs_create_branch (branch_name : string) (base_sha : json) :
  costs (create_branch cfg branch_name base_sha) 1 0.
Proof.
  unfold create_branch. cost_seq 1%nat 0 0%nat 0; [apply costs_call | apply costs_pure].
Qed.

Lemma costs_get_file_content (file_path : option string) (branch : string) :
  costs (get_file_content cfg file_path branch) 1 0.
Proof.
  intros rem w.
  destruct (get_file_content_eq cfg rem file_path branch w) as (res & -> & _).
  cbn [snd].
  destruct (after_call_cost rem w (rq_contents cfg file_path branch)) as (H1 & H2 & H3).
  lia.
Qed.

Lemma costs_update_file_and_commit
      (branch_name : string) (file_path : option string)
      (content commit_message : string) (current_sha : json) :
  costs (update_file_and_commit cfg branch_name file_path content commit_message
                                current_sha) 1 0.
Proof.
  intros rem w. rewrite update_file_and_commit_world.
  destruct (after_call_cost rem w
              (mkRequest "PUT" (get_contents_url cfg file_path)
                 (Some (commit_data rem branch_name content commit_message
                                    current_sha)))) as (H1 & H2 & H3).
  lia.
Qed.

Lemma costs_create_pull_request (head_branch base_branch title body : string) :
  costs (create_pull_request cfg head_branch base_branch title body) 1 0.
Proof.
  unfold create_pull_request. cost_seq 1%nat 0 0%nat 0; [apply costs_call|].
  cost_seq 0%nat 0 0%nat 0; [apply costs_json_of | apply costs_subscript].
Qed.

Lemma costs_merge_pull_request (pr_number : json) :
  costs (merge_pull_request cfg pr_number) 1 0.
Proof.
  intros rem w. unfold merge_pull_request.
  refine (costs_and_then _ _ 1 0 0 0 1 0 _ _ _ _ _ rem w);
    [apply costs_call | intro; apply costs_pure | lia | lia | lia].
Qed.

Lemma costs_delete_branch (branch_name : string) :
  costs (delete_branch cfg branch_name) 1 0.
Proof.
  unfold delete_branch. apply (costs_except _ _ 1 0 0 0); try lia.
  - cost_seq 1%nat 0 0%nat 0; [apply costs_call | apply costs_pure].
  - intro r. apply costs_if; [apply costs_pure | apply costs_throw].
Qed.

Lemma costs_log_event (message : string) : costs (log_event cfg message) 2 0.
Proof.
  unfold log_event. cost_seq 0%nat 0 2%nat 0.
  - intros rem w. unfold current_time_ist; cbn [snd api_calls events]. lia.
  - cost_seq 1%nat 0 1%nat 0; [apply costs_get_file_content|].
    destruct a0 as [content sha].
    destruct (PyStr.first_line message).
    + cost_seq 1%nat 0 0%nat 0;
        [apply costs_update_file_and_commit | apply costs_pure].
    + apply (costs_weaken _ 0 1 0 0); [apply costs_throw | lia | lia].
Qed.

End FunctionCosts.

(** X16: whatever the remote side does, one call of
    [create_repository_if_not_exists] makes at most 22 calls of
    [github_api_call] (the check, the creation and ten polls of two
    branches), hence at most 110 HTTP requests, and sleeps at most
    15 + 511 seconds itself. *)
Theorem create_repository_bounded (cfg : Main.Config) (rem : Remote) (w : World) :
  (api_calls (snd (create_repository_if_not_exists cfg rem w))
   <= api_calls w + 22)%nat
  /\ (http_requests (events (snd (create_repository_if_not_exists cfg rem w)))
      <= http_requests (events w) + 110)%nat
  /\ total_slept (events (snd (create_repository_if_not_exists cfg rem w)))
     <= total_slept (events w) + 526.
Proof.
  destruct (costs_create_repository cfg rem w) as (H1 & H2 & H3). lia.
Qed.

Lemma costs_try_body (cfg : Main.Config) (host : Host) :
  costs (try_body cfg host) 32 541.
Proof.
  unfold try_body.
  cost_seq 22%nat 526 10%nat 15; [apply costs_create_repository|].
  cost_seq 2%nat 0 8%nat 15; [apply costs_get_main_branch_sha|].
  cost_seq 1%nat 0 7%nat 15; [apply costs_create_branch|].
  cost_seq 1%nat 0 6%nat 15; [apply costs_call|].
  cost_seq 0%nat 0 6%nat 15; [apply costs_json_of|].
  cost_seq 0%nat 0 6%nat 15; [apply costs_subscript|].
  cost_seq 0%nat 0 6%nat 15; [apply costs_subscript|].
  cost_seq 1%nat 0 5%nat 15; [apply costs_update_file_and_commit|].
  cost_seq 1%nat 0 4%nat 15; [apply costs_create_pull_request|].
  cost_seq 0%nat 5 4%nat 10; [apply costs_sleep; lia|].
  cost_seq 1%nat 0 3%nat 10; [apply costs_merge_pull_request|].
  cost_seq 2%nat 0 1%nat 10; [intros rem w; apply costs_log_event|].
  cost_seq 0%nat 10 1%nat 0; [apply costs_sleep; lia|].
  apply costs_delete_branch.
Qed.

(** X25: whatever the remote side does, one run of the script makes at
    most 34 calls of [github_api_call], hence at most 170 HTTP requests,
    and sleeps at most 541 seconds outside of those calls. *)
Theorem run_budget (cfg : Main.Config) (host : Host) (rem : Remote) :
  (api_calls (fst (main cfg host rem)) <= 34)%nat
  /\ (http_requests (events (fst (main cfg host rem))) <= 170)%nat
  /\ total_slept (events (fst (main cfg host rem))) <= 541.
Proof.
  unfold main.
  destruct (Main.py_not (Main.GITHUB_TOKEN cfg)); [cbn; lia|].
  destruct (Main.py_not (Main.REPO_OWNER cfg) || Main.py_not (Main.REPO_NAME cfg)
            || Main.py_not (Main.LOG_FILE_PATH cfg)); [cbn; lia|].
  destruct (costs_try_body cfg host rem start) as (H1 & H2 & H3).
  change (api_calls start) with 0%nat in H1.
  change (total_slept (events start)) with 0 in H2.
  change (http_requests (events start)) with 0%nat in H3.
  destruct (try_body cfg host rem start) as [[u|e] w]; cbn [fst snd] in *; [lia|].
  unfold except_clause. destruct (error_message host e) as [msg|]; cbn [fst]; [|lia].
  destruct (costs_log_event cfg ("Failed to complete automation: " ++ msg) rem w)
    as (L1 & L2 & L3).
  lia.
Qed.

(** ** A run in which everything goes well *)

Section AllGoesWell.

Variables (cfg : Main.Config) (host : Host) (rem : Remote).
Variables (items o c : list (string * json)) (sha1 sha2 n enc sha3 : json) (old : string).

Hypothesis answers : forall k rq, exists r, fst (Exec.run (api rem k rq)) = Exec.Val r.
Hypothesis decodes : forall r, response_json (lib rem) r = Some (JDict items).
Hypothesis has_object : dict_get items "object" = Some (JDict o).
Hypothesis has_object_sha : dict_get o "sha" = Some sha1.
Hypothesis has_commit : dict_get items "commit" = Some (JDict c).
Hypothesis has_commit_sha : dict_get c "sha" = Some sha2.
Hypothesis has_number : dict_get items "number" = Some n.
Hypothesis has_content : dict_get items "content" = Some enc.
Hypothesis content_decodes : b64decode_utf8 (lib rem) enc = Some old.
Hypothesis has_sha : dict_get items "sha" = Some sha3.











Lemma outline_app (evs1 evs2 : list event) :
  outline (evs1 ++ evs2) = outline evs1 ++ outline evs2.
Proof.
  induction evs1 as [|[rq tr|d] evs1 IH]; simpl; congruence.
Qed.

Lemma outline_after_call (w : World) (rq : Request) :
  outline (events (after_call rem w rq)) = outline (events w) ++ [inl (endpoint rq)].
Proof.
  unfold after_call; cbn [events]. now rewrite outline_app.
Qed.


End AllGoesWell.



(** ** A run that fails *)

Lemma log_event_outline (cfg : Main.Config) (rem : Remote) (message summary : string)
      (w : World) :
  PyStr.first_line message = Some summary ->
  exists rest,
    outline (events (snd (log_event cfg message rem w)))
    = outline (events w)
      ++ inl ("GET"%string,
              (get_contents_url cfg (Main.LOG_FILE_PATH cfg) ++ "?ref=main")%string)
         :: rest
    /\ (rest = []
        \/ rest = [inl ("PUT"%string, get_contents_url cfg (Main.LOG_FILE_PATH cfg))]).
Proof.
  intros Hm.
  destruct (get_file_content_eq cfg rem (Main.LOG_FILE_PATH cfg) "main"
                                (after_time_read w)) as (res & Hg & _).
  destruct res as [[content sha]|e].
  - rewrite (log_event_committing cfg rem message summary w _ content sha Hg Hm).
    rewrite !outline_after_call. cbn [events after_time_read].
    rewrite <- app_assoc. eexists. split; [reflexivity | right; reflexivity].
  - unfold log_event. unfold and_then at 1. unfold current_time_ist at 1.
    fold (after_time_read w). unfold and_then at 1. rewrite Hg. cbn [snd].
    rewrite outline_after_call. cbn [events after_time_read].
    eexists. split; [reflexivity | left; reflexivity].
Qed.

(** X27: when the [try] block raises an exception whose text has a first
    line, the run ends with [exit(1)] after one attempt to log the
    failure: that attempt always reads the log file (its message is never
    empty) and commits at most once, and nothing it raises changes the
    exit status. *)
Theorem failed_run_logs_and_exits_1
        (cfg : Main.Config) (host : Host) (rem : Remote) (e : exn) (w : World)
        (msg : string) :
  configured cfg ->
  try_body cfg host rem start = (Raised e, w) ->
  error_message host e = Some msg ->
  snd (main cfg host rem) = Main.SystemExit 1
  /\ exists rest,
      outline (events (fst (main cfg host rem)))
      = outline (events w)
        ++ inl ("GET"%string,
                (get_contents_url cfg (Main.LOG_FILE_PATH cfg) ++ "?ref=main")%string)
           :: rest
      /\ (rest = []
          \/ rest = [inl ("PUT"%string, get_contents_url cfg (Main.LOG_FILE_PATH cfg))]).
Proof.
  intros (C1 & C2 & C3 & C4) Ht He.
  unfold main. rewrite C1, C2, C3, C4. cbn [orb]. rewrite Ht.
  unfold except_clause. rewrite He. cbn [fst snd].
  split; [reflexivity|].
  apply (log_event_outline cfg rem _
           (PyStr.upto_linebreak ("Failed to complete automation: " ++ msg))).
  reflexivity.
Qed.

Lemma failed_run_logs_and_exits_1_witness :
  snd (main sample_config sample_host
            (same_server catch_all_object (Obs.always (Responded conflict_409) 1000)))
  = Main.SystemExit 1
  /\ exists rest,
      outline
        (events (fst (main sample_config sample_host
                           (same_server catch_all_object
                                        (Obs.always (Responded conflict_409) 1000)))))
      = outline
          (events (snd (try_body sample_config sample_host
                          (same_server catch_all_object
                                       (Obs.always (Responded conflict_409) 1000))
                          start)))
        ++ inl ("GET"%string,
                (get_contents_url sample_config (Main.LOG_FILE_PATH sample_config)
                 ++ "?ref=main")%string)
           :: rest
      /\ (rest = []
          \/ rest = [inl ("PUT"%string,
                          get_contents_url sample_config
                                           (Main.LOG_FILE_PATH sample_config))]).
Proof.
  apply (failed_run_logs_and_exits_1
           sample_config sample_host
           (same_server catch_all_object (Obs.always (Responded conflict_409) 1000))
           (ApiError (HTTPError conflict_409))
           _ "Fatal GitHub API Error: 409 - Pull Request is not mergeable").
  - repeat split.
  - reflexivity.
  - reflexivity.
Defined.

(** ** The deletion of the branch *)

Lemma no_delete_nil : no_delete [].
Proof. intros u []. Qed.

Lemma no_delete_app (o1 o2 : list (string * string + Z)) :
  no_delete o1 -> no_delete o2 -> no_delete (o1 ++ o2).
Proof.
  intros H1 H2 u Hin. apply in_app_or in Hin.
  destruct Hin as [Hin|Hin]; [now apply (H1 u) | now apply (H2 u)].
Qed.

Lemma no_delete_endpoint (m u : string) :
  m <> "DELETE"%string -> no_delete [inl (m, u)].
Proof.
  intros Hm u' [Heq | []]. injection Heq as Heq _. contradiction.
Qed.

Lemma no_delete_sleep (d : Z) : no_delete [inr d].
Proof. intros u [Heq | []]. discriminate. Qed.

(** A step that leaves the events as they are deletes nothing. *)
Lemma silent_deletes_nothing {A} (m : Run A) :
  (forall rem w, events (snd (m rem w)) = events w) -> deletes_nothing m.
Proof.
  intros H rem w. exists []. rewrite H, app_nil_r.
  split; [reflexivity | apply no_delete_nil].
Qed.

Section DeletesNothing.

Context {A B : Type}.

Lemma pure_deletes_nothing (a : A) : deletes_nothing (pure a).
Proof. now apply silent_deletes_nothing. Qed.

Lemma throw_deletes_nothing (e : exn) : deletes_nothing (@throw A e).
Proof. now apply silent_deletes_nothing. Qed.

Lemma and_then_deletes_nothing (m : Run A) (k : A -> Run B) :
  deletes_nothing m -> (forall a, deletes_nothing (k a)) ->
  deletes_nothing (and_then m k).
Proof.
  intros Hm Hk rem w. unfold and_then.
  destruct (Hm rem w) as (o1 & E1 & N1).
  destruct (m rem w) as [[a|e] w1]; cbn [snd] in *.
  - destruct (Hk a rem w1) as (o2 & E2 & N2).
    exists (o1 ++ o2). rewrite E2, E1, app_assoc.
    split; [reflexivity | now apply no_delete_app].
  - now exists o1.
Qed.

Lemma if_deletes_nothing (b : bool) (m1 m2 : Run A) :
  deletes_nothing m1 -> deletes_nothing m2 ->
  deletes_nothing (if b then m1 else m2).
Proof. now destruct b. Qed.

Lemma except_deletes_nothing (m : Run A) (h : Response -> Run A) :
  deletes_nothing m -> (forall r, deletes_nothing (h r)) ->
  deletes_nothing (except_HTTPError m h).
Proof.
  intros Hm Hh rem w. unfold except_HTTPError.
  destruct (Hm rem w) as (o1 & E1 & N1).
  destruct (m rem w) as [[a|e] w1]; cbn [snd] in *; [now exists o1|].
  destruct e as [[r| | | |msg| |]| | | | |]; try (now exists o1).
  destruct (Hh r rem w1) as (o2 & E2 & N2).
  exists (o1 ++ o2). rewrite E2, E1, app_assoc.
  split; [reflexivity | now apply no_delete_app].
Qed.

End DeletesNothing.

Lemma call_deletes_nothing (method url : string) (body : option json) :
  method <> "DELETE"%string -> deletes_nothing (github_api_call method url body).
Proof.
  intros Hm rem w. rewrite github_api_call_eq. cbn [snd].
  rewrite outline_after_call. eexists. split; [reflexivity|].
  now apply no_delete_endpoint.
Qed.

Lemma sleep_deletes_nothing (seconds : Z) : deletes_nothing (time_sleep seconds).
Proof.
  intros rem w.
  destruct (time_sleep_cases rem seconds w) as [-> | (e & -> & _)]; cbn [snd].
  - unfold after_sleep; cbn [events]. rewrite outline_app. cbn [outline].
    eexists. split; [reflexivity | apply no_delete_sleep].
  - exists []. rewrite app_nil_r. split; [reflexivity | apply no_delete_nil].
Qed.

Lemma json_of_deletes_nothing (r : Response) : deletes_nothing (json_of r).
Proof.
  apply silent_deletes_nothing. intros rem w. unfold json_of.
  now destruct (response_json (lib rem) r).
Qed.

Lemma subscript_deletes_nothing (v : json) (key : string) :
  deletes_nothing (subscript v key).
Proof.
  apply silent_deletes_nothing. intros rem w. unfold subscript.
  destruct v as [| | | | |items]; try reflexivity.
  now destruct (dict_get items key).
Qed.

Section FunctionsDeleteNothing.

Variable cfg : Main.Config.

Lemma get_main_branch_sha_deletes_nothing :
  deletes_nothing (get_main_branch_sha cfg).
Proof.
  unfold get_main_branch_sha.
  apply and_then_deletes_nothing.
  - apply except_deletes_nothing; [apply call_deletes_nothing; discriminate|].
    intro r. apply if_deletes_nothing;
      [apply call_deletes_nothing; discriminate | apply throw_deletes_nothing].
  - intro r. apply and_then_deletes_nothing; [apply json_of_deletes_nothing|].
    intro v. apply and_then_deletes_nothing;
      [apply subscript_deletes_nothing | intro; apply subscript_deletes_nothing].
Qed.

Lemma await_main_branch_deletes_nothing (retries : nat) (range : list nat) :
  deletes_nothing (await_main_branch cfg retries range).
Proof.
  induction range as [|i rest IH]; cbn [await_main_branch].
  - apply pure_deletes_nothing.
  - apply and_then_deletes_nothing.
    + apply except_deletes_nothing.
      * apply and_then_deletes_nothing;
          [apply get_main_branch_sha_deletes_nothing
          | intro; apply pure_deletes_nothing].
      * intro r. apply if_deletes_nothing; [|apply throw_deletes_nothing].
        apply and_then_deletes_nothing;
          [apply sleep_deletes_nothing | intro; apply pure_deletes_nothing].
    + intros ready. destruct ready; [apply pure_deletes_nothing | exact IH].
Qed.

Lemma create_repository_deletes_nothing :
  deletes_nothing (create_repository_if_not_exists cfg).
Proof.
  unfold create_repository_if_not_exists.
  apply except_deletes_nothing.
  - apply and_then_deletes_nothing;
      [apply call_deletes_nothing; discriminate | intro; apply pure_deletes_nothing].
  - intro r. apply if_deletes_nothing; [|apply throw_deletes_nothing].
    apply and_then_deletes_nothing; [apply call_deletes_nothing; discriminate|].
    intro. apply and_then_deletes_nothing; [apply sleep_deletes_nothing|].
    intro. apply await_main_branch_deletes_nothing.
Qed.

Lemma create_branch_deletes_nothing (branch_name : string) (base_sha : json) :
  deletes_nothing (create_branch cfg branch_name base_sha).
Proof.
  unfold create_branch.
  apply and_then_deletes_nothing;
    [apply call_deletes_nothing; discriminate | intro; apply pure_deletes_nothing].
Qed.

Lemma get_file_content_deletes_nothing (file_path : option string) (branch : string) :
  deletes_nothing (get_file_content cfg file_path branch).
Proof.
  intros rem w.
  destruct (get_file_content_eq cfg rem file_path branch w) as (res & -> & _).
  cbn [snd]. rewrite outline_after_call. eexists. split; [reflexivity|].
  apply no_delete_endpoint. discriminate.
Qed.

Lemma update_file_and_commit_deletes_nothing
      (branch_name : string) (file_path : option string)
      (content commit_message : string) (current_sha : json) :
  deletes_nothing (update_file_and_commit cfg branch_name file_path content
                                          commit_message current_sha).
Proof.
  intros rem w. rewrite update_file_and_commit_world, outline_after_call.
  eexists. split; [reflexivity|]. apply no_delete_endpoint. discriminate.
Qed.

Lemma log_event_deletes_nothing (message : string) :
  deletes_nothing (log_event cfg message).
Proof.
  unfold log_event.
  apply and_then_deletes_nothing; [now apply silent_deletes_nothing|].
  intro now. apply and_then_deletes_nothing;
    [apply get_file_content_deletes_nothing|].
  intros [content sha]. destruct (PyStr.first_line message);
    [|apply throw_deletes_nothing].
  apply and_then_deletes_nothing;
    [apply update_file_and_commit_deletes_nothing | intro; apply pure_deletes_nothing].
Qed.

(** The three calls between the commit and the deletion: what each adds
    to the outline. *)
Lemma create_pull_request_world
      (head_branch base_branch title body : string) (rem : Remote) (w : World) :
  outline (events (snd (create_pull_request cfg head_branch base_branch title body
                                            rem w)))
  = outline (events w) ++ [inl ("POST"%string, get_pulls_url cfg)].
Proof.
  unfold create_pull_request. unfold and_then at 1.
  rewrite github_api_call_eq.
  destruct (outcome_of rem w _) as [r|e]; cbn [as_result];
    [|cbn [snd]; now rewrite outline_after_call].
  unfold and_then, json_of, subscript.
  destruct (response_json (lib rem) r) as [[| | | | |items]|]; cbn [pure throw snd];
    try now rewrite outline_after_call.
  destruct (dict_get items "number"); cbn [pure throw snd];
    now rewrite outline_after_call.
Qed.

Lemma merge_pull_request_world (pr_number : json) (rem : Remote) (w : World) :
  outline (events (snd (merge_pull_request cfg pr_number rem w)))
  = outline (events w)
    ++ [inl ("PUT"%string, get_pull_merge_url cfg (py_str (lib rem) pr_number))].
Proof.
  unfold merge_pull_request. unfold and_then at 1.
  rewrite github_api_call_eq.
  destruct (outcome_of rem w _) as [r|e]; cbn [as_result pure snd];
    now rewrite outline_after_call.
Qed.

Lemma delete_branch_world (branch_name : string) (rem : Remote) (w : World) :
  outline (events (snd (delete_branch cfg branch_name rem w)))
  = outline (events w) ++ [inl ("DELETE"%string, get_ref_url cfg "heads" branch_name)].
Proof.
  unfold delete_branch, except_HTTPError. unfold and_then at 1.
  rewrite github_api_call_eq.
  destruct (outcome_of rem w _) as [r|e]; cbn [as_result pure snd].
  - now rewrite outline_after_call.
  - destruct e as [r| | | |msg| |]; cbn [snd]; try now rewrite outline_after_call.
    destruct (status_code r =? 422); cbn [pure throw snd];
      now rewrite outline_after_call.
Qed.

(** A [log_event] that returns has read the log and written it. *)
Lemma log_event_returned (message : string) (rem : Remote) (w w' : World) :
  log_event cfg message rem w = (Ok tt, w') ->
  outline (events w')
  = outline (events w)
    ++ [inl ("GET"%string,
             (get_contents_url cfg (Main.LOG_FILE_PATH cfg) ++ "?ref=main")%string);
        inl ("PUT"%string, get_contents_url cfg (Main.LOG_FILE_PATH cfg))].
Proof.
  intros H.
  destruct (get_file_content_eq cfg rem (Main.LOG_FILE_PATH cfg) "main"
                                (after_time_read w)) as (res & Hg & _).
  destruct res as [[content sha]|e].
  - destruct (PyStr.first_line message) as [summary|] eqn:Hm.
    + pose proof (log_event_committing cfg rem message summary w _ content sha Hg Hm)
        as Hw.
      rewrite H in Hw. cbn [snd] in Hw. subst w'.
      rewrite !outline_after_call. cbn [events after_time_read].
      now rewrite <- app_assoc.
    + unfold log_event in H. unfold and_then at 1 in H.
      unfold current_time_ist at 1 in H. fold (after_time_read w) in H.
      unfold and_then at 1 in H. rewrite Hg, Hm in H. discriminate H.
  - unfold log_event in H. unfold and_then at 1 in H.
    unfold current_time_ist at 1 in H. fold (after_time_read w) in H.
    unfold and_then at 1 in H. rewrite Hg in H. discriminate H.
Qed.

Variable host : Host.

Lemma and_then_ends_with_deletion {A B} (m : Run A) (k : A -> Run B) :
  deletes_nothing m -> (forall a, ends_with_deletion cfg host (k a)) ->
  ends_with_deletion cfg host (and_then m k).
Proof.
  intros Hm Hk rem w Hw. unfold and_then.
  destruct (Hm rem w) as (o1 & E1 & N1).
  destruct (m rem w) as [[a|e] w1]; cbn [snd] in *.
  - apply Hk. rewrite E1. now apply no_delete_app.
  - left. rewrite E1. now apply no_delete_app.
Qed.

(** From the pull request on. *)
Lemma closing_steps_end_with_deletion :
  ends_with_deletion cfg host
    (pr_number <- create_pull_request cfg (branch_name host) "main"
                                      (pr_title host) (pr_body host) ;;
     time_sleep 5 ;;;
     merge_pull_request cfg pr_number ;;;
     (fun rem => log_event cfg (merged_message host (py_str (lib rem) pr_number)) rem) ;;;
     time_sleep 10 ;;;
     delete_branch cfg (branch_name host))%script.
Proof.
  intros rem w Hw.
  match goal with
  | |- context [snd ?x] => remember (snd x) as w' eqn:Hw'
  end.
  unfold and_then at 1 in Hw'.
  pose proof (create_pull_request_world (branch_name host) "main" (pr_title host)
                                        (pr_body host) rem w) as E1.
  destruct (create_pull_request cfg (branch_name host) "main" (pr_title host)
                                (pr_body host) rem w) as [[pr_number|e] w1];
    cbn [snd] in *.
  2: { left. subst w'. rewrite E1. apply no_delete_app; [exact Hw|].
       apply no_delete_endpoint. discriminate. }
  unfold and_then at 1 in Hw'.
  rewrite (time_sleep_small rem) in Hw' by (unfold Exec.SAFE_SLEEP; lia).
  unfold and_then at 1 in Hw'.
  pose proof (merge_pull_request_world pr_number rem (after_sleep w1 5)) as E2.
  unfold after_sleep at 2 in E2. cbn [events] in E2.
  rewrite outline_app, E1 in E2. cbn [outline] in E2.
  destruct (merge_pull_request cfg pr_number rem (after_sleep w1 5)) as [[[]|e] w2];
    cbn [snd] in *.
  2: { left. subst w'. rewrite E2.
       repeat apply no_delete_app; auto using no_delete_sleep;
         apply no_delete_endpoint; discriminate. }
  unfold and_then at 1 in Hw'.
  destruct (log_event cfg (merged_message host (py_str (lib rem) pr_number)) rem w2)
    as [[[]|e] w3] eqn:E3; cbn [snd] in *.
  2: { left. subst w'.
       destruct (log_event_deletes_nothing
                   (merged_message host (py_str (lib rem) pr_number)) rem w2)
         as (o & Eo & No).
       rewrite E3 in Eo. cbn [snd] in Eo. rewrite Eo, E2.
       repeat apply no_delete_app; auto using no_delete_sleep;
         apply no_delete_endpoint; discriminate. }
  apply log_event_returned in E3.
  unfold and_then at 1 in Hw'.
  rewrite (time_sleep_small rem) in Hw' by (unfold Exec.SAFE_SLEEP; lia).
  right. exists (outline (events w)), (py_str (lib rem) pr_number).
  split; [|exact Hw].
  subst w'. rewrite delete_branch_world. unfold after_sleep; cbn [events].
  rewrite outline_app, E3, E2. cbn [outline].
  rewrite <- !app_assoc. reflexivity.
Qed.

Lemma try_body_ends_with_deletion : ends_with_deletion cfg host (try_body cfg host).
Proof.
  unfold try_body.
  apply and_then_ends_with_deletion; [apply create_repository_deletes_nothing|].
  intros _.
  apply and_then_ends_with_deletion; [apply get_main_branch_sha_deletes_nothing|].
  intros main_branch_sha.
  apply and_then_ends_with_deletion; [apply create_branch_deletes_nothing|].
  intros _.
  apply and_then_ends_with_deletion; [apply call_deletes_nothing; discriminate|].
  intros response.
  apply and_then_ends_with_deletion; [apply json_of_deletes_nothing|].
  intros v.
  apply and_then_ends_with_deletion; [apply subscript_deletes_nothing|].
  intros object.
  apply and_then_ends_with_deletion; [apply subscript_deletes_nothing|].
  intros sha.
  apply and_then_ends_with_deletion; [apply update_file_and_commit_deletes_nothing|].
  intros _.
  apply closing_steps_end_with_deletion.
Qed.

End FunctionsDeleteNothing.

(** X12: in every run, whatever the remote side does, at most one call
    of [github_api_call] is a DELETE (the retries inside that call are
    not counted), it is the deletion of the ref of the feature branch,
    and the calls and sleeps of the run just before it are, in this
    order: the POST of the pull request, a sleep of five seconds, the
    PUT of the merge, the GET and the PUT of the log, a sleep of ten
    seconds. *)
Theorem branch_deleted_only_after_merge_and_log
        (cfg : Main.Config) (host : Host) (rem : Remote) (u : string) :
  In (inl ("DELETE"%string, u)) (outline (events (fst (main cfg host rem)))) ->
  exists before n after,
    outline (events (fst (main cfg host rem)))
    = before
      ++ [ inl ("POST", get_pulls_url cfg);
           inr 5;
           inl ("PUT", get_pull_merge_url cfg n);
           inl ("GET", get_contents_url cfg (Main.LOG_FILE_PATH cfg) ++ "?ref=main");
           inl ("PUT", get_contents_url cfg (Main.LOG_FILE_PATH cfg));
           inr 10;
           inl ("DELETE", get_ref_url cfg "heads" (branch_name host)) ]%string
      ++ after
    /\ no_delete before
    /\ no_delete after.
Proof.
  unfold main.
  destruct (Main.py_not (Main.GITHUB_TOKEN cfg)); [intros []|].
  destruct (Main.py_not (Main.REPO_OWNER cfg) || Main.py_not (Main.REPO_NAME cfg)
            || Main.py_not (Main.LOG_FILE_PATH cfg)); [intros []|].
  pose proof (try_body_ends_with_deletion cfg host rem start no_delete_nil) as Ht.
  destruct (try_body cfg host rem start) as [[[]|e] w]; cbn [fst snd] in *.
  - intros Hin. destruct Ht as [Hq | (before & n & E & Hb)];
      [now apply Hq in Hin|].
    exists before, n, []. rewrite E.
    split; [reflexivity | split; [exact Hb | apply no_delete_nil]].
  - unfold except_clause.
    destruct (error_message host e) as [msg|]; cbn [fst].
    + destruct (log_event_deletes_nothing
                  cfg ("Failed to complete automation: " ++ msg) rem w)
        as (o & Eo & No).
      rewrite Eo. intros Hin.
      destruct Ht as [Hq | (before & n & E & Hb)].
      * exfalso. apply in_app_or in Hin.
        destruct Hin as [Hin|Hin]; [now apply Hq in Hin | now apply No in Hin].
      * exists before, n, o. rewrite E, <- app_assoc.
        split; [reflexivity | split; assumption].
    + intros Hin. destruct Ht as [Hq | (before & n & E & Hb)];
        [now apply Hq in Hin|].
      exists before, n, []. rewrite E.
      split; [reflexivity | split; [exact Hb | apply no_delete_nil]].
Qed.

Lemma branch_deleted_only_after_merge_and_log_witness :
  exists before n after,
    outline
      (events (fst (main sample_config sample_host
                         (same_server catch_all_object
                                      (Obs.always (Responded Obs.ok_200) 1000)))))
    = before
      ++ [ inl ("POST", get_pulls_url sample_config);
           inr 5;
           inl ("PUT", get_pull_merge_url sample_config n);
           inl ("GET", get_contents_url sample_config
                         (Main.LOG_FILE_PATH sample_config) ++ "?ref=main");
           inl ("PUT", get_contents_url sample_config
                         (Main.LOG_FILE_PATH sample_config));
           inr 10;
           inl ("DELETE", get_ref_url sample_config "heads"
                            (branch_name sample_host)) ]%string
      ++ after
    /\ no_delete before
    /\ no_delete after.
Proof.
  apply (branch_deleted_only_after_merge_and_log
           sample_config sample_host
           (same_server catch_all_object (Obs.always (Responded Obs.ok_200) 1000))
           (get_ref_url sample_config "heads" (branch_name sample_host))).
  vm_compute. do 11 right. left. reflexivity.
Defined.
